(** * finch: the ensemble pipeline of [finch/processes/ensemble_utils.py]
    and the progress reporting of [finch/processes/base.py].

    The Python code is embedded shallowly: pure helpers become functions,
    the request handler becomes a computation in a small trace-and-error
    monad, dictionaries become [gmap]s or association lists (where the
    insertion order is observable), and the calls into xarray, xclim,
    pywps and siphon are parameters of the sections that use them. *)

From Stdlib Require Import String Ascii List ZArith Lia Bool.
From Stdlib Require Import PrimFloat FloatOps SpecFloat.
From Stdlib Require Uint63.
From stdpp Require Import gmap strings pretty.
Import ListNotations.

Local Open Scope string_scope.
Local Open Scope list_scope.

#[local] Arguments String.append !_ _ / : simpl nomatch.

(* ===================================================================== *)
(** ** Python [str] operations used by the code

    A Python string is modelled as a Rocq [string]; every character is
    read as the code point of the same number, and the functions below
    follow Python on the ASCII range (letter case, white space, digits). *)
(* ===================================================================== *)

Module PyStr.

Definition is_upper (c : ascii) : bool :=
  let n := nat_of_ascii c in (65 <=? n)%nat && (n <=? 90)%nat.

Definition lower_char (c : ascii) : ascii :=
  if is_upper c then ascii_of_nat (nat_of_ascii c + 32) else c.

(** [s.lower()] *)
Fixpoint lower (s : string) : string :=
  match s with
  | EmptyString => EmptyString
  | String c s' => String (lower_char c) (lower s')
  end.

(** [s.startswith(p)] *)
Definition startswith (s p : string) : bool := String.prefix p s.

(** [sub in s] on two strings *)
Fixpoint contains (sub s : string) : bool :=
  String.prefix sub s ||
  match s with
  | EmptyString => false
  | String _ s' => contains sub s'
  end.

(** [x in l] on a list of strings *)
Definition in_list (x : string) (l : list string) : bool :=
  existsb (String.eqb x) l.

(** [s[n:]] *)
Fixpoint drop (n : nat) (s : string) : string :=
  match n, s with
  | O, _ => s
  | S _, EmptyString => EmptyString
  | S n', String _ s' => drop n' s'
  end.

(** [s.replace(old, new, 1)]: the first occurrence of [old], if any,
    is replaced.  (An empty [old] occurs at position 0.) *)
Fixpoint replace_first (old new s : string) : string :=
  if String.prefix old s then new +:+ drop (String.length old) s
  else match s with
       | EmptyString => EmptyString
       | String c s' => String c (replace_first old new s')
       end.

(** [sep.join(l)] *)
Fixpoint join (sep : string) (l : list string) : string :=
  match l with
  | [] => ""
  | [x] => x
  | x :: rest => x +:+ sep +:+ join sep rest
  end.

(** [s.split(c)] for a one-character separator: always at least one
    item, empty items are kept. *)
Fixpoint split (c : ascii) (s : string) : list string :=
  match s with
  | EmptyString => [""]
  | String a s' =>
      if Ascii.eqb a c then "" :: split c s'
      else match split c s' with
           | [] => [String a ""]
           | x :: rest => String a x :: rest
           end
  end.

(** White space as [str.isspace] has it below code point 256. *)
Definition is_space (c : ascii) : bool :=
  let n := nat_of_ascii c in
  ((9 <=? n)%nat && (n <=? 13)%nat) || ((28 <=? n)%nat && (n <=? 32)%nat)
  || (n =? 133)%nat || (n =? 160)%nat.

Fixpoint lstrip (s : string) : string :=
  match s with
  | EmptyString => EmptyString
  | String c s' => if is_space c then lstrip s' else s
  end.

(** The string without its trailing white space. *)
Fixpoint rstrip (s : string) : string :=
  match s with
  | EmptyString => EmptyString
  | String c s' =>
      match rstrip s' with
      | EmptyString => if is_space c then EmptyString else String c EmptyString
      | r => String c r
      end
  end.

(** [s.strip()] *)
Definition strip (s : string) : string := rstrip (lstrip s).

(** [s.replace(old, new)] for a non-empty [old]: every occurrence, from
    the left, without overlap.  [skip] counts the characters of an
    occurrence that are still to be passed over. *)
Fixpoint replace_from (old new s : string) (skip : nat) : string :=
  match s with
  | EmptyString => EmptyString
  | String c s' =>
      match skip with
      | S k => replace_from old new s' k
      | O =>
          if String.prefix old s
          then new +:+ replace_from old new s' (String.length old - 1)
          else String c (replace_from old new s' 0)
      end
  end.

(** [s.replace(old, new)]; an empty [old] is found before every
    character and at the end. *)
Fixpoint intersperse (new s : string) : string :=
  match s with
  | EmptyString => new
  | String c s' => new +:+ String c (intersperse new s')
  end.

Definition replace (old new s : string) : string :=
  match old with
  | EmptyString => intersperse new s
  | _ => replace_from old new s 0
  end.

Definition is_digit (c : ascii) : bool :=
  let n := nat_of_ascii c in (48 <=? n)%nat && (n <=? 57)%nat.

(** The digits of an integer literal: decimal digits, with single
    underscores allowed between two digits. *)
Fixpoint digits_value (acc : Z) (after_digit : bool) (s : string) : option Z :=
  match s with
  | EmptyString => if after_digit then Some acc else None
  | String c s' =>
      if is_digit c
      then digits_value (10 * acc + Z.of_nat (nat_of_ascii c - 48)) true s'
      else if Ascii.eqb c "_" && after_digit then digits_value acc false s'
      else None
  end.

(** [int(s)]: white space around the literal is ignored, a sign may
    come first; anything else is a [ValueError], here [None]. *)
Definition int (s : string) : option Z :=
  match strip s with
  | String "-" s' => option_map Z.opp (digits_value 0 false s')
  | String "+" s' => digits_value 0 false s'
  | s' => digits_value 0 false s'
  end.

End PyStr.

(* ===================================================================== *)
(** ** The [parse] library, as far as [from_filename] uses it

    [parse(format, string)] compiles the format to a regular expression:
    the text between fields is matched literally, a field [{name}] without
    a format specification becomes the lazy group [(.+?)], the expression
    is anchored at both ends, and the match ignores letter case (the
    [case_sensitive] argument defaults to [False]) and lets [.] match
    every character.  The regular-expression engine tries the shortest
    value of each field first and backtracks. *)
(* ===================================================================== *)

Module Parse.

Inductive item : Type :=
| Lit (text : string)
| Field (name : string).

(** A literal matched at the start of [s] without regard to case; the
    rest of [s] is returned. *)
Fixpoint eat_literal (text s : string) : option string :=
  match text, s with
  | EmptyString, _ => Some s
  | String _ _, EmptyString => None
  | String a text', String b s' =>
      if Ascii.eqb (PyStr.lower_char a) (PyStr.lower_char b)
      then eat_literal text' s' else None
  end.

(** A lazy field followed by the rest of the expression [k]: the field
    takes one character, then one more each time [k] fails on what is
    left; [taken] is what the field has taken so far. *)
Fixpoint lazy_field (k : string -> option (list string)) (taken s : string)
  : option (list string) :=
  match s with
  | EmptyString => None
  | String c s' =>
      let taken' := taken +:+ String c "" in
      match k s' with
      | Some vs => Some (taken' :: vs)
      | None => lazy_field k taken' s'
      end
  end.

(** The values of the fields, in the order of the format, or [None]
    when the string does not match. *)
Fixpoint match_items (its : list item) (s : string) : option (list string) :=
  match its with
  | [] => match s with EmptyString => Some [] | _ => None end
  | Lit text :: rest =>
      match eat_literal text s with
      | Some s' => match_items rest s'
      | None => None
      end
  | Field _ :: rest => lazy_field (match_items rest) "" s
  end.

(** What a match is, without the search: the string is the values of
    the fields and texts equal to the literals up to letter case, one
    after the other, and no field is empty. *)
Inductive matches : list item -> string -> list string -> Prop :=
| matches_nil : matches [] "" []
| matches_lit text l rest s vs :
    PyStr.lower l = PyStr.lower text ->
    matches rest s vs ->
    matches (Lit text :: rest) (l +:+ s) vs
| matches_field name rest v s vs :
    v <> "" ->
    matches rest s vs ->
    matches (Field name :: rest) (v +:+ s) (v :: vs).

End Parse.

(* ===================================================================== *)
(** ** [Bccaqv2File] and [Bccaqv2File.from_filename] *)
(* ===================================================================== *)

Record Bccaqv2File : Type := mkBccaqv2File {
  variable : string;
  frequency : string;
  driving_model_id : string;
  driving_experiment_id : string;
  driving_realization : string;
  driving_initialization_method : string;
  driving_physics_version : string;
  date_start : option string;
  date_end : option string
}.

(** The format of [from_filename], the seven parts joined by ["_"]. *)
Definition pattern : list Parse.item :=
  [ Parse.Field "variable"; Parse.Lit "_";
    Parse.Field "frequency"; Parse.Lit "_BCCAQv2+ANUSPLIN300_";
    Parse.Field "driving_model_id"; Parse.Lit "_";
    Parse.Field "driving_experiment_id"; Parse.Lit "_r";
    Parse.Field "driving_realization"; Parse.Lit "i";
    Parse.Field "driving_initialization_method"; Parse.Lit "p";
    Parse.Field "driving_physics_version"; Parse.Lit "_";
    Parse.Field "date_start"; Parse.Lit "-";
    Parse.Field "date_end"; Parse.Lit ".nc" ].

(** [None] is the [return] of the [except AttributeError] branch, taken
    when [parse] found no match. *)
Definition from_filename (filename : string) : option Bccaqv2File :=
  match Parse.match_items pattern filename with
  | Some [v; f; m; e; r; i; p; d0; d1] =>
      Some (mkBccaqv2File v f m e r i p (Some d0) (Some d1))
  | _ => None
  end.


(* ===================================================================== *)
(** ** Exceptions and paths *)
(* ===================================================================== *)

(** The exceptions the embedded code raises itself, and [OtherError] for
    whatever a library call raises. *)
Inductive exn : Type :=
| ProcessError (message : string)
| NotImplementedError (message : string)
| RuntimeError (message : string)
| ValueError (message : string)
| KeyError (key : string)
| IndexError
| OtherError (what : string).

(** A result or a raised exception. *)
Definition result (A : Type) : Type := (exn + A)%type.

(** A [pathlib.Path] with a final component: the directory it is in and
    its [name], which holds no ["/"]. *)
Record Path : Type := mkPath {
  parent : string;
  name : string
}.

Module PyPath.

(** [str(path)] *)
Definition str (p : Path) : string := parent p +:+ "/" +:+ name p.

(** The index of the last ["."] of [s], counted from the left. *)
Fixpoint rfind_dot (s : string) : option nat :=
  match s with
  | EmptyString => None
  | String c s' =>
      match rfind_dot s' with
      | Some i => Some (S i)
      | None => if Ascii.eqb c "." then Some O else None
      end
  end.

(** [s[:n]] *)
Fixpoint take (n : nat) (s : string) : string :=
  match n, s with
  | O, _ => EmptyString
  | S _, EmptyString => EmptyString
  | S n', String c s' => String c (take n' s')
  end.

(** [path.suffix]: from the last dot of the name on, unless that dot is
    the first or the last character of the name. *)
Definition suffix (p : Path) : string :=
  match rfind_dot (name p) with
  | Some i =>
      if (0 <? i)%nat && (i <? String.length (name p) - 1)%nat
      then PyStr.drop i (name p) else ""
  | None => ""
  end.

(** [path.stem]: the name without its suffix. *)
Definition stem (p : Path) : string :=
  take (String.length (name p) - String.length (suffix p)) (name p).

(** [path.with_suffix(sfx)] for a suffix that is a dot followed by
    letters, as [".nc"] and [".csv"] are; a path with an empty name
    raises [ValueError]. *)
Definition with_suffix (p : Path) (sfx : string) : result Path :=
  if String.eqb (name p) "" then inl (ValueError "empty name")
  else inr (mkPath (parent p) (stem p +:+ sfx)).

(** [Path(s)]: the text after the last ["/"] is the name; a string
    without ["/"] is a file of the directory ["."]. *)
Fixpoint of_str_from (dir s : string) : Path :=
  match s with
  | EmptyString => mkPath dir EmptyString
  | String c s' =>
      let p := of_str_from dir s' in
      if Ascii.eqb c "/" && negb (PyStr.contains "/" s')
      then mkPath dir s'
      else if PyStr.contains "/" s' then mkPath (String c (parent p)) (name p)
      else mkPath dir s
  end.

Definition of_str (s : string) : Path :=
  if PyStr.contains "/" s then of_str_from "" s else mkPath "." s.

(** [Path(dir) / file] where [file] is a plain file name. *)
Definition div (dir file : string) : Path := mkPath dir file.

(** [path.parent / file] *)
Definition sibling (p : Path) (file : string) : Path := mkPath (parent p) file.

End PyPath.

(* ===================================================================== *)
(** ** Selecting the dataset files: [_bccaqv2_filter] and its callers *)
(* ===================================================================== *)

Inductive ParsingMethod : Type :=
| filename      (* parse the filename directly *)
| opendap_das   (* parse each Data Attribute Structure *)
| xarray.       (* open the dataset and look at the file attributes *)

(** Python's truth test of an optional list and of an optional string:
    [None] and the empty value are false. *)
Definition truthy_list {A} (l : option (list A)) : bool :=
  match l with Some (_ :: _) => true | _ => false end.

Definition truthy_str (s : option string) : bool :=
  match s with Some (String _ _) => true | _ => false end.

Definition list_str_eqb (a b : list string) : bool :=
  if decide (a = b) then true else false.

Section Datasets.

(** The names of [finch/processes/constants.py] the filter uses. *)
Variable ALL_24_MODELS : string.
Variable BCCAQV2_MODELS : list string.
Variable PCIC_12 : string.
Variable PCIC_12_MODELS_REALIZATIONS : list (string * string).

(** The models the filter works with: the [models] argument, replaced
    by [BCCAQV2_MODELS] when it is [None] or names all 24 models, in
    lower case. *)
Definition selected_models (models : option (list string)) : list string :=
  let models :=
    match models with
    | None => BCCAQV2_MODELS
    | Some ms =>
        if list_str_eqb (map PyStr.lower ms) [PyStr.lower ALL_24_MODELS]
        then BCCAQV2_MODELS else ms
    end in
  map PyStr.lower models.

(** The loop over [PCIC_12_MODELS_REALIZATIONS]: [True] at the first
    pair that fits, [False] after the last. *)
Fixpoint pcic_12_ok (pairs : list (string * string)) (parsed : Bccaqv2File) : bool :=
  match pairs with
  | [] => false
  | (model, realization) :: rest =>
      let model_ok :=
        String.eqb (PyStr.lower model) (PyStr.lower (driving_model_id parsed)) in
      let r_ok := String.eqb (PyStr.drop 1 realization) (driving_realization parsed) in
      if model_ok && r_ok then true else pcic_12_ok rest parsed
  end.

Definition _bccaqv2_filter (method : ParsingMethod) (fname url : string)
    (variables : option (list string)) (rcp : option string)
    (models : option (list string)) : result bool :=
  let models := selected_models models in
  match method with
  | filename =>
      match from_filename fname with
      | None => inr false
      | Some parsed =>
          if truthy_list variables
             && negb (PyStr.in_list (variable parsed) (default [] variables))
          then inr false
          else if truthy_str rcp
                  && negb (PyStr.contains (default "" rcp) (driving_experiment_id parsed))
          then inr false
          else if list_str_eqb models [PyStr.lower PCIC_12]
          then inr (pcic_12_ok PCIC_12_MODELS_REALIZATIONS parsed)
          else
            let model_ok := PyStr.in_list (PyStr.lower (driving_model_id parsed)) models in
            let r_ok := String.eqb (driving_realization parsed) "1" in
            inr (model_ok && r_ok)
      end
  | opendap_das => inl (NotImplementedError "todo: filter models and runs")
  | xarray => inl (NotImplementedError "todo: filter models and runs")
  end.

(** The loop of both dataset functions: the entries are (name, url)
    pairs in the order the catalog or the glob yields them, and the url
    of every entry the filter accepts is appended. *)
Fixpoint filter_urls (method : ParsingMethod) (entries : list (string * string))
    (variables : option (list string)) (rcp : option string)
    (models : option (list string)) : result (list string) :=
  match entries with
  | [] => inr []
  | (fname, url) :: rest =>
      match _bccaqv2_filter method fname url variables rcp models with
      | inl e => inl e
      | inr keep =>
          match filter_urls method rest variables rcp models with
          | inl e => inl e
          | inr urls => inr (if keep then url :: urls else urls)
          end
      end
  end.

(** [Path(catalog_url).glob("*.nc")], the files of a directory. *)
Variable glob_nc : string -> list Path.

Definition get_bccaqv2_local_files_datasets (catalog_url : string)
    (variables : option (list string)) (rcp : option string)
    (method : ParsingMethod) (models : option (list string)) : result (list string) :=
  filter_urls method
    (map (fun file => (name file, PyPath.str file)) (glob_nc catalog_url))
    variables rcp models.

(** [TDSCatalog(catalog_url).datasets.values()]: each dataset with its
    [name] and its [access_urls["OPENDAP"]]. *)
Variable TDSCatalog : string -> list (string * string).

Definition get_bccaqv2_opendap_datasets (catalog_url : string)
    (variables : option (list string)) (rcp : option string)
    (method : ParsingMethod) (models : option (list string)) : result (list string) :=
  filter_urls method (TDSCatalog catalog_url) variables rcp models.

End Datasets.

(* ===================================================================== *)
(** ** Grouping files by variable: [make_file_groups] *)
(* ===================================================================== *)

(** [variable_computations]: each computed variable with its inputs. *)
Definition variable_computations : list (string * list string) :=
  [ ("tas", ["tasmin"; "tasmax"]);
    ("tn10", ["tasmin"]);
    ("tn90", ["tasmin"]);
    ("tx90", ["tasmax"]);
    ("t10", ["tas"]);
    ("t90", ["tas"]) ].

(** A Python [dict] with string keys, in insertion order. *)
Definition dict (V : Type) : Type := list (string * V).

(** [d[k] = v]: an existing key keeps its place, a new one goes last. *)
Fixpoint dict_set {V} (k : string) (v : V) (d : dict V) : dict V :=
  match d with
  | [] => [(k, v)]
  | (k', v') :: rest =>
      if String.eqb k k' then (k, v) :: rest else (k', v') :: dict_set k v rest
  end.

(** [d.get(k)] *)
Fixpoint dict_get {V} (k : string) (d : dict V) : option V :=
  match d with
  | [] => None
  | (k', v) :: rest => if String.eqb k k' then Some v else dict_get k rest
  end.

(** A group of [make_file_groups]: variable names to paths. *)
Definition group_dict : Type := dict Path.

(** [del d[k]], which raises [KeyError] for a missing key. *)
Definition dict_del (k : string) (d : gmap string Path) : result (gmap string Path) :=
  match d !! k with
  | Some _ => inr (delete k d)
  | None => inl (KeyError k)
  end.

Section FileGroups.

(** [bccaq_variables] of [finch/processes/constants.py]. *)
Variable bccaq_variables : gset string.

(** The order in which Python iterates over a set: some enumeration of
    its elements, which the language does not fix. *)
Variable set_order : gset string -> list string.

Definition accepted_variables : gset string :=
  bccaq_variables ∪ list_to_set (map fst variable_computations).

(** [{f.name: f for f in files_list}]: a later file replaces an earlier
    one of the same name. *)
Definition by_name (files_list : list Path) : gmap string Path :=
  fold_left (fun d f => <[name f := f]> d) files_list ∅.

(** The loop over the other variables for one anchor file. *)
Fixpoint add_others (fname var : string) (others : list string)
    (group : group_dict) (filenames : gmap string Path)
  : group_dict * gmap string Path :=
  match others with
  | [] => (group, filenames)
  | other_var :: rest =>
      let other_filename := PyStr.replace_first var other_var fname in
      match filenames !! other_filename with
      | Some other =>
          add_others fname var rest
            (dict_set other_var other group) (delete other_filename filenames)
      | None => add_others fname var rest group filenames
      end
  end.

(** The loop over the accepted variables for one file, left at the
    first variable the name starts with; [None] when there is none. *)
Fixpoint group_of (file : Path) (vars : list string) (filenames : gmap string Path)
  : option (result (group_dict * gmap string Path)) :=
  match vars with
  | [] => None
  | var :: rest =>
      if PyStr.startswith (name file) (var +:+ "_") then
        let '(group, filenames) :=
          add_others (name file) var (set_order (accepted_variables ∖ {[var]}))
            [] filenames in
        let group := dict_set var file group in
        Some (match dict_del (name file) filenames with
              | inl e => inl e
              | inr filenames => inr (group, filenames)
              end)
      else group_of file rest filenames
  end.

(** The loop over the files. *)
Fixpoint group_files (files : list Path) (filenames : gmap string Path)
    (groups : list group_dict) : result (list group_dict) :=
  match files with
  | [] => inr groups
  | file :: rest =>
      match filenames !! name file with
      | None => group_files rest filenames groups
      | Some _ =>
          match group_of file (set_order accepted_variables) filenames with
          | None => group_files rest filenames groups
          | Some (inl e) => inl e
          | Some (inr (group, filenames)) =>
              group_files rest filenames (groups ++ [group])
          end
      end
  end.

Definition make_file_groups (files_list : list Path) : result (list group_dict) :=
  group_files files_list (by_name files_list) [].

End FileGroups.

(* ===================================================================== *)
(** ** Progress percentages ([finch/processes/base.py])

    Python's [float] is IEEE 754 binary64 with rounding to nearest even,
    which is what Rocq's primitive floats are. *)
(* ===================================================================== *)

Module Progress.

(** [float(n)] for an integer: the nearest binary64 number. *)
Definition float_of_int (n : Z) : float :=
  SF2Prim (binary_normalize prec emax n 0 false).

(** [int(x)]: the integer part, towards zero; an infinity raises
    [OverflowError] and a NaN [ValueError]. *)
Definition int_of_float (x : float) : result Z :=
  match Prim2SF x with
  | S754_zero _ => inr 0%Z
  | S754_finite sign m e =>
      let magnitude :=
        if (0 <=? e)%Z then Z.shiftl (Z.pos m) e else Z.shiftr (Z.pos m) (- e) in
      inr (if sign then (- magnitude)%Z else magnitude)
  | S754_infinity _ => inl (OtherError "OverflowError")
  | S754_nan => inl (ValueError "cannot convert float NaN to integer")
  end.

(** The [percent] that [FinchProgress._draw_bar] hands to the logging
    function, for a progress bar made with [start_percentage]. *)
Definition _draw_bar (start_percentage : Z) (frac : float) : result Z :=
  let start := PrimFloat.div (float_of_int start_percentage) (float_of_int 100) in
  let frac := PrimFloat.add frac (PrimFloat.sub start (PrimFloat.mul frac start)) in
  int_of_float (PrimFloat.mul (float_of_int 100) frac).

(** The [percentage] that [FinchProcess.zip_metalink] logs for the file
    of index [n] (from 0) out of [n_files]. *)
Definition zip_metalink_percentage (start_percentage n n_files : Z) : result Z :=
  if (n_files =? 0)%Z then inl (OtherError "ZeroDivisionError")
  else
    match int_of_float
            (PrimFloat.mul
               (PrimFloat.div (float_of_int n) (float_of_int n_files))
               (float_of_int (100 - start_percentage))) with
    | inl e => inl e
    | inr k => inr (start_percentage + k)%Z
    end.

End Progress.

(* ===================================================================== *)
(** ** Datasets, as far as the ensemble code looks into them *)
(* ===================================================================== *)

(** The objects the pipeline only hands on: the values of a variable at
    one time step, the values of a coordinate, a pandas table, the xclim
    indicator of a process. *)
Class Opaque : Type := {
  slab : Type;
  coordinate : Type;
  frame : Type;
  Indicator : Type
}.

(** The value of an attribute. *)
Inductive attr : Type :=
| AInt (n : Z)
| AStr (s : string).

(** A time step; the code reads its [dt.year]. *)
Record timestamp : Type := mkTimestamp {
  year : Z;
  in_year : Z
}.

Section Xarray.

Context `{Opaque}.

(** The values of a variable: one slab for each time step when the
    variable has a time dimension, one slab otherwise. *)
Inductive var_data : Type :=
| AlongTime (steps : list slab)
| Fixed (whole : slab).

Record DataArray : Type := mkDataArray {
  da_attrs : dict attr;
  da_data : var_data
}.

Record Dataset : Type := mkDataset {
  time : list timestamp;
  coords : dict coordinate;
  data_vars : dict DataArray;
  attrs : dict attr
}.

(** The elements of [l] at the positions where [mask] is true. *)
Fixpoint select {A} (mask : list bool) (l : list A) : list A :=
  match mask, l with
  | b :: mask', x :: l' => if b then x :: select mask' l' else select mask' l'
  | _, _ => []
  end.

Definition select_data (mask : list bool) (d : var_data) : var_data :=
  match d with
  | AlongTime steps => AlongTime (select mask steps)
  | Fixed whole => Fixed whole
  end.

(** [ds.sel(time=mask)] for a boolean mask: the time steps where the
    mask is true are kept, in the time coordinate and in every variable
    that has the time dimension. *)
Definition sel_time (mask : list bool) (ds : Dataset) : Dataset :=
  mkDataset (select mask (time ds)) (coords ds)
    (map (fun '(v, a) => (v, mkDataArray (da_attrs a) (select_data mask (da_data a))))
         (data_vars ds))
    (attrs ds).

(** [ds.time.dt.year >= 1950] *)
Definition from_1950 (ds : Dataset) : list bool :=
  map (fun t => (1950 <=? year t)%Z) (time ds).

(** [ds[v] = a] for a variable of the dataset *)
Definition set_var (v : string) (a : DataArray) (ds : Dataset) : Dataset :=
  mkDataset (time ds) (coords ds) (dict_set v a (data_vars ds)) (attrs ds).

(** [ds.attrs[k] = a] *)
Definition set_attr (k : string) (a : attr) (ds : Dataset) : Dataset :=
  mkDataset (time ds) (coords ds) (data_vars ds) (dict_set k a (attrs ds)).

(** [ds.drop_vars(k)] for a coordinate [k] *)
Definition drop_coord (k : string) (ds : Dataset) : Dataset :=
  mkDataset (time ds)
    (List.filter (fun kv => negb (String.eqb (fst kv) k)) (coords ds))
    (data_vars ds) (attrs ds).

End Xarray.

Arguments Dataset {_}.
Arguments DataArray {_}.
Arguments var_data {_}.

(* ===================================================================== *)
(** ** Requests, effects and the monad of the handler *)
(* ===================================================================== *)

(** The [data] of a WPS input: a string, or a float for the inputs
    declared with [data_type="float"]. *)
Inductive datum : Type :=
| DStr (s : string)
| DFloat (x : float).

(** A WPS input: a literal with its [data], or a complex input with its
    [file] and [url]. *)
Inductive wps_input : Type :=
| Literal (data : datum)
| Complex (file : string) (url : string).

(** [request.inputs]: each identifier with its inputs. *)
Definition RequestInputs : Type := dict (list wps_input).

(** The calls the handler makes into the rest of finch and into its
    libraries, with their arguments, in the order they are made: the
    calls that log, fetch, subset, open, compute, join, convert and
    write.  Looking a variable up in a dataset, selecting from an array,
    arithmetic on arrays and the handling of tables before they are
    written are not recorded. *)
Inductive event `{Opaque} : Type :=
| Call_write_log (message : string) (process_step : option string)
    (subtask_percentage : option Z)
| Call_mkdir (dir : string)
| Call_get_datasets (dataset_name : option string) (workdir : string)
    (variables : list string) (rcp : string) (models : list string)
| Call_subset_function (workdir : string) (netcdf_inputs : list wps_input)
    (request_inputs : RequestInputs)
| Call_open_dataset (path : Path)
| Call_percentile_doy (arr : DataArray) (per : Z)
| Call_to_dataset (arr : DataArray) (variable : string)
| Call_compute_indices (inputs : RequestInputs)
| Call_dataset_to_netcdf (ds : Dataset) (output : Path)
| Call_create_ensemble (files : list Path)
| Call_doy_to_days_since (v : string)
| Call_ensemble_percentiles (ensemble : Dataset) (values : list Z)
| Call_days_since_to_doy (v : string)
| Call_load
| Call_concat (ensembles : list Dataset) (dim : string) (values : list string)
| Call_dataset_to_dataframe (ds : Dataset)
| Call_to_csv (df : frame) (output : Path)
| Call_format_metadata (ds : Dataset)
| Call_write_text (output : Path) (text : string)
| Call_zip_files (output : Path) (files : list Path).

(** What the handler changes in the process, and the calls made so far. *)
Record state `{Opaque} : Type := mkState {
  workdir : string;
  status_percentage_steps : dict Z;
  trace : list event
}.

Arguments mkState {_} _ _ _.
Arguments workdir {_} _.
Arguments status_percentage_steps {_} _.
Arguments trace {_} _.

Section Monad.

Context `{Opaque}.

(** A computation runs from a state to a result, or an exception, and
    the state reached. *)
Definition M (A : Type) : Type := state -> result A * state.

Definition ret {A} (x : A) : M A := fun st => (inr x, st).

Definition bind {A B} (m : M A) (f : A -> M B) : M B :=
  fun st =>
    match m st with
    | (inl e, st') => (inl e, st')
    | (inr x, st') => f x st'
    end.

Definition raise {A} (e : exn) : M A := fun st => (inl e, st).

(** A result computed without effect. *)
Definition lift {A} (r : result A) : M A := fun st => (r, st).

Definition emit (ev : event) : M unit :=
  fun st => (inr tt, mkState (workdir st) (status_percentage_steps st)
                        (trace st ++ [ev])).

(** A call: it is recorded, then it returns or raises. *)
Definition call {A} (ev : event) (r : result A) : M A :=
  bind (emit ev) (fun _ => lift r).

Definition get_workdir : M string := fun st => (inr (workdir st), st).

Definition set_workdir (dir : string) : M unit :=
  fun st => (inr tt, mkState dir (status_percentage_steps st) (trace st)).

(** [del process.status_percentage_steps[k]] *)
Definition del_step (k : string) : M unit :=
  fun st =>
    match dict_get k (status_percentage_steps st) with
    | Some _ =>
        (inr tt, mkState (workdir st)
                   (List.filter (fun kv => negb (String.eqb (fst kv) k))
                      (status_percentage_steps st))
                   (trace st))
    | None => (inl (KeyError k), st)
    end.

(** A [for] loop that threads an accumulator. *)
Fixpoint foldM {A B} (body : B -> A -> M B) (l : list A) (acc : B) : M B :=
  match l with
  | [] => ret acc
  | x :: rest => bind (body acc x) (foldM body rest)
  end.

End Monad.

Notation "'let*' x ':=' c 'in' k" := (bind c (fun x => k))
  (at level 10, x name, c at level 100, k at level 200).
Notation "'let*' ' p ':=' c 'in' k" := (bind c (fun p => k))
  (at level 10, p strict pattern, c at level 100, k at level 200).

(* ===================================================================== *)
(** ** The collaborators of the pipeline

    Functions of finch that are not part of this development and functions
    of xarray, xclim, pandas and pywps.  Each returns a value or raises. *)
(* ===================================================================== *)

Class Externals `{Opaque} : Type := {
  (* [get_datasets], taken as one call: it reads the configuration of
     pywps and the catalog of the datasets *)
  get_datasets : option string -> string -> list string -> string -> list string
                 -> result (list wps_input);
  (* the [subset_function] the handler is called with *)
  subset_function : string -> list wps_input -> RequestInputs -> result (list Path);
  (* finch.processes.utils *)
  single_input_or_none : RequestInputs -> string -> option datum;
  compute_indices : Indicator -> RequestInputs -> result Dataset;
  dataset_to_netcdf : Dataset -> Path -> result unit;
  dataset_to_dataframe : Dataset -> result frame;
  format_metadata : Dataset -> result string;
  zip_files : Path -> list Path -> result unit;
  log_file_path : string -> string;
  (* xclim *)
  indicator_parameters : Indicator -> list string;
  create_ensemble : list Path -> result Dataset;
  ensemble_percentiles : Dataset -> list Z -> result Dataset;
  doy_to_days_since : DataArray -> result DataArray;
  days_since_to_doy : DataArray -> result DataArray;
  percentile_doy : DataArray -> Z -> result DataArray;
  (* xarray: [xr.open_dataset(path)], [ds[k]], [ds.k], [a + b], [a / n],
     [a.sel(percentiles=p, drop=True)], [a.to_dataset(name=v)] *)
  open_dataset : Path -> result Dataset;
  getitem : Dataset -> string -> result DataArray;
  getattribute : Dataset -> string -> result DataArray;
  da_add : DataArray -> DataArray -> result DataArray;
  da_div : DataArray -> Z -> result DataArray;
  sel_percentiles : DataArray -> Z -> result DataArray;
  to_dataset : DataArray -> string -> result Dataset;
  (* xarray and pandas *)
  concat : list Dataset -> string -> list string -> result Dataset;
  load : Dataset -> result unit;
  reset_and_set_index : frame -> list string -> result frame;
  frame_columns : frame -> list string;
  frame_drop : frame -> string -> result frame;
  dropna : frame -> frame;
  to_csv : frame -> Path -> result unit;
  (* pywps and the file system *)
  input_url : wps_input -> string;
  mkdir : string -> result unit;
  write_text : Path -> string -> result unit;
  (* float(s) and the format ".3f" *)
  float_of_str : string -> result float;
  format_3f : float -> string
}.

(** What the handler reads of the process. *)
Record Process `{Opaque} : Type := mkProcess {
  identifier : string;
  xci_inputs_identifiers : list string;
  xci : Indicator
}.

Arguments mkProcess {_} _ _ _.

(** The line feed. *)
Definition nl : string := String (ascii_of_nat 10) "".

(* ===================================================================== *)
(** ** [make_ensemble] *)
(* ===================================================================== *)

Section MakeEnsemble.

Context `{Externals}.

(** [a.attrs.get('is_dayofyear', 0) == 1] *)
Definition is_dayofyear (a : DataArray) : bool :=
  match dict_get "is_dayofyear" (da_attrs a) with
  | Some (AInt 1) => true
  | _ => false
  end.

(** [a.attrs.get('units', '').startswith('days after')]; an attribute
    that is no string has no [startswith]. *)
Definition units_days_after (a : DataArray) : result bool :=
  match dict_get "units" (da_attrs a) with
  | Some (AStr u) => inr (PyStr.startswith u "days after")
  | Some (AInt _) => inl (OtherError "AttributeError")
  | None => inr false
  end.

(** The first loop over [ensemble.data_vars]. *)
Definition to_days_since (ensemble : Dataset) : M Dataset :=
  foldM (fun ens '(v, _) =>
           match dict_get v (data_vars ens) with
           | Some a =>
               if is_dayofyear a then
                 let* a' := call (Call_doy_to_days_since v) (doy_to_days_since a) in
                 ret (set_var v a' ens)
               else ret ens
           | None => raise (KeyError v)
           end)
        (data_vars ensemble) ensemble.

(** The second loop, over the variables of the percentiles. *)
Definition to_doy (percentiles : Dataset) : M Dataset :=
  foldM (fun ens '(v, _) =>
           match dict_get v (data_vars ens) with
           | Some a =>
               let* days := lift (units_days_after a) in
               if days : bool then
                 let* a' := call (Call_days_since_to_doy v) (days_since_to_doy a) in
                 ret (set_var v a' ens)
               else ret ens
           | None => raise (KeyError v)
           end)
        (data_vars percentiles) percentiles.

Definition make_ensemble (files : list Path) (percentiles : list Z) : M Dataset :=
  let* ensemble := call (Call_create_ensemble files) (create_ensemble files) in
  (* make sure we have data starting in 1950 *)
  let ensemble := sel_time (from_1950 ensemble) ensemble in
  let* ensemble := to_days_since ensemble in
  let* ensemble_percentiles :=
    call (Call_ensemble_percentiles ensemble percentiles)
         (ensemble_percentiles ensemble percentiles) in
  let* ensemble_percentiles := to_doy ensemble_percentiles in
  let ensemble_percentiles :=
    match dict_get "realization" (coords ensemble_percentiles) with
    | Some _ => drop_coord "realization" ensemble_percentiles
    | None => ensemble_percentiles
    end in
  let* _ := call Call_load (load ensemble_percentiles) in
  ret ensemble_percentiles.

End MakeEnsemble.

(* ===================================================================== *)
(** ** The computed variables: [_tas], [_percentile_doy_*] and
    [compute_intermediate_variables] *)
(* ===================================================================== *)

(** [s.split("_", 1)[1]]: what follows the first underscore; a string
    without underscore has no such item. *)
Fixpoint after_underscore (s : string) : option string :=
  match s with
  | EmptyString => None
  | String c rest => if Ascii.eqb c "_" then Some rest else after_underscore rest
  end.

(** How Python prints a set of strings, in the order of the set. *)
Definition set_repr (items : list string) : string :=
  "{" +:+ PyStr.join ", " (map (fun x => "'" +:+ x +:+ "'") items) +:+ "}".

Section Intermediate.

Context `{Externals}.
Variable bccaq_variables : gset string.
Variable set_order : gset string -> list string.

(** [_tas]: the mean of [tasmin] and [tasmax] made into a dataset with
    the attributes of [tasmin], its variable with those of the variable
    [tasmin] and two attributes of its own. *)
Definition _tas (tasmin tasmax : Dataset) : M Dataset :=
  let* a := lift (getitem tasmin "tasmin") in
  let* b := lift (getitem tasmax "tasmax") in
  let* total := lift (da_add a b) in
  let* tas := lift (da_div total 2) in
  let* tas_ds := call (Call_to_dataset tas "tas") (to_dataset tas "tas") in
  let tas_ds :=
    mkDataset (time tas_ds) (coords tas_ds) (data_vars tas_ds) (attrs tasmin) in
  let* source := lift (getitem tasmin "tasmin") in
  let* var := lift (getitem tas_ds "tas") in
  let tas_ds := set_var "tas" (mkDataArray (da_attrs source) (da_data var)) tas_ds in
  let* var := lift (getitem tas_ds "tas") in
  let tas_ds :=
    set_var "tas"
      (mkDataArray
         (dict_set "long_name" (AStr "Daily Mean Near-Surface Air Temperature")
            (da_attrs var))
         (da_data var)) tas_ds in
  let* var := lift (getitem tas_ds "tas") in
  let tas_ds :=
    set_var "tas"
      (mkDataArray
         (dict_set "cell_methods" (AStr "time: mean within days") (da_attrs var))
         (da_data var)) tas_ds in
  ret tas_ds.

(** The body the five [_percentile_doy_*] functions share:
    [percentile_doy(ds.<source>, per=per).sel(percentiles=per, drop=True)
    .to_dataset(name=<target>)]. *)
Definition _percentile_doy (source : string) (per : Z) (target : string)
    (ds : Dataset) : M Dataset :=
  let* arr := lift (getattribute ds source) in
  let* p := call (Call_percentile_doy arr per) (percentile_doy arr per) in
  let* p := lift (sel_percentiles p per) in
  call (Call_to_dataset p target) (to_dataset p target).

Definition _percentile_doy_tn10 : Dataset -> M Dataset :=
  _percentile_doy "tasmin" 10 "tn10".

Definition _percentile_doy_tn90 : Dataset -> M Dataset :=
  _percentile_doy "tasmin" 90 "tn90".

Definition _percentile_doy_tx90 : Dataset -> M Dataset :=
  _percentile_doy "tasmax" 90 "tx90".

Definition _percentile_doy_t10 : Dataset -> M Dataset :=
  _percentile_doy "tas" 10 "t10".

Definition _percentile_doy_t90 : Dataset -> M Dataset :=
  _percentile_doy "tas" 90 "t90".

(** A function of one dataset, and of two, called with the list of the
    inputs unpacked. *)
Definition unary (f : Dataset -> M Dataset) (inputs : list Dataset) : M Dataset :=
  match inputs with
  | [a] => f a
  | _ => raise (OtherError "TypeError")
  end.

Definition binary (f : Dataset -> Dataset -> M Dataset) (inputs : list Dataset)
  : M Dataset :=
  match inputs with
  | [a; b] => f a b
  | _ => raise (OtherError "TypeError")
  end.

(** The ["function"] of each entry of [variable_computations]. *)
Definition variable_functions : dict (list Dataset -> M Dataset) :=
  [ ("tas", binary _tas);
    ("tn10", unary _percentile_doy_tn10);
    ("tn90", unary _percentile_doy_tn90);
    ("tx90", unary _percentile_doy_tx90);
    ("t10", unary _percentile_doy_t10);
    ("t90", unary _percentile_doy_t90) ].

(** The paths of a group whose variable is required, in the order of
    the group. *)
Definition required_paths (required_variable_names : gset string)
    (group : group_dict) : list Path :=
  map snd (List.filter (fun kv => bool_decide (fst kv ∈ required_variable_names))
             group).

(** The loop that adds to the variables to compute those of their inputs
    that are computed themselves.  It goes over a copy of the set; a
    variable that is not computed has no entry in
    [variable_computations]. *)
Fixpoint add_inputs (variables : list string) (variables_to_compute : gset string)
  : result (gset string) :=
  match variables with
  | [] => inr variables_to_compute
  | variable :: rest =>
      match dict_get variable variable_computations with
      | None => inl (KeyError variable)
      | Some input_names =>
          add_inputs rest
            (variables_to_compute
             ∪ list_to_set
                 (List.filter
                    (fun i => bool_decide (is_Some (dict_get i variable_computations)))
                    input_names))
      end
  end.

(** [all(i in group for i in input_names)] *)
Definition all_in (group : group_dict) (input_names : list string) : bool :=
  forallb (fun i => bool_decide (is_Some (dict_get i group))) input_names.

(** The [for] loop inside the [while] loop, up to its [break]: the
    first variable, in the order of the copy of the set, whose inputs
    are all in the group, with its inputs; [None] when the loop ends
    without [break]. *)
Fixpoint first_ready (variables : list string) (group : group_dict)
  : result (option (string * list string)) :=
  match variables with
  | [] => inr None
  | variable :: rest =>
      match dict_get variable variable_computations with
      | None => inl (KeyError variable)
      | Some input_names =>
          if all_in group input_names then inr (Some (variable, input_names))
          else first_ready rest group
      end
  end.

(** [[xr.open_dataset(group[name]) for name in input_names]] *)
Definition open_inputs (group : group_dict) (input_names : list string)
  : M (list Dataset) :=
  foldM (fun acc input_name =>
           match dict_get input_name group with
           | Some path =>
               let* ds := call (Call_open_dataset path) (open_dataset path) in
               ret (acc ++ [ds])
           | None => raise (KeyError input_name)
           end)
        input_names [].

(** The [while] loop over the variables to compute.  Each pass that
    does not raise takes one variable out of the set, so the loop is run
    with as many passes as the set has elements. *)
Fixpoint compute_loop (fuel : nat) (required_variable_names : gset string)
    (workdir output_basename : string) (variables_to_compute : gset string)
    (group : group_dict) (output_files_list : list Path) : M (list Path) :=
  if bool_decide (variables_to_compute = ∅) then ret output_files_list
  else
    match fuel with
    | O => raise (OtherError "compute_intermediate_variables does not return")
    | S fuel' =>
        match first_ready (set_order variables_to_compute) group with
        | inl e => raise e
        | inr None =>
            raise (RuntimeError ("Cant compute intermediate variables "
                                 +:+ set_repr (set_order variables_to_compute)))
        | inr (Some (variable, input_names)) =>
            let* inputs := open_inputs group input_names in
            let* function :=
              match dict_get variable variable_functions with
              | Some f => ret f
              | None => raise (KeyError variable)
              end in
            let* output := function inputs in
            let output_file :=
              PyPath.div workdir (variable +:+ "_" +:+ output_basename) in
            let* _ := call (Call_dataset_to_netcdf output output_file)
                           (dataset_to_netcdf output output_file) in
            if bool_decide (variable ∈ variables_to_compute) then
              compute_loop fuel' required_variable_names workdir output_basename
                (variables_to_compute ∖ {[variable]})
                (dict_set variable output_file group)
                (if bool_decide (variable ∈ required_variable_names)
                 then output_files_list ++ [output_file]
                 else output_files_list)
            else raise (KeyError variable)
        end
    end.

(** The body of the loop over the groups of files. *)
Definition intermediate_group (required_variable_names : gset string)
    (workdir : string) (output_files_list : list Path) (group : group_dict)
  : M (list Path) :=
  let output_files_list :=
    output_files_list ++ required_paths required_variable_names group in
  match group with
  | [] => raise IndexError
  | (_, first) :: _ =>
      match after_underscore (name first) with
      | None => raise IndexError
      | Some output_basename =>
          let variables_to_compute : gset string :=
            required_variable_names ∖ list_to_set (map fst group) in
          let* variables_to_compute :=
            lift (add_inputs (set_order variables_to_compute)
                    variables_to_compute) in
          compute_loop (size variables_to_compute) required_variable_names
            workdir output_basename variables_to_compute group output_files_list
      end
  end.

Definition compute_intermediate_variables (files_list : list Path)
    (required_variable_names : gset string) (workdir : string) : M (list Path) :=
  let* file_groups := lift (make_file_groups bccaq_variables set_order files_list) in
  foldM (intermediate_group required_variable_names workdir) file_groups [].

End Intermediate.

(* ===================================================================== *)
(** ** [get_sub_inputs], [make_output_filename], [make_indicator_inputs] *)
(* ===================================================================== *)

(** One pass of the [while] loop of [get_sub_inputs]: every computed
    variable is replaced by its inputs. *)
Definition sub_inputs_pass (output_variables : list string) : list string :=
  flat_map (fun v => match dict_get v variable_computations with
                     | Some inputs => inputs
                     | None => [v]
                     end) output_variables.

(** The condition of the loop. *)
Definition any_computed (output_variables : list string) : bool :=
  existsb (fun v => bool_decide (is_Some (dict_get v variable_computations)))
          output_variables.

Fixpoint get_sub_inputs_loop (fuel : nat) (output_variables : list string)
  : option (list string) :=
  if any_computed output_variables then
    match fuel with
    | O => None
    | S fuel' => get_sub_inputs_loop fuel' (sub_inputs_pass output_variables)
    end
  else Some output_variables.

(** [get_sub_inputs]; the loop is run for at most as many passes as there
    are computed variables, which is more than it ever needs. *)
Definition get_sub_inputs (variables : list string) : option (list string) :=
  get_sub_inputs_loop (length variable_computations) variables.

Section Inputs.

Context `{Externals}.
Variable bccaq_variables : gset string.
Variable set_order : gset string -> list string.

Definition _formatted_coordinate (value : option datum) : result (option string) :=
  match value with
  | None => inr None
  | Some (DStr EmptyString) => inr None
  | Some (DStr s) =>
      match float_of_str (hd "" (PyStr.split "," s)) with
      | inl e => inl e
      | inr x => inr (Some (format_3f x))
      end
  | Some (DFloat x) =>
      if PrimFloat.eqb x 0%float then inr None else inr (Some (format_3f x))
  end.

(** The two parts appended for a pair of coordinates. *)
Definition coordinate_parts (a b : string) : result (list string) :=
  match float_of_str a, float_of_str b with
  | inr x, inr y => inr [format_3f x; format_3f y]
  | inl e, _ => inl e
  | _, inl e => inl e
  end.

Definition make_output_filename (process : Process) (inputs : RequestInputs)
    (rcp : option string) : result string :=
  let rcp :=
    match rcp with
    | Some r => Some r
    | None => match single_input_or_none inputs "rcp" with
              | Some (DStr r) => Some r
              | _ => None
              end
    end in
  let coordinate k := _formatted_coordinate (single_input_or_none inputs k) in
  match coordinate "lat", coordinate "lon", coordinate "lat0",
        coordinate "lon0", coordinate "lat1", coordinate "lon1" with
  | inr lat, inr lon, inr lat0, inr lon0, inr lat1, inr lon1 =>
      let first :=
        if truthy_str lat && truthy_str lon
        then coordinate_parts (default "" lat) (default "" lon)
        else if truthy_str lat0 && truthy_str lon0
        then coordinate_parts (default "" lat0) (default "" lon0)
        else inr [] in
      let second :=
        if truthy_str lat1 && truthy_str lon1
        then coordinate_parts (default "" lat1) (default "" lon1)
        else inr [] in
      match first, second with
      | inr p1, inr p2 =>
          inr (PyStr.join "_"
                 ([identifier process] ++ p1 ++ p2
                  ++ (if truthy_str rcp then [default "" rcp] else [])))
      | inl e, _ => inl e
      | _, inl e => inl e
      end
  | inl e, _, _, _, _, _ => inl e
  | _, inl e, _, _, _, _ => inl e
  | _, _, inl e, _, _, _ => inl e
  | _, _, _, inl e, _, _ => inl e
  | _, _, _, _, inl e, _ => inl e
  | _, _, _, _, _, inl e => inl e
  end.

(** [deque([make_nc_input(variable_name)])] with its [file] set. *)
Definition nc_input (path : Path) : list wps_input :=
  [Complex (PyPath.str path) ""].

Definition make_indicator_inputs (indicator : Indicator)
    (wps_inputs : RequestInputs) (files_list : list Path)
  : result (list RequestInputs) :=
  let arguments : gset string := list_to_set (indicator_parameters indicator) in
  let required_netcdf_args := accepted_variables bccaq_variables ∩ arguments in
  match set_order required_netcdf_args with
  | [variable_name] =>
      inr (map (fun path => dict_set variable_name (nc_input path) wps_inputs)
               files_list)
  | _ =>
      match make_file_groups bccaq_variables set_order files_list with
      | inl e => inl e
      | inr groups =>
          inr (map (fun group : group_dict =>
                      fold_left
                        (fun inputs '(variable_name, path) =>
                           if bool_decide (variable_name ∈ required_netcdf_args)
                           then dict_set variable_name (nc_input path) inputs
                           else inputs)
                        group wps_inputs)
                   groups)
      end
  end.

End Inputs.

(* ===================================================================== *)
(** ** [ensemble_common_handler] *)
(* ===================================================================== *)

(** The two outputs the handler sets on the response. *)
Record Response : Type := mkResponse {
  output : Path;
  output_log : string
}.

(** The messages the handler logs. *)
Section Messages.

Context `{Opaque}.

Definition log_started (n_rcps : nat) : event :=
  Call_write_log ("Processing started (" +:+ pretty n_rcps +:+ " rcps)")
    (Some "start") None.

Definition log_fetching (rcp : string) : event :=
  Call_write_log ("Fetching datasets for rcp=" +:+ rcp) None None.

Definition log_subset (rcp : string) : event :=
  Call_write_log ("Running subset rcp=" +:+ rcp) (Some "subset") None.

Definition log_computing (rcp : string) : event :=
  Call_write_log ("Computing indices rcp=" +:+ rcp) (Some "compute_indices") None.

Definition log_group (rcp : string) (n n_groups : nat) : event :=
  Call_write_log
    ("Computing indices for file " +:+ pretty (n + 1) +:+ " of "
     +:+ pretty n_groups +:+ ", rcp=" +:+ rcp)
    None (Some (Z.of_nat n * 100 / Z.of_nat n_groups)%Z).

Definition log_finished : event :=
  Call_write_log "Processing finished successfully" (Some "done") None.

(** The message of the error raised when subsetting left no file. *)
Definition no_data_message : string :=
  "No data was produced when subsetting using the provided bounds.".

End Messages.

Section Handler.

Context `{Externals}.
Variable bccaq_variables : gset string.
Variable set_order : gset string -> list string.

(** [request.inputs[k]]; a missing identifier raises [KeyError]. *)
Definition inputs_of (inputs : RequestInputs) (k : string) : M (list wps_input) :=
  match dict_get k inputs with
  | Some l => ret l
  | None => raise (KeyError k)
  end.

(** [i.data] of a literal input holding a string. *)
Definition data_str (i : wps_input) : M string :=
  match i with
  | Literal (DStr s) => ret s
  | _ => raise (OtherError "AttributeError")
  end.

(** [request.inputs[k][0].data] *)
Definition first_data (inputs : RequestInputs) (k : string) : M string :=
  let* l := inputs_of inputs k in
  match l with
  | i :: _ => data_str i
  | [] => raise IndexError
  end.

(** [[x.data.strip() for x in request.inputs[k]]] *)
Definition stripped_data (inputs : RequestInputs) (k : string) : M (list string) :=
  let* l := inputs_of inputs k in
  foldM (fun acc i => let* d := data_str i in ret (acc ++ [PyStr.strip d])) l [].

(** [[int(p.strip()) for p in percentiles_string.split(",")]] *)
Definition parse_percentiles (percentiles_string : string) : M (list Z) :=
  foldM (fun acc p =>
           match PyStr.int (PyStr.strip p) with
           | Some n => ret (acc ++ [n])
           | None => raise (ValueError "invalid literal for int()")
           end)
        (PyStr.split "," percentiles_string) [].

(** The name of the file of indices for one group of inputs: the name
    made from the output filename, replaced by the name of an input file
    for every accepted variable among the inputs (the last one stays). *)
Definition indices_output_name (process : Process) (output_filename : string)
    (n : nat) (inputs : RequestInputs) : M string :=
  foldM (fun output_name var =>
           match dict_get var inputs with
           | Some (Complex file _ :: _) =>
               ret (PyStr.replace var (identifier process)
                      (name (PyPath.of_str file)))
           | Some (Literal _ :: _) => raise (OtherError "AttributeError")
           | Some [] => raise IndexError
           | None => ret output_name
           end)
        (set_order (accepted_variables bccaq_variables))
        (output_filename +:+ "_" +:+ identifier process +:+ "_"
         +:+ pretty n +:+ ".nc").

(** The body of the loop over the groups of inputs. *)
Definition compute_group (process : Process) (rcp output_filename : string)
    (n_groups : nat) (indices_files : list Path) (group : nat * RequestInputs)
  : M (list Path) :=
  let '(n, inputs) := group in
  let* _ := emit (log_group rcp n n_groups) in
  let* output_ds := call (Call_compute_indices inputs)
                         (compute_indices (xci process) inputs) in
  let* output_name := indices_output_name process output_filename n inputs in
  let* dir := get_workdir in
  let output_path := PyPath.div dir output_name in
  let* _ := call (Call_dataset_to_netcdf output_ds output_path)
                 (dataset_to_netcdf output_ds output_path) in
  ret (indices_files ++ [output_path]).

(** [enumerate(l)] *)
Definition enumerate {A} (l : list A) : list (nat * A) :=
  combine (seq 0 (length l)) l.

(** What the loop over the scenarios carries on: the ensembles so far,
    and the [output_filename] and [output_basename] of the last pass. *)
Definition carried : Type := (list Dataset * option (string * Path))%type.

(** The body of the loop over the scenarios. *)
Definition scenario (process : Process) (inputs : RequestInputs)
    (request_inputs_not_datasets : RequestInputs)
    (dataset_input_names source_variable_names : gset string)
    (percentiles : list Z) (models : list string) (dataset_name : option string)
    (base_work_dir : string) (acc : carried) (rcp : string) : M carried :=
  let work_dir := PyPath.div base_work_dir rcp in
  let* _ := call (Call_mkdir (PyPath.str work_dir)) (mkdir (PyPath.str work_dir)) in
  let* _ := set_workdir (PyPath.str work_dir) in
  let* _ := emit (log_fetching rcp) in
  let* output_filename := lift (make_output_filename process inputs (Some rcp)) in
  let* dir := get_workdir in
  let variables := set_order source_variable_names in
  let* netcdf_inputs :=
    call (Call_get_datasets dataset_name dir variables rcp models)
         (get_datasets dataset_name dir variables rcp models) in
  let* _ := emit (log_subset rcp) in
  let* subsetted_files :=
    call (Call_subset_function dir netcdf_inputs inputs)
         (subset_function dir netcdf_inputs inputs) in
  match subsetted_files with
  | [] =>
      raise (ProcessError no_data_message)
  | _ :: _ =>
      let* subsetted_intermediate_files :=
        compute_intermediate_variables bccaq_variables set_order subsetted_files
          dataset_input_names dir in
      let* _ := emit (log_computing rcp) in
      let* input_groups :=
        lift (make_indicator_inputs bccaq_variables set_order (xci process)
                request_inputs_not_datasets subsetted_intermediate_files) in
      let n_groups := length input_groups in
      let* indices_files :=
        foldM (compute_group process rcp output_filename n_groups)
              (enumerate input_groups) [] in
      let* dir := get_workdir in
      let output_basename := PyPath.div dir (output_filename +:+ "_ensemble") in
      let* ensemble := make_ensemble indices_files percentiles in
      let ensemble :=
        set_attr "source_datasets"
          (AStr (PyStr.join nl (map input_url netcdf_inputs))) ensemble in
      ret (fst acc ++ [ensemble], Some (output_filename, output_basename))
  end.

(** The end of the handler when [output_format] is ["csv"]. *)
Definition write_csv (ensemble : Dataset) (output_filename : string)
    (output_basename : Path) : M Path :=
  let* ensemble_csv := lift (PyPath.with_suffix output_basename ".csv") in
  let* df := call (Call_dataset_to_dataframe ensemble)
                  (dataset_to_dataframe ensemble) in
  let* df := lift (reset_and_set_index df ["lat"; "lon"; "time"]) in
  let* df := if PyStr.in_list "region" (frame_columns df)
             then lift (frame_drop df "region") else ret df in
  let* _ := call (Call_to_csv (dropna df) ensemble_csv)
                 (to_csv (dropna df) ensemble_csv) in
  let* metadata := call (Call_format_metadata ensemble)
                        (format_metadata ensemble) in
  let metadata_file :=
    PyPath.sibling output_basename (PyPath.stem ensemble_csv +:+ "_metadata.txt") in
  let* _ := call (Call_write_text metadata_file metadata)
                 (write_text metadata_file metadata) in
  let* dir := get_workdir in
  let ensemble_output := PyPath.div dir (output_filename +:+ ".zip") in
  let* _ := call (Call_zip_files ensemble_output [metadata_file; ensemble_csv])
                 (zip_files ensemble_output [metadata_file; ensemble_csv]) in
  ret ensemble_output.

(** The end of the handler for every other [output_format]. *)
Definition write_netcdf (ensemble : Dataset) (output_basename : Path) : M Path :=
  let* ensemble_output := lift (PyPath.with_suffix output_basename ".nc") in
  let* _ := call (Call_dataset_to_netcdf ensemble ensemble_output)
                 (dataset_to_netcdf ensemble ensemble_output) in
  ret ensemble_output.

Definition ensemble_common_handler (process : Process) (inputs : RequestInputs)
  : M Response :=
  let xci_inputs := xci_inputs_identifiers process in
  let request_inputs_not_datasets :=
    List.filter (fun kv => PyStr.in_list (fst kv) xci_inputs) inputs in
  let dataset_input_names : gset string :=
    accepted_variables bccaq_variables ∩ list_to_set xci_inputs in
  let* sub_inputs :=
    match get_sub_inputs (set_order dataset_input_names) with
    | Some l => ret l
    | None => raise (OtherError "get_sub_inputs does not return")
    end in
  let source_variable_names : gset string :=
    bccaq_variables ∩ list_to_set sub_inputs in
  let* output_format := first_data inputs "output_format" in
  let convert_to_csv := String.eqb output_format "csv" in
  let* _ := if convert_to_csv then ret tt else del_step "convert_to_csv" in
  let* percentiles_string := first_data inputs "ensemble_percentiles" in
  let* percentiles := parse_percentiles percentiles_string in
  let* rcps := stripped_data inputs "rcp" in
  let* _ := emit (log_started (length rcps)) in
  let* models := stripped_data inputs "models" in
  let dataset_name :=
    match single_input_or_none inputs "dataset" with
    | Some (DStr d) => Some d
    | _ => None
    end in
  let* base_work_dir := get_workdir in
  let* '(ensembles, last) :=
    foldM (scenario process inputs request_inputs_not_datasets
             dataset_input_names source_variable_names percentiles models
             dataset_name base_work_dir)
          rcps ([], None) in
  let* _ := set_workdir base_work_dir in
  let* ensemble :=
    if (1 <? length rcps)%nat
    then call (Call_concat ensembles "rcp" rcps) (concat ensembles "rcp" rcps)
    else match ensembles with
         | e :: _ => ret e
         | [] => raise IndexError
         end in
  let* '(output_filename, output_basename) :=
    match last with
    | Some names => ret names
    | None => raise (OtherError "NameError")
    end in
  let* ensemble_output :=
    if convert_to_csv then write_csv ensemble output_filename output_basename
    else write_netcdf ensemble output_basename in
  let* dir := get_workdir in
  let* _ := emit log_finished in
  ret (mkResponse ensemble_output (log_file_path dir)).

End Handler.

(* ===================================================================== *)
(** ** The course of a run

    What a run of the handler consists of, step by step: the values that
    pass from one step to the next, and the calls they make, in order. *)
(* ===================================================================== *)

Section Course.

Context `{Externals}.
Variable bccaq_variables : gset string.
Variable set_order : gset string -> list string.

(** What the handler works out of the request before the first scenario. *)
Record request_plan : Type := mkPlan {
  rp_inputs : RequestInputs;
  rp_not_datasets : RequestInputs;
  rp_input_names : gset string;
  rp_variables : list string;
  rp_percentiles : list Z;
  rp_rcps : list string;
  rp_models : list string;
  rp_dataset_name : option string;
  rp_csv : bool
}.

(** One group of input files: its index, the inputs, the indices
    computed from them and the file they are written to. *)
Record group_run : Type := mkGroupRun {
  gr_index : nat;
  gr_inputs : RequestInputs;
  gr_indices : Dataset;
  gr_file : Path
}.

Definition group_events (rcp : string) (n_groups : nat) (g : group_run)
  : list event :=
  [ log_group rcp (gr_index g) n_groups;
    Call_compute_indices (gr_inputs g);
    Call_dataset_to_netcdf (gr_indices g) (gr_file g) ].

(** One call of [make_ensemble]: the files, the ensemble made of them,
    the variables converted before and after the percentiles, the
    dataset the percentiles are computed of, and the result. *)
Record ensemble_run : Type := mkEnsembleRun {
  er_files : list Path;
  er_created : Dataset;
  er_to_days : list string;
  er_input : Dataset;
  er_output : Dataset;
  er_to_doy : list string;
  er_result : Dataset
}.

Definition ensemble_events (percentiles : list Z) (e : ensemble_run) : list event :=
  [Call_create_ensemble (er_files e)]
  ++ map Call_doy_to_days_since (er_to_days e)
  ++ [Call_ensemble_percentiles (er_input e) percentiles]
  ++ map Call_days_since_to_doy (er_to_doy e)
  ++ [Call_load].

(** The values of [make_ensemble] come one from the other. *)
Definition ensemble_flows (percentiles : list Z) (e : ensemble_run) : Prop :=
  create_ensemble (er_files e) = inr (er_created e)
  /\ time (er_input e)
     = List.filter (fun t => (1950 <=? year t)%Z) (time (er_created e))
  /\ coords (er_input e) = coords (er_created e)
  /\ ensemble_percentiles (er_input e) percentiles = inr (er_output e)
  /\ time (er_result e) = time (er_output e).

(** One scenario. *)
Record scenario_run : Type := mkScenarioRun {
  sr_rcp : string;
  sr_workdir : string;
  sr_output_filename : string;
  sr_netcdf_inputs : list wps_input;
  sr_subsetted_files : list Path;
  sr_intermediate_events : list event;
  sr_intermediate_files : list Path;
  sr_groups : list group_run;
  sr_ensemble : ensemble_run
}.

(** The calls of one scenario, in order: the files are fetched, then
    subsetted, then the intermediate variables are computed (the calls
    of [compute_intermediate_variables]), then the indices of each group
    of files, then the ensemble is made. *)
Definition scenario_events (plan : request_plan) (s : scenario_run) : list event :=
  [ Call_mkdir (sr_workdir s);
    log_fetching (sr_rcp s);
    Call_get_datasets (rp_dataset_name plan) (sr_workdir s) (rp_variables plan)
      (sr_rcp s) (rp_models plan);
    log_subset (sr_rcp s);
    Call_subset_function (sr_workdir s) (sr_netcdf_inputs s) (rp_inputs plan) ]
  ++ sr_intermediate_events s
  ++ [ log_computing (sr_rcp s) ]
  ++ flat_map (group_events (sr_rcp s) (length (sr_groups s))) (sr_groups s)
  ++ ensemble_events (rp_percentiles plan) (sr_ensemble s).

(** A run of a computation: from some state it makes the calls [evs],
    in this order, and ends with [r]. *)
Definition run_of {A} (m : M A) (evs : list event) (r : result A) : Prop :=
  exists st st', m st = (r, st') /\ trace st' = trace st ++ evs.

(** Each step of a scenario takes what an earlier step returned. *)
Definition scenario_flows (process : Process) (plan : request_plan)
    (s : scenario_run) : Prop :=
  make_output_filename process (rp_inputs plan) (Some (sr_rcp s))
  = inr (sr_output_filename s)
  /\ get_datasets (rp_dataset_name plan) (sr_workdir s) (rp_variables plan)
       (sr_rcp s) (rp_models plan) = inr (sr_netcdf_inputs s)
  /\ subset_function (sr_workdir s) (sr_netcdf_inputs s) (rp_inputs plan)
     = inr (sr_subsetted_files s)
  /\ sr_subsetted_files s <> []
  /\ run_of (compute_intermediate_variables bccaq_variables set_order
               (sr_subsetted_files s) (rp_input_names plan) (sr_workdir s))
       (sr_intermediate_events s) (inr (sr_intermediate_files s))
  /\ make_indicator_inputs bccaq_variables set_order (xci process)
       (rp_not_datasets plan) (sr_intermediate_files s)
     = inr (map gr_inputs (sr_groups s))
  /\ map gr_index (sr_groups s) = seq 0 (length (sr_groups s))
  /\ Forall (fun g => compute_indices (xci process) (gr_inputs g)
                      = inr (gr_indices g)) (sr_groups s)
  /\ er_files (sr_ensemble s) = map gr_file (sr_groups s)
  /\ ensemble_flows (rp_percentiles plan) (sr_ensemble s).

(** The ensemble a scenario adds to the list. *)
Definition scenario_ensemble (s : scenario_run) : Dataset :=
  set_attr "source_datasets"
    (AStr (PyStr.join nl (map input_url (sr_netcdf_inputs s))))
    (er_result (sr_ensemble s)).

(** The calls that write the output in the CSV format: the table, the
    metadata, and the archive of both. *)
Definition csv_events (ensemble : Dataset) (df : frame) (metadata : string)
    (ensemble_csv metadata_file ensemble_output : Path) : list event :=
  [ Call_dataset_to_dataframe ensemble;
    Call_to_csv df ensemble_csv;
    Call_format_metadata ensemble;
    Call_write_text metadata_file metadata;
    Call_zip_files ensemble_output [metadata_file; ensemble_csv] ].

(** The call that joins the scenarios, made when there are several. *)
Definition concat_events (rcps : list string) (ensembles : list Dataset)
  : list event :=
  if (1 <? length rcps)%nat then [Call_concat ensembles "rcp" rcps] else [].

(** [request.inputs[k][0].data] when it is there and is a string. *)
Definition literal_of (inputs : RequestInputs) (k : string) : option string :=
  match dict_get k inputs with
  | Some (Literal (DStr s) :: _) => Some s
  | _ => None
  end.

(** The [data] of all the inputs of [request.inputs[k]] when they are
    strings. *)
Fixpoint all_data (l : list wps_input) : option (list string) :=
  match l with
  | [] => Some []
  | Literal (DStr s) :: rest => option_map (cons s) (all_data rest)
  | _ :: _ => None
  end.

Definition literals_of (inputs : RequestInputs) (k : string) : option (list string) :=
  match dict_get k inputs with
  | Some l => all_data l
  | None => None
  end.

(** The plan is what the handler reads of the request: the format of
    the output, the percentiles (the items of the comma-separated input,
    each stripped and converted with [int], in order), the scenarios and
    the models (stripped, in the order of the request). *)
Definition plan_of (process : Process) (inputs : RequestInputs)
    (plan : request_plan) : Prop :=
  rp_inputs plan = inputs
  /\ rp_not_datasets plan
     = List.filter (fun kv => PyStr.in_list (fst kv) (xci_inputs_identifiers process))
         inputs
  /\ rp_input_names plan
     = accepted_variables bccaq_variables
       ∩ list_to_set (xci_inputs_identifiers process)
  /\ (exists sub_inputs,
        get_sub_inputs (set_order (rp_input_names plan)) = Some sub_inputs
        /\ rp_variables plan
           = set_order (bccaq_variables ∩ list_to_set sub_inputs))
  /\ (exists output_format,
        literal_of inputs "output_format" = Some output_format
        /\ rp_csv plan = String.eqb output_format "csv")
  /\ (exists percentiles_string,
        literal_of inputs "ensemble_percentiles" = Some percentiles_string
        /\ Forall2 (fun item n => PyStr.int (PyStr.strip item) = Some n)
             (PyStr.split "," percentiles_string) (rp_percentiles plan))
  /\ (exists raw, literals_of inputs "rcp" = Some raw
                  /\ rp_rcps plan = map PyStr.strip raw)
  /\ (exists raw, literals_of inputs "models" = Some raw
                  /\ rp_models plan = map PyStr.strip raw)
  /\ rp_dataset_name plan
     = match single_input_or_none inputs "dataset" with
       | Some (DStr d) => Some d
       | _ => None
       end.

(** The ensemble that is written: the one ensemble, or the scenarios
    joined along ["rcp"]. *)
Definition joined (rcps : list string) (ensembles : list Dataset)
    (ensemble : Dataset) : Prop :=
  if (1 <? length rcps)%nat then concat ensembles "rcp" rcps = inr ensemble
  else head ensembles = Some ensemble.

(** The output is written: for the CSV format the table and the
    metadata, next to each other, and the archive that holds the two; for
    any other format one NetCDF file, whose name has the suffix [.nc]. *)
Definition output_written (csv : bool) (output_filename : string)
    (ensemble : Dataset) (ensemble_output : Path) (evs : list event) : Prop :=
  exists output_basename,
    name output_basename = output_filename +:+ "_ensemble"
    /\ if csv then
         exists df metadata ensemble_csv,
           PyPath.with_suffix output_basename ".csv" = inr ensemble_csv
           /\ name ensemble_output = output_filename +:+ ".zip"
           /\ evs = csv_events ensemble df metadata ensemble_csv
                      (PyPath.sibling output_basename
                         (PyPath.stem ensemble_csv +:+ "_metadata.txt"))
                      ensemble_output
       else
         PyPath.with_suffix output_basename ".nc" = inr ensemble_output
         /\ evs = [Call_dataset_to_netcdf ensemble ensemble_output].

(** The calls of a scenario up to the call of the subsetting function. *)
Definition subset_reached (plan : request_plan) (rcp dir : string)
    (netcdf_inputs : list wps_input) : list event :=
  [ Call_mkdir dir;
    log_fetching rcp;
    Call_get_datasets (rp_dataset_name plan) dir (rp_variables plan) rcp
      (rp_models plan);
    log_subset rcp;
    Call_subset_function dir netcdf_inputs (rp_inputs plan) ].

(** A run of the handler that returns a response: the scenarios one
    after the other, in the order of the request, then the scenarios are
    joined, then the output is written. *)
Definition completed (process : Process) (inputs : RequestInputs)
    (evs : list event) (response : Response) : Prop :=
  exists plan runs last ensemble written,
    plan_of process inputs plan
    /\ map sr_rcp runs = rp_rcps plan
    /\ Forall (scenario_flows process plan) runs
    /\ List.last (map Some runs) None = Some last
    /\ joined (rp_rcps plan) (map scenario_ensemble runs) ensemble
    /\ output_written (rp_csv plan) (sr_output_filename last) ensemble
         (output response) written
    /\ evs = [log_started (length (rp_rcps plan))]
             ++ flat_map (scenario_events plan) runs
             ++ concat_events (rp_rcps plan) (map scenario_ensemble runs)
             ++ written
             ++ [log_finished].

(** A run of the handler that is left because subsetting gave no file:
    some scenarios are complete, and the last call is the call of the
    subsetting function. *)
Definition stopped_without_data (process : Process) (inputs : RequestInputs)
    (evs : list event) : Prop :=
  exists plan runs rcp dir netcdf_inputs,
    plan_of process inputs plan
    /\ Forall (scenario_flows process plan) runs
    /\ subset_function dir netcdf_inputs (rp_inputs plan) = inr []
    /\ evs = [log_started (length (rp_rcps plan))]
             ++ flat_map (scenario_events plan) runs
             ++ subset_reached plan rcp dir netcdf_inputs.

(** A call of the subsetting function that returned no file. *)
Definition empty_subset (ev : event) : Prop :=
  match ev with
  | Call_subset_function dir netcdf_inputs request_inputs =>
      subset_function dir netcdf_inputs request_inputs = inr []
  | _ => False
  end.

End Course.

(** What every run of a computation does: whatever the state it starts
    in, the calls it makes and the result it ends with satisfy [Q]. *)
Definition does `{Opaque} {A} (m : M A) (Q : list event -> result A -> Prop) : Prop :=
  forall st r st', m st = (r, st') -> exists evs, trace st' = trace st ++ evs /\ Q evs r.

(** What the handler does, in every run. *)
Definition handles `{Externals} (bccaq_variables : gset string)
    (set_order : gset string -> list string) (process : Process)
    (inputs : RequestInputs) (evs : list event) (r : result Response) : Prop :=
  match r with
  | inr response => completed bccaq_variables set_order process inputs evs response
  | inl e =>
      (e = ProcessError no_data_message
       /\ stopped_without_data bccaq_variables set_order process inputs evs)
      \/ Forall (fun ev => ~ empty_subset ev) evs
  end.

(** The passes of a loop that ends: each pass takes the accumulator on,
    and the calls of the passes follow one another. *)
Inductive passes `{Opaque} {A B} (pass : B -> A -> B -> list event -> Prop)
  : B -> list A -> B -> list event -> Prop :=
| passes_nil acc : passes pass acc [] acc []
| passes_cons acc x acc' evs l acc'' evs' :
    pass acc x acc' evs ->
    passes pass acc' l acc'' evs' ->
    passes pass acc (x :: l) acc'' (evs ++ evs').

(** The passes of a loop that is left by an exception: some passes end,
    then one raises. *)
Inductive broken `{Opaque} {A B} (pass : B -> A -> B -> list event -> Prop)
    (fails : B -> A -> exn -> list event -> Prop)
  : B -> list A -> exn -> list event -> Prop :=
| broken_here acc x l e evs :
    fails acc x e evs -> broken pass fails acc (x :: l) e evs
| broken_later acc x acc' evs l e evs' :
    pass acc x acc' evs ->
    broken pass fails acc' l e evs' ->
    broken pass fails acc (x :: l) e (evs ++ evs').

(** The calls of the subsetting function. *)
Definition is_subset_call `{Opaque} (ev : event) : bool :=
  match ev with
  | Call_subset_function _ _ _ => true
  | _ => false
  end.

(** No call in [evs] is a call of the subsetting function that returned
    no file. *)
Definition clean `{Externals} (evs : list event) : Prop :=
  Forall (fun ev => ~ empty_subset ev) evs.

(** The calls that only the end of the handler makes, to join the
    scenarios and to write the CSV output. *)
Definition is_output_call `{Opaque} (ev : event) : bool :=
  match ev with
  | Call_concat _ _ _ | Call_dataset_to_dataframe _ | Call_to_csv _ _
  | Call_format_metadata _ | Call_write_text _ _ | Call_zip_files _ _ => true
  | _ => false
  end.

Definition is_netcdf_write `{Opaque} (ev : event) : bool :=
  match ev with
  | Call_dataset_to_netcdf _ _ => true
  | _ => false
  end.

Definition is_index_computation `{Opaque} (ev : event) : bool :=
  match ev with
  | Call_compute_indices _ => true
  | _ => false
  end.

Definition is_percentiles_call `{Opaque} (ev : event) : bool :=
  match ev with
  | Call_ensemble_percentiles _ _ => true
  | _ => false
  end.

(** A call of the percentiles with other values than [percentiles]. *)
Definition other_percentiles `{Opaque} (percentiles : list Z) (ev : event) : bool :=
  match ev with
  | Call_ensemble_percentiles _ values => negb (bool_decide (values = percentiles))
  | _ => false
  end.

(** How many calls of a kind there are. *)
Definition count `{Opaque} (kind : event -> bool) (evs : list event) : nat :=
  length (List.filter kind evs).

(** The calls that make a computed variable into a dataset: each of the
    functions of [variable_computations] makes one. *)
Definition is_variable_dataset `{Opaque} (ev : event) : bool :=
  match ev with
  | Call_to_dataset _ _ => true
  | _ => false
  end.

(** The calls that [compute_intermediate_variables] makes: a file is
    opened, a percentile or a dataset is made, a file is written. *)
Definition is_intermediate_call `{Opaque} (ev : event) : bool :=
  match ev with
  | Call_open_dataset _ | Call_percentile_doy _ _ | Call_to_dataset _ _
  | Call_dataset_to_netcdf _ _ => true
  | _ => false
  end.

(** What a computation of variables does: its calls are of these kinds
    only, and when it returns it has written one NetCDF file for each
    variable made into a dataset. *)
Definition computes_variables `{Opaque} {A} (evs : list event) (r : result A)
  : Prop :=
  forallb is_intermediate_call evs = true
  /\ match r with
     | inr _ => count is_netcdf_write evs = count is_variable_dataset evs
     | inl _ => True
     end.

(** What the function of a computed variable does: it writes no file,
    and when it returns it has made one dataset. *)
Definition makes_variable `{Opaque} {A} (evs : list event) (r : result A) : Prop :=
  forallb is_intermediate_call evs = true
  /\ count is_netcdf_write evs = 0%nat
  /\ match r with
     | inr _ => count is_variable_dataset evs = 1%nat
     | inl _ => True
     end.

(** The [allowed_values] of the [rcp] input ([finch/processes/wpsio.py]). *)
Definition rcp_allowed_values : list string := ["rcp26"; "rcp45"; "rcp85"].

(** No call in [evs] is a call of the subsetting function. *)
Abbreviation no_subset_call evs :=
  (forallb (fun ev => negb (is_subset_call ev)) evs = true).

(** A computation that makes no call and leaves the state as it is. *)
Definition quiet `{Opaque} {A} (m : M A) (Q : result A -> Prop) : Prop :=
  forall st r st', m st = (r, st') -> st' = st /\ Q r.

(** What a conversion loop does: only conversions are called, and the
    times and the coordinates of the dataset stay. *)
Definition converts `{Opaque} (mk : string -> event) (ds : Dataset)
    (evs : list event) (r : result Dataset) : Prop :=
  (exists vs, evs = map mk vs)
  /\ forall ds', r = inr ds' -> time ds' = time ds /\ coords ds' = coords ds.

(** What [make_ensemble] does: when it returns, its calls are those of
    an ensemble run whose values come one from the other; when it
    raises, it has made no call of the subsetting function. *)
Definition makes_ensemble `{Externals} (files : list Path) (percentiles : list Z)
    (evs : list event) (r : result Dataset) : Prop :=
  match r with
  | inr ds =>
      exists e, er_files e = files /\ er_result e = ds
                /\ ensemble_flows percentiles e
                /\ evs = ensemble_events percentiles e
  | inl _ => no_subset_call evs
  end.

(** One pass of the loop over the groups that ends. *)
Definition group_pass `{Externals} (process : Process) (rcp : string)
    (n_groups : nat) (files : list Path) (group : nat * RequestInputs)
    (files' : list Path) (evs : list event) : Prop :=
  exists g, gr_index g = fst group /\ gr_inputs g = snd group
            /\ compute_indices (xci process) (snd group) = inr (gr_indices g)
            /\ files' = files ++ [gr_file g]
            /\ evs = group_events rcp n_groups g.

(** One pass of the loop over the scenarios that ends. *)
Definition scenario_pass `{Externals} (bccaq_variables : gset string)
    (set_order : gset string -> list string) (process : Process)
    (plan : request_plan) (acc : carried) (rcp : string) (acc' : carried)
    (evs : list event) : Prop :=
  exists s dir,
    sr_rcp s = rcp
    /\ scenario_flows bccaq_variables set_order process plan s
    /\ acc' = (fst acc ++ [scenario_ensemble s],
               Some (sr_output_filename s,
                     PyPath.div dir (sr_output_filename s +:+ "_ensemble")))
    /\ evs = scenario_events plan s.

(** One pass that raises: for want of data, right after the call of the
    subsetting function, or for another reason. *)
Definition scenario_fails `{Externals} (plan : request_plan) (rcp : string)
    (e : exn) (evs : list event) : Prop :=
  (e = ProcessError no_data_message
   /\ exists dir netcdf_inputs,
        subset_function dir netcdf_inputs (rp_inputs plan) = inr []
        /\ evs = subset_reached plan rcp dir netcdf_inputs)
  \/ clean evs.

(* ===================================================================== *)
(** ** A small world to run the pipeline in

    One variable ([tasmin]), files that hold one number for each year, a
    catalog with one file for each scenario except [rcp26], and an
    ensemble that is the list of the files' years. *)
(* ===================================================================== *)

Module Demo.

#[export] Instance opaque : Opaque :=
  {| slab := Z; coordinate := list Z; frame := list Z; Indicator := list string |}.

Definition bccaq_variables : gset string := {["tasmin"; "tasmax"; "pr"]}.

Definition set_order (s : gset string) : list string := elements s.

Definition years : list timestamp :=
  [mkTimestamp 1949 0; mkTimestamp 1950 0; mkTimestamp 1951 0].

Definition a_dataset : Dataset :=
  mkDataset years [("lat", [45%Z]); ("realization", [0%Z])]
    [("tasmin", mkDataArray [("units", AStr "K")] (AlongTime [1; 2; 3]%Z))]
    [].

#[export] Instance externals : Externals :=
  {| single_input_or_none inputs k :=
       match dict_get k inputs with
       | Some (Literal d :: _) => Some d
       | _ => None
       end;
     get_datasets _ _ _ rcp _ :=
       if String.eqb rcp "rcp26" then inr []
       else inr [Complex "" ("http://catalog/tasmin_" +:+ rcp +:+ ".nc")];
     subset_function dir netcdf_inputs _ :=
       inr (map (fun _ => PyPath.div dir "tasmin_sub.nc") netcdf_inputs);
     compute_indices _ _ := inr a_dataset;
     dataset_to_netcdf _ _ := inr tt;
     dataset_to_dataframe ds := inr (map year (time ds));
     format_metadata _ := inr "metadata";
     zip_files _ _ := inr tt;
     log_file_path dir := dir +:+ "/log.txt";
     indicator_parameters ind := ind;
     create_ensemble _ := inr a_dataset;
     ensemble_percentiles ds _ := inr ds;
     doy_to_days_since a := inr a;
     days_since_to_doy a := inr a;
     percentile_doy a _ := inr a;
     open_dataset path :=
       inr (mkDataset years [("lat", [45%Z])]
              [(hd "" (PyStr.split "_" (name path)),
                mkDataArray [("units", AStr "K")] (AlongTime [1; 2; 3]%Z))]
              []);
     getitem ds k :=
       match dict_get k (data_vars ds) with
       | Some a => inr a
       | None => inl (KeyError k)
       end;
     getattribute ds k :=
       match dict_get k (data_vars ds) with
       | Some a => inr a
       | None => inl (OtherError "AttributeError")
       end;
     da_add a _ := inr a;
     da_div a _ := inr a;
     sel_percentiles a _ := inr a;
     to_dataset a v := inr (mkDataset years [] [(v, a)] []);
     concat l _ _ := match l with e :: _ => inr e | [] => inl (ValueError "concat") end;
     load _ := inr tt;
     reset_and_set_index df _ := inr df;
     frame_columns _ := ["lat"; "lon"; "time"];
     frame_drop df _ := inr df;
     dropna df := df;
     to_csv _ _ := inr tt;
     input_url i := match i with Complex _ url => url | Literal _ => "" end;
     mkdir _ := inr tt;
     write_text _ _ := inr tt;
     float_of_str _ := inr 0%float;
     format_3f _ := "0.000" |}.

(** Values of the kind [finch/processes/constants.py] holds. *)
Definition ALL_24_MODELS : string := "24MODELS".

Definition PCIC_12 : string := "PCIC12".

Definition BCCAQV2_MODELS : list string :=
  [ "BNU-ESM"; "CCSM4"; "CESM1-CAM5"; "CNRM-CM5"; "CSIRO-Mk3-6-0"; "CanESM2";
    "FGOALS-g2"; "GFDL-CM3"; "GFDL-ESM2G"; "GFDL-ESM2M"; "HadGEM2-AO";
    "HadGEM2-ES"; "IPSL-CM5A-LR"; "IPSL-CM5A-MR"; "MIROC-ESM-CHEM"; "MIROC-ESM";
    "MIROC5"; "MPI-ESM-LR"; "MPI-ESM-MR"; "MRI-CGCM3"; "NorESM1-M"; "NorESM1-ME";
    "bcc-csm1-1-m"; "bcc-csm1-1" ].

Definition PCIC_12_MODELS_REALIZATIONS : list (string * string) :=
  [ ("ACCESS1-0", "r1"); ("CCSM4", "r2"); ("CNRM-CM5", "r1");
    ("CSIRO-Mk3-6-0", "r1"); ("CanESM2", "r1"); ("GFDL-ESM2G", "r1");
    ("HadGEM2-CC", "r1"); ("HadGEM2-ES", "r1"); ("inmcm4", "r1");
    ("MIROC5", "r3"); ("MPI-ESM-LR", "r3"); ("MRI-CGCM3", "r1") ].

(** The catalog of the repository's test of the dataset function. *)
Definition test_names : list string :=
  [ "tasmin_day_BCCAQv2+ANUSPLIN300_CNRM-CM5_historical+rcp85_r1i1p1_19500101-21001231.nc";
    "tasmin_day_BCCAQv2+ANUSPLIN300_CNRM-CM5_historical+rcp45_r1i1p1_19500101-21001231.nc";
    "tasmin_day_BCCAQv2+ANUSPLIN300_CanESM2_historical+rcp45_r1i1p1_19500101-21001231.nc";
    "tasmax_day_BCCAQv2+ANUSPLIN300_CanESM2_historical+rcp45_r1i1p1_19500101-21001231.nc";
    "tasmax_day_BCCAQv2+ANUSPLIN300_NorESM1-M_historical+rcp26_r1i1p1_19500101-21001231.nc";
    "tasmax_day_BCCAQv2+ANUSPLIN300_NorESM1-ME_historical+rcp85_r1i1p1_19500101-21001231.nc";
    "tasmax_day_BCCAQv2+ANUSPLIN300_NorESM1-ME_historical+rcp45_r1i1p1_19500101-21001231." ].

Definition test_catalog (catalog_url : string) : list (string * string) :=
  map (fun n => (n, catalog_url +:+ "/" +:+ n)) test_names.

Definition test_glob (dir : string) : list Path := map (mkPath dir) test_names.

Definition process : Process := mkProcess "tn_min" ["tasmin"; "freq"] ["tasmin"; "freq"].

Definition request (output_format percentiles : string) (rcps : list string)
  : RequestInputs :=
  [ ("output_format", [Literal (DStr output_format)]);
    ("ensemble_percentiles", [Literal (DStr percentiles)]);
    ("rcp", map (fun r => Literal (DStr r)) rcps);
    ("models", [Literal (DStr "24MODELS")]);
    ("freq", [Literal (DStr "YS")]) ].

Definition start : state :=
  mkState "/w" [("start", 5%Z); ("convert_to_csv", 95%Z)] [].

Definition run (output_format percentiles : string) (rcps : list string)
  : result Response * state :=
  ensemble_common_handler bccaq_variables set_order process
    (request output_format percentiles rcps) start.

(** A process that takes a computed variable, [tn10], with [tasmin]. *)
Definition process_tn10p : Process :=
  mkProcess "tn10p" ["tasmin"; "tn10"; "freq"] ["tasmin"; "tn10"; "freq"].

Definition run_tn10p (output_format percentiles : string) (rcps : list string)
  : result Response * state :=
  ensemble_common_handler bccaq_variables set_order process_tn10p
    (request output_format percentiles rcps) start.

End Demo.

(* ===================================================================== *)
(** ** The words of the properties *)
(* ===================================================================== *)

(** Two texts that differ at most in the case of their letters. *)
Definition same_letters (a b : string) : Prop := PyStr.lower a = PyStr.lower b.

(** The name that the fields of a record spell in the format of
    [from_filename], with the text between the fields as it is written
    there. *)
Definition filename_of (r : Bccaqv2File) : string :=
  variable r +:+ "_" +:+ frequency r +:+ "_BCCAQv2+ANUSPLIN300_"
  +:+ driving_model_id r +:+ "_" +:+ driving_experiment_id r +:+ "_r"
  +:+ driving_realization r +:+ "i" +:+ driving_initialization_method r +:+ "p"
  +:+ driving_physics_version r +:+ "_" +:+ default "" (date_start r) +:+ "-"
  +:+ default "" (date_end r) +:+ ".nc".

(** No field of the record is empty, and both dates are there. *)
Definition fields_filled (r : Bccaqv2File) : Prop :=
  variable r <> "" /\ frequency r <> "" /\ driving_model_id r <> ""
  /\ driving_experiment_id r <> "" /\ driving_realization r <> ""
  /\ driving_initialization_method r <> "" /\ driving_physics_version r <> ""
  /\ (exists d, date_start r = Some d /\ d <> "")
  /\ (exists d, date_end r = Some d /\ d <> "").

(** [fname] has the form of the format with the fields of [r], where the
    text between the fields may differ from the format in letter case. *)
Definition has_form (fname : string) (r : Bccaqv2File) : Prop :=
  fields_filled r /\
  exists s1 s2 s3 s4 s5 s6 s7 s8 s9,
    same_letters s1 "_" /\ same_letters s2 "_BCCAQv2+ANUSPLIN300_"
    /\ same_letters s3 "_" /\ same_letters s4 "_r" /\ same_letters s5 "i"
    /\ same_letters s6 "p" /\ same_letters s7 "_" /\ same_letters s8 "-"
    /\ same_letters s9 ".nc"
    /\ fname =
       variable r +:+ s1 +:+ frequency r +:+ s2 +:+ driving_model_id r +:+ s3
       +:+ driving_experiment_id r +:+ s4 +:+ driving_realization r +:+ s5
       +:+ driving_initialization_method r +:+ s6 +:+ driving_physics_version r
       +:+ s7 +:+ default "" (date_start r) +:+ s8 +:+ default "" (date_end r)
       +:+ s9.

(** [sub] occurs in [s]. *)
Definition occurs_in (sub s : string) : Prop := exists a b, s = a +:+ sub +:+ b.

Section Selection.

Variable ALL_24_MODELS : string.
Variable BCCAQV2_MODELS : list string.
Variable PCIC_12 : string.
Variable PCIC_12_MODELS_REALIZATIONS : list (string * string).

(** The [models] argument is left out or names all 24 models. *)
Definition default_selection (models : option (list string)) : Prop :=
  models = None
  \/ exists ms, models = Some ms /\ map PyStr.lower ms = [PyStr.lower ALL_24_MODELS].

(** The [models] argument names the PCIC-12 ensemble. *)
Definition pcic_12_selection (models : option (list string)) : Prop :=
  exists ms, models = Some ms /\ map PyStr.lower ms = [PyStr.lower PCIC_12].

(** The model of the file is one of the known BCCAQv2 models (letter
    case aside) and its realization is ["1"]. *)
Definition known_model_r1 (parsed : Bccaqv2File) : Prop :=
  (exists m, In m BCCAQV2_MODELS /\ same_letters m (driving_model_id parsed))
  /\ driving_realization parsed = "1".

(** The model and the realization of the file are one of the listed
    pairs, whose realization is written with a letter in front, as in
    ["r1"]. *)
Definition listed_pair (parsed : Bccaqv2File) : Prop :=
  exists m r, In (m, r) PCIC_12_MODELS_REALIZATIONS
              /\ same_letters m (driving_model_id parsed)
              /\ PyStr.drop 1 r = driving_realization parsed.

(** The model of the file matches the selection. *)
Definition model_matches (models : option (list string)) (parsed : Bccaqv2File)
  : Prop :=
  (default_selection models -> known_model_r1 parsed)
  /\ (pcic_12_selection models -> listed_pair parsed)
  /\ (forall ms, models = Some ms -> ~ default_selection models ->
      ~ pcic_12_selection models ->
      (exists m, In m ms /\ same_letters m (driving_model_id parsed))
      /\ driving_realization parsed = "1").

(** What the claim says of a file the filter selects. *)
Definition selected_by_claim (fname : string) (variables : option (list string))
    (rcp : option string) (models : option (list string)) : Prop :=
  exists parsed,
    from_filename fname = Some parsed
    /\ (forall vs, variables = Some vs -> vs <> [] -> In (variable parsed) vs)
    /\ (forall r, rcp = Some r -> occurs_in r (driving_experiment_id parsed))
    /\ model_matches models parsed.

(** The filter, with the filename parsing method, selects the file. *)
Definition selects (entry : string * string) (variables : option (list string))
    (rcp : option string) (models : option (list string)) : bool :=
  match _bccaqv2_filter ALL_24_MODELS BCCAQV2_MODELS PCIC_12
          PCIC_12_MODELS_REALIZATIONS filename (fst entry) (snd entry)
          variables rcp models with
  | inr true => true
  | _ => false
  end.

End Selection.

(** A computation that leaves the steps of the progress as they are. *)
Definition keeps_steps `{Opaque} {A} (m : M A) : Prop :=
  forall st r st',
    m st = (r, st') -> status_percentage_steps st' = status_percentage_steps st.

(** [del d[k]] on a dict with the key [k]. *)
Definition without_step (k : string) (steps : dict Z) : dict Z :=
  List.filter (fun kv => negb (String.eqb (fst kv) k)) steps.

(** The words of the properties of [make_file_groups]. *)
Section GroupWords.

Variable bccaq_variables : gset string.

(** The names of the files of a group, and of all the groups. *)
Definition group_names (group : group_dict) : list string :=
  map (fun e => name (snd e)) group.

Definition groups_names (groups : list group_dict) : list string :=
  flat_map group_names groups.

(** Every entry of the group maps an accepted variable [v] to one of the
    files, whose name is [fname] with its first [var] replaced by [v]. *)
Definition grouped_around (files : list Path) (var fname : string)
    (group : group_dict) : Prop :=
  forall v f, In (v, f) group ->
    v ∈ accepted_variables bccaq_variables
    /\ In f files
    /\ name f = PyStr.replace_first var v fname.

(** A group has an anchor: an entry whose file name starts with its
    variable and an underscore, around which the group is made. *)
Definition well_grouped (files : list Path) (group : group_dict) : Prop :=
  exists var file,
    In (var, file) group
    /\ PyStr.startswith (name file) (var +:+ "_") = true
    /\ grouped_around files var (name file) group.

(** A dict of files by name: each key is the name of its file, one of
    the files. *)
Definition named_files (files : list Path) (filenames : gmap string Path) : Prop :=
  forall n f, filenames !! n = Some f -> name f = n /\ In f files.

End GroupWords.

(** The words of the grouping: a file whose name is an accepted
    variable, an underscore and a tail, and what the loop of
    [make_file_groups] keeps true of such files. *)
Section GroupingWords.

Variable bccaq_variables : gset string.
Variable files : list Path.

Definition prefixed (f : Path) (v tail : string) : Prop :=
  In f files
  /\ v ∈ accepted_variables bccaq_variables
  /\ name f = v +:+ "_" +:+ tail.

(** While the files [rest] are still to come: a prefixed file is still
    in the dict, and then yet to come, or in a group under its variable;
    the files of one tail are in the dict together, and in a group
    together. *)
Definition grouping (rest : list Path) (filenames : gmap string Path)
    (groups : list group_dict) : Prop :=
  (forall f v tail, prefixed f v tail ->
     filenames !! name f = Some f -> In f rest)
  /\ (forall f v tail, prefixed f v tail ->
        filenames !! name f = Some f
        \/ exists group, In group groups /\ In (v, f) group)
  /\ (forall f1 v1 f2 v2 tail, prefixed f1 v1 tail -> prefixed f2 v2 tail ->
        filenames !! name f1 = Some f1 -> filenames !! name f2 = Some f2)
  /\ (forall f1 v1 f2 v2 tail group,
        prefixed f1 v1 tail -> prefixed f2 v2 tail ->
        In group groups -> In (v1, f1) group -> In (v2, f2) group).

End GroupingWords.

(* ===================================================================== *)
(** ** [chunk_dataset] ([finch/processes/base.py]) *)
(* ===================================================================== *)

Module Chunks.

(** [reduce(mul, chunks.values())]; without a value [reduce] raises
    [TypeError]. *)
Definition chunk_size (chunks : dict Z) : result Z :=
  match map snd chunks with
  | [] => inl (OtherError "TypeError")
  | v :: values => inr (fold_left Z.mul values v)
  end.

(** The loop [for dim in cycle(chunks)]: [dims] are the keys, [pending]
    the keys left in the current round; when a round is over the next one
    starts, unless there is no key at all.  [None] stands for a loop that
    has not ended within [fuel] steps. *)
Fixpoint cycle_loop (fuel : nat) (max_size : Z) (dims pending : list string)
    (chunks : dict Z) : option (result (dict Z)) :=
  match fuel with
  | O => None
  | S fuel' =>
      match pending with
      | [] =>
          match dims with
          | [] => Some (inr chunks)
          | _ :: _ => cycle_loop fuel' max_size dims dims chunks
          end
      | dim :: pending' =>
          match chunk_size chunks with
          | inl e => Some (inl e)
          | inr size =>
              if (size <? max_size)%Z then Some (inr chunks)
              else
                match dict_get dim chunks with
                | Some v =>
                    cycle_loop fuel' max_size dims pending'
                      (dict_set dim (Z.max (v / 2) 1) chunks)
                | None => Some (inl (KeyError dim))
                end
          end
      end
  end.

(** [chunk_dataset(ds, max_size)] for a dataset with the sizes [sizes]. *)
Definition chunk_dataset (fuel : nat) (sizes : dict Z) (max_size : Z)
  : option (result (dict Z)) :=
  cycle_loop fuel max_size (map fst sizes) (map fst sizes) sizes.

(** The chunks are those of the same dimensions, none larger than
    before, and none below 1 that was not. *)
Definition shrunk (sizes chunks : dict Z) : Prop :=
  Forall2 (fun a b => fst a = fst b
                      /\ (snd b <= snd a)%Z
                      /\ ((1 <= snd a)%Z -> (1 <= snd b)%Z))
          sizes chunks.

(** The product and the sum of the sizes. *)
Definition product (values : list Z) : Z := fold_right Z.mul 1%Z values.

Definition total (chunks : dict Z) : Z := fold_right Z.add 0%Z (map snd chunks).

(** Chunks of the dimensions [dims], each once, with sizes that are not
    negative. *)
Definition fit (dims : list string) (chunks : dict Z) : Prop :=
  map fst chunks = dims /\ Forall (fun v => (0 <= v)%Z) (map snd chunks).

(** The loop ends from [chunks] with the keys [pending] left in the
    round, in chunks of a product below [max_size]. *)
Definition ends (max_size : Z) (dims pending : list string) (chunks : dict Z) : Prop :=
  exists fuel chunks',
    cycle_loop fuel max_size dims pending chunks = Some (inr chunks')
    /\ shrunk chunks chunks'
    /\ (dims <> [] -> (product (map snd chunks') < max_size)%Z).

End Chunks.

(* ===================================================================== *)
(** ** The percentages of [zip_metalink], checked by computation *)
(* ===================================================================== *)

Module ProgressWords.
Import Progress.

(** [float(n)] for a small integer, by the conversion of the machine
    integers. *)
Definition small_float (z : Z) : float := PrimFloat.of_uint63 (Uint63.of_Z z).

(** [zip_metalink_percentage] with the integers converted by
    [small_float]. *)
Definition small_percentage (start_percentage n n_files : Z) : result Z :=
  if (n_files =? 0)%Z then inl (OtherError "ZeroDivisionError")
  else
    match int_of_float
            (PrimFloat.mul
               (PrimFloat.div (small_float n) (small_float n_files))
               (small_float (100 - start_percentage))) with
    | inl e => inl e
    | inr k => inr (start_percentage + k)%Z
    end.

(** The percentages of [files] files from the index [n] on are at least
    [low] and less than 100, and none is less than the one before. *)
Fixpoint climbs (percentage : Z -> result Z) (files : nat) (n low : Z) : bool :=
  match files with
  | O => true
  | S files' =>
      match percentage n with
      | inr p => (low <=? p)%Z && (p <? 100)%Z && climbs percentage files' (n + 1) p
      | inl _ => false
      end
  end.

End ProgressWords.

(* ===================================================================== *)
(** * Properties *)
(* ===================================================================== *)

Example from_filename_test_name :
  from_filename
    "tasmin_day_BCCAQv2+ANUSPLIN300_CNRM-CM5_historical+rcp85_r1i1p1_19500101-21001231.nc"
  = Some (mkBccaqv2File "tasmin" "day" "CNRM-CM5" "historical+rcp85" "1" "1" "1"
            (Some "19500101") (Some "21001231")).
Proof. reflexivity. Qed.

(** The last name of the repository's test has no [nc] after the dot. *)
Example from_filename_test_truncated :
  from_filename
    "tasmax_day_BCCAQv2+ANUSPLIN300_NorESM1-ME_historical+rcp45_r1i1p1_19500101-21001231."
  = None.
Proof. reflexivity. Qed.

(** Fields are as short as the rest of the name allows. *)
Example from_filename_lazy :
  from_filename "x_y_BCCAQv2+ANUSPLIN300_mir_ripe_rip1p_rii1pp2p3_1-2.nc"
  = Some (mkBccaqv2File "x" "y" "mir" "ripe" "ip1p_r" "i1" "p2p3"
            (Some "1") (Some "2")).
Proof. reflexivity. Qed.


(* ===================================================================== *)
(** ** Progress percentages *)
(* ===================================================================== *)

(** C7, evaluated on the code.  A progress bar made with
    [start_percentage = 29] reports 28 percent at [frac = 0]: the quotient
    29/100 is rounded down to the nearest binary64 number, its product
    with 100 is just below 29, and [int] cuts it to 28.  The reported
    percentage is below [start_percentage], so it does not lie between
    [start_percentage] and 100. *)
Theorem draw_bar_below_start_percentage :
  Progress._draw_bar 29 0%float = inr 28%Z /\ (28 < 29)%Z.
Proof. split; [vm_compute; reflexivity | lia]. Qed.

(** The same happens at 57 and 58, and nowhere else from 0 to 100. *)
Example draw_bar_at_zero_57_58 :
  Progress._draw_bar 57 0%float = inr 56%Z
  /\ Progress._draw_bar 58 0%float = inr 57%Z
  /\ Progress._draw_bar 90 0%float = inr 90%Z
  /\ Progress._draw_bar 90 1%float = inr 100%Z.
Proof. vm_compute. repeat split. Qed.

(** [zip_metalink] with its default [start_percentage] and ten files. *)
Example zip_metalink_ten_files :
  map (fun n => Progress.zip_metalink_percentage 90 n 10)
      [0; 1; 2; 3; 4; 5; 6; 7; 8; 9]%Z
  = map inr [90; 91; 92; 93; 94; 95; 96; 97; 98; 99]%Z.
Proof. vm_compute. reflexivity. Qed.


(* ===================================================================== *)
(** ** The [parse] matcher finds a match exactly when there is one *)
(* ===================================================================== *)

Module ParseFacts.
Import Parse.

Lemma append_assoc (a b c : string) : (a +:+ b) +:+ c = a +:+ (b +:+ c).
Proof. induction a as [|x a IH]; simpl; [reflexivity | now rewrite IH]. Qed.

Lemma append_empty_r (a : string) : a +:+ "" = a.
Proof. induction a as [|x a IH]; simpl; [reflexivity | now rewrite IH]. Qed.

Lemma lower_empty (l : string) : PyStr.lower l = "" -> l = "".
Proof. destruct l; simpl; [reflexivity | discriminate]. Qed.

Lemma eat_literal_sound text : forall s s',
  eat_literal text s = Some s' ->
  exists l, s = l +:+ s' /\ PyStr.lower l = PyStr.lower text.
Proof.
  induction text as [|a text IH]; intros s s' Heat; simpl in Heat.
  - exists "". split; [simpl; congruence | reflexivity].
  - destruct s as [|b s]; [discriminate|].
    destruct (Ascii.eqb _ _) eqn:Hab; [|discriminate].
    apply Ascii.eqb_eq in Hab.
    destruct (IH _ _ Heat) as (l & -> & Hl).
    exists (String b l). split; [reflexivity|].
    simpl. now rewrite Hl, Hab.
Qed.

Lemma eat_literal_complete text : forall l s',
  PyStr.lower l = PyStr.lower text -> eat_literal text (l +:+ s') = Some s'.
Proof.
  induction text as [|a text IH]; intros l s' Hl.
  - apply lower_empty in Hl. now subst.
  - destruct l as [|b l]; [discriminate|].
    simpl in Hl. injection Hl as Hb Hl.
    simpl. rewrite Hb, Ascii.eqb_refl. now apply IH.
Qed.

Section LazyField.

Variable k : string -> option (list string).

Lemma lazy_field_sound : forall s taken vs,
  lazy_field k taken s = Some vs ->
  exists v s' vs', v <> "" /\ s = v +:+ s' /\ k s' = Some vs'
                   /\ vs = (taken +:+ v) :: vs'.
Proof.
  induction s as [|c s IH]; intros taken vs Hl; simpl in Hl; [discriminate|].
  destruct (k s) as [vs'|] eqn:Hk.
  - injection Hl as <-. exists (String c ""), s, vs'. now repeat split.
  - destruct (IH _ _ Hl) as (v & s' & vs' & Hv & -> & Hk' & ->).
    exists (String c v), s', vs'. repeat split; [discriminate | assumption |].
    now rewrite append_assoc.
Qed.

Lemma lazy_field_complete : forall v s' taken,
  v <> "" -> is_Some (k s') -> is_Some (lazy_field k taken (v +:+ s')).
Proof.
  induction v as [|c v IH]; intros s' taken Hv Hk; [congruence|].
  simpl. destruct (k (v +:+ s')) eqn:Hkv; [eauto|].
  destruct v as [|c' v].
  - simpl in Hkv. rewrite Hkv in Hk. now destruct Hk.
  - apply IH; [discriminate | assumption].
Qed.

End LazyField.

Lemma match_items_sound its : forall s vs,
  match_items its s = Some vs -> matches its s vs.
Proof.
  induction its as [|[text|fname] its IH]; intros s vs Hm; simpl in Hm.
  - destruct s; [|discriminate]. injection Hm as <-. constructor.
  - destruct (eat_literal text s) as [s'|] eqn:Heat; [|discriminate].
    destruct (eat_literal_sound _ _ _ Heat) as (l & -> & Hl).
    constructor; [assumption | now apply IH].
  - destruct (lazy_field_sound _ _ _ _ Hm) as (v & s' & vs' & Hv & -> & Hk & ->).
    constructor; [assumption | now apply IH].
Qed.

Lemma match_items_complete its s vs :
  matches its s vs -> is_Some (match_items its s).
Proof.
  induction 1 as [|text l rest s vs Hl _ IH|fname rest v s vs Hv _ IH]; simpl.
  - eauto.
  - now rewrite (eat_literal_complete _ _ _ Hl).
  - now apply lazy_field_complete.
Qed.

End ParseFacts.

(* ===================================================================== *)
(** ** [from_filename] *)
(* ===================================================================== *)

Section FromFilename.
Import Parse ParseFacts.

Lemma matches_field_inv fname rest s vs :
  matches (Field fname :: rest) s vs ->
  exists v s' vs', s = v +:+ s' /\ vs = v :: vs' /\ v <> "" /\ matches rest s' vs'.
Proof. inversion 1; subst; eauto 8. Qed.

Lemma matches_lit_inv text rest s vs :
  matches (Lit text :: rest) s vs ->
  exists l s', s = l +:+ s' /\ same_letters l text /\ matches rest s' vs.
Proof. inversion 1; subst; unfold same_letters; eauto 8. Qed.

Lemma matches_nil_inv s vs : matches [] s vs -> s = "" /\ vs = [].
Proof. inversion 1; auto. Qed.

Ltac invert_matches :=
  repeat match goal with
    | H : matches (Field _ :: _) _ _ |- _ =>
        apply matches_field_inv in H;
        destruct H as (? & ? & ? & -> & -> & ? & H)
    | H : matches (Lit _ :: _) _ _ |- _ =>
        apply matches_lit_inv in H; destruct H as (? & ? & -> & ? & H)
    | H : matches [] _ _ |- _ =>
        apply matches_nil_inv in H; destruct H as [-> ->]
    end.

(** The values a match of the format yields are the fields of a record
    whose form the name has. *)
Lemma matches_pattern_form fname vs :
  matches pattern fname vs ->
  exists v f m e r i p d0 d1,
    vs = [v; f; m; e; r; i; p; d0; d1]
    /\ has_form fname (mkBccaqv2File v f m e r i p (Some d0) (Some d1)).
Proof.
  unfold pattern. intros Hm. invert_matches.
  do 9 eexists. split; [reflexivity|].
  split.
  - unfold fields_filled; simpl. repeat split; eauto.
  - do 9 eexists. simpl. do 9 (split; [shelve|]).
    rewrite append_empty_r. reflexivity.
    Unshelve. all: assumption.
Qed.

Lemma form_matches_pattern fname r :
  has_form fname r ->
  exists d0 d1,
    matches pattern fname
      [variable r; frequency r; driving_model_id r; driving_experiment_id r;
       driving_realization r; driving_initialization_method r;
       driving_physics_version r; d0; d1].
Proof.
  intros [(Hv & Hf & Hm & He & Hr & Hi & Hp & (d0 & Hd0 & Hn0) & (d1 & Hd1 & Hn1))
          (s1 & s2 & s3 & s4 & s5 & s6 & s7 & s8 & s9 & H1 & H2 & H3 & H4 & H5
           & H6 & H7 & H8 & H9 & ->)].
  exists d0, d1. rewrite Hd0, Hd1. simpl. unfold pattern.
  rewrite <- (append_empty_r s9).
  repeat (first [ apply matches_field; [assumption|]
                | apply matches_lit; [assumption|]
                | apply matches_nil ]).
Qed.

Lemma from_filename_sound fname r : from_filename fname = Some r -> has_form fname r.
Proof.
  unfold from_filename. intros Hf.
  destruct (match_items pattern fname) as [vs|] eqn:Hm; [|discriminate].
  apply match_items_sound in Hm.
  destruct (matches_pattern_form _ _ Hm)
    as (v & f & m & e & r' & i & p & d0 & d1 & -> & Hform).
  now injection Hf as <-.
Qed.

Lemma from_filename_complete fname r :
  has_form fname r -> is_Some (from_filename fname).
Proof.
  intros Hform. destruct (form_matches_pattern _ _ Hform) as (d0 & d1 & Hm).
  apply match_items_complete in Hm. destruct Hm as [vs Hm].
  unfold from_filename. rewrite Hm.
  apply match_items_sound in Hm.
  destruct (matches_pattern_form _ _ Hm)
    as (v & f & m & e & r' & i & p & d0' & d1' & -> & _).
  eauto.
Qed.

End FromFilename.

(** C5, as the code has it.  [from_filename] returns a record exactly
    for the names of the form
    [{variable}_{frequency}_BCCAQv2+ANUSPLIN300_{driving_model_id}_{driving_experiment_id}_r{driving_realization}i{driving_initialization_method}p{driving_physics_version}_{date_start}-{date_end}.nc]
    in which no field is empty and the text between the fields is that
    of the format up to letter case; the fields of the record it returns,
    put into the format, spell the name (up to that letter case); and for
    every other name it returns [None]: the function is total and never
    raises. *)
Theorem from_filename_spec (fname : string) :
  (is_Some (from_filename fname) <-> exists r, has_form fname r)
  /\ (forall r, from_filename fname = Some r -> has_form fname r)
  /\ ((forall r, ~ has_form fname r) -> from_filename fname = None).
Proof.
  split; [split|split].
  - intros [r Hr]. exists r. now apply from_filename_sound.
  - intros [r Hr]. now apply (from_filename_complete _ r).
  - apply from_filename_sound.
  - intros Hno. destruct (from_filename fname) as [r|] eqn:Hf; [|reflexivity].
    exfalso. apply (Hno r). now apply from_filename_sound.
Qed.

Lemma prefix_append (p s : string) : String.prefix p (p +:+ s) = true.
Proof.
  induction p as [|c p IH]; simpl; [now destruct s|].
  destruct (ascii_dec c c) as [_|Hc]; [assumption | congruence].
Qed.

Lemma contains_prefix (sub s : string) :
  String.prefix sub s = true -> PyStr.contains sub s = true.
Proof. intros Hp. destruct s; cbn [PyStr.contains]; rewrite Hp; reflexivity. Qed.

Lemma contains_append (sub a b : string) : PyStr.contains sub (a +:+ sub +:+ b) = true.
Proof.
  induction a as [|c a IH].
  - change ("" +:+ sub +:+ b) with (sub +:+ b).
    apply contains_prefix, prefix_append.
  - cbn [String.append PyStr.contains]. rewrite IH. apply orb_true_r.
Qed.

(** Every name spelled in the format holds its middle part as written. *)
Lemma filename_of_contains r :
  PyStr.contains "_BCCAQv2+ANUSPLIN300_" (filename_of r) = true.
Proof.
  unfold filename_of.
  rewrite <- (ParseFacts.append_assoc (variable r) "_").
  rewrite <- (ParseFacts.append_assoc _ (frequency r)).
  apply contains_append.
Qed.

(** C5, as stated, fails.  This name has [bccaqv2+anusplin300] in lower
    case, so it is not of the exact form (no record spells it in the
    format), and [from_filename] returns a record for it all the same. *)
Lemma from_filename_ignores_case :
  from_filename
    "tasmin_day_bccaqv2+anusplin300_CanESM2_historical+rcp45_r1i1p1_19500101-21001231.nc"
  = Some (mkBccaqv2File "tasmin" "day" "CanESM2" "historical+rcp45" "1" "1" "1"
            (Some "19500101") (Some "21001231"))
  /\ forall r,
       filename_of r <>
       "tasmin_day_bccaqv2+anusplin300_CanESM2_historical+rcp45_r1i1p1_19500101-21001231.nc".
Proof.
  split; [reflexivity|].
  intros r Hr. pose proof (filename_of_contains r) as Hc.
  rewrite Hr in Hc. vm_compute in Hc. discriminate.
Qed.

(** [from_filename] at the name of the counterexample, through the
    characterisation: the record it returns has the form of the name. *)
Lemma from_filename_spec_witness :
  has_form
    "tasmin_day_bccaqv2+anusplin300_CanESM2_historical+rcp45_r1i1p1_19500101-21001231.nc"
    (mkBccaqv2File "tasmin" "day" "CanESM2" "historical+rcp45" "1" "1" "1"
       (Some "19500101") (Some "21001231")).
Proof.
  apply (proj1 (proj2 (from_filename_spec _))). reflexivity.
Defined.

(* ===================================================================== *)
(** ** [_bccaqv2_filter] and the dataset functions *)
(* ===================================================================== *)

Lemma in_list_In (x : string) (l : list string) : PyStr.in_list x l = true <-> In x l.
Proof.
  unfold PyStr.in_list. rewrite existsb_exists. split.
  - intros (y & Hy & Heq). apply String.eqb_eq in Heq. now subst.
  - intros Hx. exists x. split; [assumption | apply String.eqb_refl].
Qed.

Lemma in_list_lower (x : string) (ms : list string) :
  PyStr.in_list (PyStr.lower x) (map PyStr.lower ms) = true
  <-> exists m, In m ms /\ same_letters m x.
Proof.
  rewrite in_list_In, in_map_iff. unfold same_letters. firstorder.
Qed.

Lemma prefix_inv (p s : string) :
  String.prefix p s = true -> exists b, s = p +:+ b.
Proof.
  revert s. induction p as [|c p IH]; intros s Hp.
  - exists s. reflexivity.
  - destruct s as [|d s]; simpl in Hp; [discriminate|].
    destruct (ascii_dec c d) as [->|]; [|discriminate].
    destruct (IH _ Hp) as [b ->]. now exists b.
Qed.

Lemma contains_occurs (sub s : string) :
  PyStr.contains sub s = true <-> occurs_in sub s.
Proof.
  split.
  - induction s as [|c s IH]; cbn [PyStr.contains]; intros Hc;
      apply orb_true_iff in Hc as [Hp|Hc]; try discriminate.
    + destruct (prefix_inv _ _ Hp) as [b Hb]. now exists "", b.
    + destruct (prefix_inv _ _ Hp) as [b Hb]. now exists "", b.
    + destruct (IH Hc) as (a & b & ->). now exists (String c a), b.
  - intros (a & b & ->). apply contains_append.
Qed.

Lemma list_str_eqb_eq (a b : list string) : list_str_eqb a b = true <-> a = b.
Proof. unfold list_str_eqb. destruct (decide (a = b)); split; congruence. Qed.

Section FilterFacts.

Variable ALL_24_MODELS : string.
Variable BCCAQV2_MODELS : list string.
Variable PCIC_12 : string.
Variable PCIC_12_MODELS_REALIZATIONS : list (string * string).
Variable glob_nc : string -> list Path.
Variable TDSCatalog : string -> list (string * string).

Abbreviation bccaqv2_filter :=
  (_bccaqv2_filter ALL_24_MODELS BCCAQV2_MODELS PCIC_12 PCIC_12_MODELS_REALIZATIONS).
Abbreviation selects_entry :=
  (selects ALL_24_MODELS BCCAQV2_MODELS PCIC_12 PCIC_12_MODELS_REALIZATIONS).

(** The two special selections are told apart, and the known models are
    not the one name of the PCIC-12 selection. *)
Hypothesis names_differ : PyStr.lower PCIC_12 <> PyStr.lower ALL_24_MODELS.
Hypothesis models_not_pcic_12 :
  map PyStr.lower BCCAQV2_MODELS <> [PyStr.lower PCIC_12].

Lemma pcic_12_ok_listed pairs parsed :
  pcic_12_ok pairs parsed = true
  <-> exists m r, In (m, r) pairs /\ same_letters m (driving_model_id parsed)
                  /\ PyStr.drop 1 r = driving_realization parsed.
Proof.
  unfold same_letters. induction pairs as [|[m r] pairs IH]; simpl.
  - split; [discriminate | now intros (? & ? & [] & _)].
  - destruct (_ && _) eqn:Hok.
    + apply andb_true_iff in Hok as [Hm Hr].
      apply String.eqb_eq in Hm, Hr.
      split; [|reflexivity]. intros _. exists m, r. auto.
    + rewrite IH. split.
      * intros (m' & r' & Hin & Hm & Hr). exists m', r'. auto.
      * intros (m' & r' & [Heq|Hin] & Hm & Hr); [|eauto].
        injection Heq as -> ->.
        rewrite Hm, Hr, !String.eqb_refl in Hok. discriminate.
Qed.

Lemma selected_models_default models :
  default_selection ALL_24_MODELS models ->
  selected_models ALL_24_MODELS BCCAQV2_MODELS models = map PyStr.lower BCCAQV2_MODELS.
Proof.
  unfold selected_models. intros [->|(ms & -> & Hms)]; [reflexivity|].
  now rewrite (proj2 (list_str_eqb_eq _ _) Hms).
Qed.

Lemma selected_models_other ms :
  ~ default_selection ALL_24_MODELS (Some ms) ->
  selected_models ALL_24_MODELS BCCAQV2_MODELS (Some ms) = map PyStr.lower ms.
Proof.
  unfold selected_models. intros Hnd.
  destruct (list_str_eqb _ _) eqn:Heq; [|reflexivity].
  apply list_str_eqb_eq in Heq. exfalso. apply Hnd. right. eauto.
Qed.

Lemma default_not_pcic_12 models :
  default_selection ALL_24_MODELS models -> ~ pcic_12_selection PCIC_12 models.
Proof.
  intros [->|(ms & -> & Hms)] (ms' & Heq & Hms'); [discriminate|].
  injection Heq as <-. rewrite Hms in Hms'. injection Hms' as Hms'. congruence.
Qed.

Lemma default_selection_dec models :
  default_selection ALL_24_MODELS models \/ ~ default_selection ALL_24_MODELS models.
Proof.
  destruct models as [ms|]; [|left; now left].
  destruct (decide (map PyStr.lower ms = [PyStr.lower ALL_24_MODELS])) as [Heq|Hne].
  - left. right. eauto.
  - right. intros [Hn|(ms' & Hms & Hl)]; [discriminate|].
    injection Hms as <-. contradiction.
Qed.

(** The last test of the filter is the claim's match of the model with
    the selection. *)
Lemma model_test_matches models parsed :
  (if list_str_eqb (selected_models ALL_24_MODELS BCCAQV2_MODELS models)
        [PyStr.lower PCIC_12]
   then pcic_12_ok PCIC_12_MODELS_REALIZATIONS parsed
   else PyStr.in_list (PyStr.lower (driving_model_id parsed))
          (selected_models ALL_24_MODELS BCCAQV2_MODELS models)
        && String.eqb (driving_realization parsed) "1") = true
  <-> model_matches ALL_24_MODELS BCCAQV2_MODELS PCIC_12
        PCIC_12_MODELS_REALIZATIONS models parsed.
Proof.
  unfold model_matches, known_model_r1, listed_pair.
  destruct (default_selection_dec models) as [Hd|Hnd].
  - rewrite (selected_models_default _ Hd).
    destruct (list_str_eqb _ _) eqn:Heq;
      [apply list_str_eqb_eq in Heq; contradiction|].
    rewrite andb_true_iff, in_list_lower, String.eqb_eq.
    pose proof (default_not_pcic_12 _ Hd). tauto.
  - destruct models as [ms|]; [|exfalso; apply Hnd; now left].
    rewrite (selected_models_other _ Hnd).
    destruct (list_str_eqb _ _) eqn:Heq.
    + apply list_str_eqb_eq in Heq.
      assert (Hp : pcic_12_selection PCIC_12 (Some ms)) by (exists ms; auto).
      rewrite pcic_12_ok_listed. tauto.
    + assert (Hnp : ~ pcic_12_selection PCIC_12 (Some ms)).
      { intros (ms' & Hms & Hl). injection Hms as <-.
        apply list_str_eqb_eq in Hl. congruence. }
      rewrite andb_true_iff, in_list_lower, String.eqb_eq.
      split.
      * intros Hok. split; [tauto|]. split; [tauto|].
        intros ms' Hms _ _. injection Hms as <-. tauto.
      * intros (_ & _ & Hother). now apply (Hother ms).
Qed.

Lemma variable_test_given variables v :
  truthy_list variables && negb (PyStr.in_list v (default [] variables)) = false
  <-> (forall vs, variables = Some vs -> vs <> [] -> In v vs).
Proof.
  destruct variables as [[|x vs]|].
  - split; [intros _ vs Hvs Hne; now injection Hvs as <- | reflexivity].
  - change (truthy_list (Some (x :: vs))
            && negb (PyStr.in_list v (default [] (Some (x :: vs)))))
      with (negb (PyStr.in_list v (x :: vs))).
    rewrite negb_false_iff, in_list_In. split.
    + intros Hin vs' Hvs _. now injection Hvs as <-.
    + intros Hall. now apply Hall.
  - split; [discriminate | reflexivity].
Qed.

Lemma rcp_test_given rcp e :
  truthy_str rcp && negb (PyStr.contains (default "" rcp) e) = false
  <-> (forall r, rcp = Some r -> occurs_in r e).
Proof.
  destruct rcp as [[|c r]|].
  - split; [|reflexivity]. intros _ r Hr. injection Hr as <-. now exists "", e.
  - change (truthy_str (Some (String c r))
            && negb (PyStr.contains (default "" (Some (String c r))) e))
      with (negb (PyStr.contains (String c r) e)).
    rewrite negb_false_iff, contains_occurs. split.
    + intros Hin r' Hr. now injection Hr as <-.
    + intros Hall. now apply Hall.
  - split; [discriminate | reflexivity].
Qed.

(** With the filename method the filter returns and does not raise. *)
Lemma filter_filename_returns fname url variables rcp models :
  exists keep, bccaqv2_filter filename fname url variables rcp models = inr keep.
Proof.
  unfold _bccaqv2_filter. destruct (from_filename fname); [|eauto].
  repeat match goal with |- context [if ?c then _ else _] => destruct c end; eauto.
Qed.

Lemma filter_selects fname url variables rcp models :
  bccaqv2_filter filename fname url variables rcp models = inr true
  <-> selected_by_claim ALL_24_MODELS BCCAQV2_MODELS PCIC_12
        PCIC_12_MODELS_REALIZATIONS fname variables rcp models.
Proof.
  unfold _bccaqv2_filter, selected_by_claim.
  destruct (from_filename fname) as [parsed|].
  2: { split; [discriminate | now intros (? & ? & _)]. }
  pose proof (variable_test_given variables (variable parsed)) as Hv.
  pose proof (rcp_test_given rcp (driving_experiment_id parsed)) as Hr.
  pose proof (model_test_matches models parsed) as Hm.
  destruct (truthy_list variables && _).
  { split; [discriminate|]. intros (p & Hp & Hv' & _). injection Hp as <-.
    apply Hv in Hv'. discriminate. }
  destruct (truthy_str rcp && _).
  { split; [discriminate|]. intros (p & Hp & _ & Hr' & _). injection Hp as <-.
    apply Hr in Hr'. discriminate. }
  split.
  - intros Hok. exists parsed. split; [reflexivity|].
    split; [now apply Hv|]. split; [now apply Hr|]. apply Hm.
    destruct (list_str_eqb _ _); injection Hok as Hok; exact Hok.
  - intros (p & Hp & _ & _ & Hmatch). injection Hp as <-.
    apply Hm in Hmatch. destruct (list_str_eqb _ _); now rewrite Hmatch.
Qed.

Lemma filter_urls_selected entries variables rcp models :
  filter_urls ALL_24_MODELS BCCAQV2_MODELS PCIC_12 PCIC_12_MODELS_REALIZATIONS
    filename entries variables rcp models
  = inr (map snd (List.filter (fun e => selects_entry e variables rcp models) entries)).
Proof.
  induction entries as [|[fname url] entries IH]; [reflexivity|].
  cbn [filter_urls List.filter]. unfold selects at 1. cbn [fst snd].
  destruct (filter_filename_returns fname url variables rcp models) as [keep ->].
  rewrite IH. now destruct keep.
Qed.

(** C2.  With the filename parsing method, [_bccaqv2_filter] returns
    (it does not raise) and selects a file if and only if: the name
    parses as a BCCAQv2+ANUSPLIN300 name; when a variables list is given
    (not [None] and not empty, Python's truth test) the parsed variable
    is in it; when an rcp is given it occurs in the parsed
    [driving_experiment_id]; and the parsed model matches the selection:
    for the default and the all-24-models selection the model is one of
    [BCCAQV2_MODELS] and the realization is ["1"], for the PCIC-12
    selection the model and realization are one of the listed pairs, and
    for any other list the model is in the list and the realization is
    ["1"] (models are compared without regard to letter case).  Both
    dataset functions return the urls, or paths, of exactly the entries
    the filter selects, in the order of the catalog, or of the glob. *)
Theorem bccaqv2_filter_selection fname url variables rcp models catalog_url :
  (bccaqv2_filter filename fname url variables rcp models = inr true
   <-> selected_by_claim ALL_24_MODELS BCCAQV2_MODELS PCIC_12
         PCIC_12_MODELS_REALIZATIONS fname variables rcp models)
  /\ (exists keep, bccaqv2_filter filename fname url variables rcp models = inr keep)
  /\ get_bccaqv2_opendap_datasets ALL_24_MODELS BCCAQV2_MODELS PCIC_12
       PCIC_12_MODELS_REALIZATIONS TDSCatalog catalog_url variables rcp filename models
     = inr (map snd
              (List.filter (fun e => selects_entry e variables rcp models)
                 (TDSCatalog catalog_url)))
  /\ get_bccaqv2_local_files_datasets ALL_24_MODELS BCCAQV2_MODELS PCIC_12
       PCIC_12_MODELS_REALIZATIONS glob_nc catalog_url variables rcp filename models
     = inr (map PyPath.str
              (List.filter
                 (fun file => selects_entry (name file, PyPath.str file)
                                variables rcp models)
                 (glob_nc catalog_url))).
Proof.
  split; [apply filter_selects|].
  split; [apply filter_filename_returns|].
  split; [apply filter_urls_selected|].
  unfold get_bccaqv2_local_files_datasets. rewrite filter_urls_selected.
  f_equal. induction (glob_nc catalog_url) as [|file files IH]; [reflexivity|].
  cbn [map List.filter].
  destruct (selects_entry _ variables rcp models); cbn [map snd]; now rewrite IH.
Qed.

End FilterFacts.

(** The catalog of the repository's test: of the seven names, the two
    [tasmin] files of [rcp45] are selected, in the order of the catalog. *)
Example test_get_opendap_datasets_bccaqv2 :
  get_bccaqv2_opendap_datasets Demo.ALL_24_MODELS Demo.BCCAQV2_MODELS Demo.PCIC_12
    Demo.PCIC_12_MODELS_REALIZATIONS Demo.test_catalog "http://thredds"
    (Some ["tasmin"]) (Some "rcp45") filename None
  = inr [ "http://thredds/tasmin_day_BCCAQv2+ANUSPLIN300_CNRM-CM5_historical+rcp45_r1i1p1_19500101-21001231.nc";
          "http://thredds/tasmin_day_BCCAQv2+ANUSPLIN300_CanESM2_historical+rcp45_r1i1p1_19500101-21001231.nc" ].
Proof. vm_compute. reflexivity. Qed.

(** The PCIC-12 selection takes [CCSM4] in its second realization only. *)
Example pcic_12_takes_listed_realization :
  map (fun n => _bccaqv2_filter Demo.ALL_24_MODELS Demo.BCCAQV2_MODELS Demo.PCIC_12
                  Demo.PCIC_12_MODELS_REALIZATIONS filename n "" None None
                  (Some ["pcic12"]))
      [ "pr_day_BCCAQv2+ANUSPLIN300_CCSM4_historical+rcp45_r2i1p1_19500101-21001231.nc";
        "pr_day_BCCAQv2+ANUSPLIN300_CCSM4_historical+rcp45_r1i1p1_19500101-21001231.nc" ]
  = [inr true; inr false].
Proof. vm_compute. reflexivity. Qed.

(** The filter theorem at the constants above and the second name of the
    test. *)
Lemma bccaqv2_filter_selection_witness :
  (_bccaqv2_filter Demo.ALL_24_MODELS Demo.BCCAQV2_MODELS Demo.PCIC_12
     Demo.PCIC_12_MODELS_REALIZATIONS filename
     "tasmin_day_BCCAQv2+ANUSPLIN300_CNRM-CM5_historical+rcp45_r1i1p1_19500101-21001231.nc"
     "url" (Some ["tasmin"]) (Some "rcp45") None = inr true
   <-> selected_by_claim Demo.ALL_24_MODELS Demo.BCCAQV2_MODELS Demo.PCIC_12
         Demo.PCIC_12_MODELS_REALIZATIONS
         "tasmin_day_BCCAQv2+ANUSPLIN300_CNRM-CM5_historical+rcp45_r1i1p1_19500101-21001231.nc"
         (Some ["tasmin"]) (Some "rcp45") None)
  /\ get_bccaqv2_opendap_datasets Demo.ALL_24_MODELS Demo.BCCAQV2_MODELS Demo.PCIC_12
       Demo.PCIC_12_MODELS_REALIZATIONS Demo.test_catalog "http://thredds"
       (Some ["tasmin"]) (Some "rcp45") filename None
     = inr (map snd
              (List.filter
                 (fun e => selects Demo.ALL_24_MODELS Demo.BCCAQV2_MODELS Demo.PCIC_12
                             Demo.PCIC_12_MODELS_REALIZATIONS e
                             (Some ["tasmin"]) (Some "rcp45") None)
                 (Demo.test_catalog "http://thredds"))).
Proof.
  assert (H1 : PyStr.lower Demo.PCIC_12 <> PyStr.lower Demo.ALL_24_MODELS)
    by (vm_compute; discriminate).
  assert (H2 : map PyStr.lower Demo.BCCAQV2_MODELS <> [PyStr.lower Demo.PCIC_12])
    by (vm_compute; discriminate).
  pose proof (bccaqv2_filter_selection Demo.ALL_24_MODELS Demo.BCCAQV2_MODELS
                Demo.PCIC_12 Demo.PCIC_12_MODELS_REALIZATIONS Demo.test_glob
                Demo.test_catalog H1 H2
                "tasmin_day_BCCAQv2+ANUSPLIN300_CNRM-CM5_historical+rcp45_r1i1p1_19500101-21001231.nc"
                "url" (Some ["tasmin"]) (Some "rcp45") None "http://thredds")
    as (Hsel & _ & Hurls & _).
  split; assumption.
Defined.


(* ===================================================================== *)
(** ** Reasoning on computations *)
(* ===================================================================== *)

Section Does.

Context `{Opaque}.

Lemma does_weaken {A} (m : M A) (Q Q' : list event -> result A -> Prop) :
  does m Q -> (forall evs r, Q evs r -> Q' evs r) -> does m Q'.
Proof.
  intros Hm HQ st r st' Hrun. destruct (Hm _ _ _ Hrun) as (evs & Ht & Hq). eauto.
Qed.

Lemma does_ret {A} (x : A) : does (ret x) (fun evs r => evs = [] /\ r = inr x).
Proof.
  intros st r st' [= <- <-]. exists []. now rewrite app_nil_r.
Qed.

Lemma does_raise {A} (e : exn) :
  does (@raise _ A e) (fun evs r => evs = [] /\ r = inl e).
Proof.
  intros st r st' [= <- <-]. exists []. now rewrite app_nil_r.
Qed.

Lemma does_lift {A} (x : result A) : does (lift x) (fun evs r => evs = [] /\ r = x).
Proof.
  intros st r st' [= <- <-]. exists []. now rewrite app_nil_r.
Qed.

Lemma does_emit (ev : event) : does (emit ev) (fun evs r => evs = [ev] /\ r = inr tt).
Proof. intros st r st' [= <- <-]. exists [ev]. auto. Qed.

Lemma does_call {A} (ev : event) (x : result A) :
  does (call ev x) (fun evs r => evs = [ev] /\ r = x).
Proof. intros st r st' [= <- <-]. exists [ev]. auto. Qed.

Lemma does_get_workdir :
  does get_workdir (fun evs r => evs = [] /\ exists dir, r = inr dir).
Proof.
  intros st r st' [= <- <-]. exists []. rewrite app_nil_r. eauto.
Qed.

Lemma does_set_workdir dir :
  does (set_workdir dir) (fun evs r => evs = [] /\ r = inr tt).
Proof.
  intros st r st' [= <- <-]. exists []. now rewrite app_nil_r.
Qed.

Lemma does_del_step k : does (del_step k) (fun evs r => evs = []).
Proof.
  intros st r st'. unfold del_step.
  destruct (dict_get k _); intros [= <- <-]; exists []; now rewrite app_nil_r.
Qed.

Lemma does_bind {A B} (m : M A) (f : A -> M B) Q1 Q2 :
  does m Q1 -> (forall a, does (f a) (Q2 a)) ->
  does (bind m f)
    (fun evs r =>
       (exists a e1 e2, evs = e1 ++ e2 /\ Q1 e1 (inr a) /\ Q2 a e2 r)
       \/ (exists e, r = inl e /\ Q1 evs (inl e))).
Proof.
  intros Hm Hf st r st'. unfold bind.
  destruct (m st) as [[e|a] st1] eqn:Hrun;
    destruct (Hm _ _ _ Hrun) as (e1 & Ht1 & Hq1).
  - intros [= <- <-]. exists e1. eauto.
  - intros Hrun2. destruct (Hf _ _ _ _ Hrun2) as (e2 & Ht2 & Hq2).
    exists (e1 ++ e2). rewrite Ht2, Ht1, app_assoc. eauto 8.
Qed.

Lemma does_foldM {A B} (body : B -> A -> M B) pass fails :
  (forall acc x,
     does (body acc x)
       (fun evs r => match r with
                     | inr acc' => pass acc x acc' evs
                     | inl e => fails acc x e evs
                     end)) ->
  forall l acc,
    does (foldM body l acc)
      (fun evs r => match r with
                    | inr acc' => passes pass acc l acc' evs
                    | inl e => broken pass fails acc l e evs
                    end).
Proof.
  intros Hbody. induction l as [|x l IH]; intros acc; cbn [foldM].
  - eapply does_weaken; [apply does_ret|].
    intros evs r [-> ->]. constructor.
  - eapply does_weaken; [apply (does_bind _ _ _ _ (Hbody acc x) (IH))|].
    intros evs r [(acc' & e1 & e2 & -> & Hp & Hrest)|(e & -> & Hf)].
    + destruct r as [e|acc'']; [eapply broken_later | eapply passes_cons];
        eassumption.
    + now constructor.
Qed.

End Does.

(* ===================================================================== *)
(** ** [make_ensemble] *)
(* ===================================================================== *)

Lemma select_map_filter {A} (p : A -> bool) (l : list A) :
  select (map p l) l = List.filter p l.
Proof.
  induction l as [|x l IH]; simpl; [reflexivity|].
  destruct (p x); now rewrite IH.
Qed.

Lemma time_from_1950 `{Opaque} (ds : Dataset) :
  time (sel_time (from_1950 ds) ds)
  = List.filter (fun t => (1950 <=? year t)%Z) (time ds).
Proof. apply select_map_filter. Qed.

(** Symbolic execution of a straight piece of code: the run is unfolded
    call by call, with a case for each result a call may have. *)
Ltac run_step :=
  match goal with
  | H : context [match ?x with inl _ => _ | inr _ => _ end] |- _ =>
      let E := fresh "Hcall" in destruct x eqn:E
  | H : context [match ?x with Some _ => _ | None => _ end] |- _ =>
      let E := fresh "Hget" in destruct x eqn:E
  | H : context [if ?x then _ else _] |- _ =>
      let E := fresh "Htest" in destruct x eqn:E
  | H : context [match ?x with [] => _ | _ :: _ => _ end] |- _ =>
      let E := fresh "Hlist" in destruct x eqn:E
  | H : context [let (_, _) := ?x in _] |- _ =>
      let E := fresh "Hpair" in destruct x eqn:E
  end.

Ltac run_unfold H :=
  cbv beta iota delta [bind call emit lift ret raise get_workdir set_workdir] in H;
  cbn [fst snd workdir status_percentage_steps trace] in H.

Section MakeEnsembleFacts.

Context `{Externals}.

Lemma converts_passes mk (vars : list (string * DataArray)) :
  forall ds ds' evs,
    passes (fun acc (_ : string * DataArray) acc' evs => converts mk acc evs (inr acc'))
      ds vars ds' evs ->
    converts mk ds evs (inr ds').
Proof.
  induction vars as [|x vars IH]; intros ds ds' evs Hp; inversion Hp; subst.
  - split; [now exists [] | now intros ? [= <-]].
  - match goal with
    | H1 : converts _ _ _ _, H2 : passes _ _ _ _ _ |- _ =>
        destruct H1 as [(vs1 & ->) Hk1];
        destruct (IH _ _ _ H2) as [(vs2 & ->) Hk2]
    end.
    split; [exists (vs1 ++ vs2); now rewrite map_app|].
    intros ? [= <-].
    destruct (Hk1 _ eq_refl) as [Ht1 Hc1]. destruct (Hk2 _ eq_refl) as [Ht2 Hc2].
    split; congruence.
Qed.

Lemma converts_broken mk (vars : list (string * DataArray)) :
  forall ds e evs,
    broken (fun acc (_ : string * DataArray) acc' evs => converts mk acc evs (inr acc'))
      (fun acc _ e evs => converts mk acc evs (inl e))
      ds vars e evs ->
    exists vs, evs = map mk vs.
Proof.
  induction vars as [|x vars IH]; intros ds e evs Hb; inversion Hb; subst.
  - match goal with H : converts _ _ _ _ |- _ => now destruct H end.
  - match goal with
    | H1 : converts _ _ _ _, H2 : broken _ _ _ _ _ _ |- _ =>
        destruct H1 as [(vs1 & ->) _]; destruct (IH _ _ _ H2) as (vs2 & ->)
    end.
    exists (vs1 ++ vs2). now rewrite map_app.
Qed.

Lemma to_days_since_converts ds :
  does (to_days_since ds) (converts Call_doy_to_days_since ds).
Proof.
  unfold to_days_since.
  eapply does_weaken.
  - apply does_foldM with
      (pass := fun acc (_ : string * DataArray) acc' evs =>
                 converts Call_doy_to_days_since acc evs (inr acc'))
      (fails := fun acc (_ : string * DataArray) e evs =>
                  converts Call_doy_to_days_since acc evs (inl e)).
    intros acc [v a0] st r st' Hrun. run_unfold Hrun.
    repeat run_step; injection Hrun as <- <-; cbn [trace].
    all: first [ exists [Call_doy_to_days_since v]; split; [reflexivity|];
                 split; [now exists [v] | now intros ? [= <-]]
               | exists []; rewrite app_nil_r; split; [reflexivity|];
                 split; [now exists [] | now intros ? [= <-]] ].
  - intros evs [e|ds'] Hp.
    + split; [eapply converts_broken; eassumption | discriminate].
    + eapply converts_passes; eassumption.
Qed.

Lemma to_doy_converts ds : does (to_doy ds) (converts Call_days_since_to_doy ds).
Proof.
  unfold to_doy.
  eapply does_weaken.
  - apply does_foldM with
      (pass := fun acc (_ : string * DataArray) acc' evs =>
                 converts Call_days_since_to_doy acc evs (inr acc'))
      (fails := fun acc (_ : string * DataArray) e evs =>
                  converts Call_days_since_to_doy acc evs (inl e)).
    intros acc [v a0] st r st' Hrun. run_unfold Hrun.
    repeat run_step; injection Hrun as <- <-; cbn [trace].
    all: first [ exists [Call_days_since_to_doy v]; split; [reflexivity|];
                 split; [now exists [v] | now intros ? [= <-]]
               | exists []; rewrite app_nil_r; split; [reflexivity|];
                 split; [now exists [] | now intros ? [= <-]] ].
  - intros evs [e|ds'] Hp.
    + split; [eapply converts_broken; eassumption | discriminate].
    + eapply converts_passes; eassumption.
Qed.

Lemma clean_no_subset evs :
  forallb (fun ev => negb (is_subset_call ev)) evs = true -> clean evs.
Proof.
  unfold clean. rewrite forallb_forall, List.Forall_forall.
  intros Hall ev Hin Hempty. specialize (Hall ev Hin).
  destruct ev; try discriminate; contradiction.
Qed.

Lemma clean_app evs1 evs2 : clean evs1 -> clean evs2 -> clean (evs1 ++ evs2).
Proof. unfold clean. rewrite Forall_app. auto. Qed.

Lemma clean_map (mk : string -> event) vs :
  (forall v, is_subset_call (mk v) = false) -> clean (map mk vs).
Proof.
  intros Hmk. apply clean_no_subset, forallb_forall.
  intros ev (v & <- & _)%in_map_iff. now rewrite Hmk.
Qed.

Lemma forallb_map_conversion (mk : string -> event) vs :
  (forall v, is_subset_call (mk v) = false) ->
  forallb (fun ev => negb (is_subset_call ev)) (map mk vs) = true.
Proof.
  intros Hmk. apply forallb_forall.
  intros ev (v & <- & _)%in_map_iff. now rewrite Hmk.
Qed.

Lemma make_ensemble_does files percentiles :
  does (make_ensemble files percentiles) (makes_ensemble files percentiles).
Proof.
  intros st r st' Hrun. unfold make_ensemble in Hrun. run_unfold Hrun.
  destruct (create_ensemble files) as [e|created] eqn:Hcreate.
  { injection Hrun as <- <-. cbn [trace]. eexists. split; reflexivity. }
  destruct (to_days_since _ _) as [[e|input] st1] eqn:Hdays;
    destruct (to_days_since_converts _ _ _ _ Hdays)
      as (evs1 & Ht1 & (vs1 & ->) & Hkeep1); cbn [trace] in Ht1.
  { injection Hrun as <- <-. eexists. rewrite Ht1, <- app_assoc.
    split; [reflexivity|]. cbn [makes_ensemble app forallb is_subset_call negb andb].
    now apply forallb_map_conversion. }
  destruct (Hkeep1 _ eq_refl) as [Htime1 Hcoords1].
  destruct (ensemble_percentiles input percentiles) as [e|out] eqn:Hperc.
  { injection Hrun as <- <-. cbn [trace]. eexists.
    rewrite Ht1, <- !app_assoc. split; [reflexivity|].
    cbn [makes_ensemble app forallb is_subset_call negb andb].
    rewrite forallb_app, forallb_map_conversion by reflexivity. reflexivity. }
  destruct (to_doy _ _) as [[e|out'] st2] eqn:Hdoy;
    destruct (to_doy_converts _ _ _ _ Hdoy)
      as (evs2 & Ht2 & (vs2 & ->) & Hkeep2); cbn [trace] in Ht2.
  { injection Hrun as <- <-. eexists.
    rewrite Ht2, Ht1, <- !app_assoc. split; [reflexivity|].
    cbn [makes_ensemble app forallb is_subset_call negb andb].
    rewrite forallb_app, forallb_map_conversion by reflexivity.
    cbn [app forallb is_subset_call negb andb].
    now apply forallb_map_conversion. }
  destruct (Hkeep2 _ eq_refl) as [Htime2 Hcoords2].
  set (result := match dict_get "realization" (coords out') with
                 | Some _ => drop_coord "realization" out'
                 | None => out'
                 end) in *.
  assert (Htime3 : time result = time out).
  { subst result. now destruct (dict_get _ _). }
  destruct (load result) as [e|[]] eqn:Hload; injection Hrun as <- <-;
    cbn [trace]; eexists; rewrite Ht2, Ht1, <- !app_assoc;
    (split; [reflexivity|]).
  - cbn [makes_ensemble app forallb is_subset_call negb andb].
    rewrite forallb_app, forallb_map_conversion by reflexivity.
    cbn [app forallb is_subset_call negb andb].
    rewrite forallb_app, forallb_map_conversion by reflexivity. reflexivity.
  - exists (mkEnsembleRun files created vs1 input out vs2 result).
    cbn [makes_ensemble er_files er_result]. split; [reflexivity|].
    split; [reflexivity|]. split; [|reflexivity].
    unfold ensemble_flows. cbn [er_files er_created er_input er_output er_result].
    rewrite Htime1, Hcoords1, time_from_1950. auto.
Qed.

(** C9.  Every dataset [make_ensemble] returns holds only time steps of
    the year 1950 or later, whatever the years of the files, as long as
    the percentiles of xclim keep the time steps of the ensemble they
    are computed of (they are taken over the realizations).  The
    selection itself keeps every time step from 1950 on, in order, drops
    the others, and leaves the other coordinates as they are. *)
Theorem make_ensemble_from_1950 files percentiles st ds st' :
  (forall input values out,
      ensemble_percentiles input values = inr out -> time out = time input) ->
  make_ensemble files percentiles st = (inr ds, st') ->
  Forall (fun t => (1950 <= year t)%Z) (time ds)
  /\ exists created input,
       create_ensemble files = inr created
       /\ In (Call_ensemble_percentiles input percentiles) (trace st')
       /\ time input = List.filter (fun t => (1950 <=? year t)%Z) (time created)
       /\ coords input = coords created
       /\ coords (sel_time (from_1950 created) created) = coords created.
Proof.
  intros Hkeeps Hrun.
  destruct (make_ensemble_does _ _ _ _ _ Hrun)
    as (evs & Ht & e & <- & <- & (Hc & Htime & Hcoords & Hp & Hres) & ->).
  split.
  - rewrite Hres, (Hkeeps _ _ _ Hp), Htime.
    apply List.Forall_forall. intros t [_ Ht1950]%filter_In. lia.
  - exists (er_created e), (er_input e).
    split; [assumption|]. split; [|auto].
    rewrite Ht. unfold ensemble_events. rewrite !in_app_iff. simpl.
    right; right; right; left; left; reflexivity.
Qed.

End MakeEnsembleFacts.

(** In the small world the files start in 1949 and the ensemble starts
    in 1950. *)
Lemma make_ensemble_from_1950_witness :
  exists ds st',
    @make_ensemble Demo.opaque Demo.externals
      [mkPath "/w" "tn_min_sub.nc"] [10; 50; 90]%Z Demo.start = (inr ds, st')
    /\ map year (time ds) = [1950; 1951]%Z
    /\ Forall (fun t => (1950 <= year t)%Z) (time ds).
Proof.
  eexists. eexists. split; [vm_compute; reflexivity|].
  split; [reflexivity|].
  refine (proj1 (@make_ensemble_from_1950 Demo.opaque Demo.externals
                   [mkPath "/w" "tn_min_sub.nc"] [10; 50; 90]%Z Demo.start _ _ _ _)).
  - intros input values out [= <-]. reflexivity.
  - vm_compute. reflexivity.
Defined.

(* ===================================================================== *)
(** ** What the handler reads of the request *)
(* ===================================================================== *)

Section Reading.

Context `{Externals}.

Lemma quiet_does {A} (m : M A) Q :
  quiet m Q -> does m (fun evs r => evs = [] /\ Q r).
Proof.
  intros Hq st r st' Hrun. destruct (Hq _ _ _ Hrun) as [-> HQ].
  exists []. now rewrite app_nil_r.
Qed.

Lemma first_data_quiet inputs k :
  quiet (first_data inputs k)
    (fun r => forall s, r = inr s -> literal_of inputs k = Some s).
Proof.
  intros st r st' Hrun. unfold first_data, inputs_of, data_str, literal_of in *.
  run_unfold Hrun.
  destruct (dict_get k inputs) as [[|[[s|x]|f u] l]|];
    injection Hrun as <- <-; (split; [reflexivity|]); intros s' [= <-]; reflexivity.
Qed.

Lemma collect_stripped l : forall acc st r st',
  foldM (fun acc i => let* d := data_str i in ret (acc ++ [PyStr.strip d]))
    l acc st = (r, st') ->
  st' = st
  /\ forall res, r = inr res ->
       exists raw, all_data l = Some raw /\ res = acc ++ map PyStr.strip raw.
Proof.
  induction l as [|i l IH]; intros acc st r st' Hrun; cbn [foldM] in Hrun.
  - injection Hrun as <- <-. split; [reflexivity|]. intros res [= <-].
    exists []. now rewrite app_nil_r.
  - unfold bind at 1 in Hrun. unfold data_str in Hrun at 1.
    destruct i as [[s|x]|f u]; run_unfold Hrun;
      try (injection Hrun as <- <-; split; [reflexivity | discriminate]).
    destruct (IH _ _ _ _ Hrun) as [-> Hres]. split; [reflexivity|].
    intros res Hr. destruct (Hres _ Hr) as (raw & Hraw & ->).
    exists (s :: raw). cbn [all_data]. rewrite Hraw. split; [reflexivity|].
    now rewrite <- app_assoc.
Qed.

Lemma stripped_data_quiet inputs k :
  quiet (stripped_data inputs k)
    (fun r => forall l, r = inr l ->
                exists raw, literals_of inputs k = Some raw
                            /\ l = map PyStr.strip raw).
Proof.
  intros st r st' Hrun. unfold stripped_data, inputs_of, literals_of in *.
  unfold bind at 1 in Hrun.
  destruct (dict_get k inputs) as [l|]; run_unfold Hrun.
  - destruct (collect_stripped _ _ _ _ _ Hrun) as [-> Hres].
    split; [reflexivity|]. intros res Hr.
    destruct (Hres _ Hr) as (raw & Hraw & ->). eauto.
  - injection Hrun as <- <-. split; [reflexivity | discriminate].
Qed.

Lemma collect_percentiles items : forall acc st r st',
  foldM (fun acc p =>
           match PyStr.int (PyStr.strip p) with
           | Some n => ret (acc ++ [n])
           | None => raise (ValueError "invalid literal for int()")
           end) items acc st = (r, st') ->
  st' = st
  /\ forall res, r = inr res ->
       exists ns, Forall2 (fun item n => PyStr.int (PyStr.strip item) = Some n)
                    items ns
                  /\ res = acc ++ ns.
Proof.
  induction items as [|p items IH]; intros acc st r st' Hrun; cbn [foldM] in Hrun.
  - injection Hrun as <- <-. split; [reflexivity|]. intros res [= <-].
    exists []. split; [constructor | now rewrite app_nil_r].
  - unfold bind at 1 in Hrun.
    destruct (PyStr.int (PyStr.strip p)) as [n|] eqn:Hint; run_unfold Hrun.
    + destruct (IH _ _ _ _ Hrun) as [-> Hres]. split; [reflexivity|].
      intros res Hr. destruct (Hres _ Hr) as (ns & Hns & ->).
      exists (n :: ns). split; [now constructor | now rewrite <- app_assoc].
    + injection Hrun as <- <-. split; [reflexivity | discriminate].
Qed.

Lemma parse_percentiles_quiet percentiles_string :
  quiet (parse_percentiles percentiles_string)
    (fun r => forall l, r = inr l ->
                Forall2 (fun item n => PyStr.int (PyStr.strip item) = Some n)
                  (PyStr.split "," percentiles_string) l).
Proof.
  intros st r st' Hrun. unfold parse_percentiles in Hrun.
  destruct (collect_percentiles _ _ _ _ _ Hrun) as [-> Hres].
  split; [reflexivity|]. intros l Hr. now destruct (Hres _ Hr) as (ns & Hns & ->).
Qed.

End Reading.

(* ===================================================================== *)
(** ** The loop over the groups of files *)
(* ===================================================================== *)

Section GroupFacts.

Context `{Externals}.
Variable bccaq_variables : gset string.
Variable set_order : gset string -> list string.
Variable process : Process.

Lemma indices_output_name_quiet output_filename n inputs :
  quiet (indices_output_name bccaq_variables set_order process output_filename n inputs)
    (fun _ => True).
Proof.
  unfold indices_output_name.
  generalize (output_filename +:+ "_" +:+ identifier process +:+ "_"
              +:+ pretty n +:+ ".nc").
  induction (set_order (accepted_variables bccaq_variables)) as [|var vars IH];
    intros acc st r st' Hrun; cbn [foldM] in Hrun.
  - injection Hrun as <- <-. auto.
  - unfold bind at 1 in Hrun.
    destruct (dict_get var inputs) as [[|[d|file url] l]|]; run_unfold Hrun;
      try (injection Hrun as <- <-; auto; fail);
      eapply IH; eassumption.
Qed.

Lemma compute_group_does rcp output_filename n_groups files group :
  does (compute_group bccaq_variables set_order process rcp output_filename
          n_groups files group)
    (fun evs r => match r with
                  | inr files' => group_pass process rcp n_groups files group files' evs
                  | inl _ => no_subset_call evs
                  end).
Proof.
  destruct group as [n inputs]. intros st r st' Hrun.
  unfold compute_group in Hrun. run_unfold Hrun.
  destruct (compute_indices (xci process) inputs) as [e|output_ds] eqn:Hci.
  { injection Hrun as <- <-. cbn [trace]. eexists. rewrite <- app_assoc.
    split; reflexivity. }
  destruct (indices_output_name _ _ _ _ _ _ _) as [[e|output_name] st1] eqn:Hname;
    destruct (indices_output_name_quiet _ _ _ _ _ _ Hname) as [-> _].
  { injection Hrun as <- <-. cbn [trace]. eexists. rewrite <- app_assoc.
    split; reflexivity. }
  cbn [workdir trace] in Hrun.
  destruct (dataset_to_netcdf _ _) as [e|[]] eqn:Hwrite;
    injection Hrun as <- <-; cbn [trace]; eexists; rewrite <- !app_assoc;
    (split; [reflexivity|]); [reflexivity|].
  eexists (mkGroupRun n inputs output_ds _). cbn. auto.
Qed.

Lemma no_subset_call_app evs1 evs2 :
  no_subset_call evs1 -> no_subset_call evs2 -> no_subset_call (evs1 ++ evs2).
Proof. intros H1 H2. now rewrite forallb_app, H1, H2. Qed.

Lemma no_subset_call_groups rcp n_groups gs :
  no_subset_call (flat_map (group_events rcp n_groups) gs).
Proof.
  induction gs as [|g gs IH]; [reflexivity|]. cbn [flat_map].
  apply no_subset_call_app; [reflexivity | assumption].
Qed.

(** The loop over the groups when it ends: one run for each group, in
    the order of the groups. *)
Lemma group_passes rcp n_groups groups : forall k files files' evs,
  passes (group_pass process rcp n_groups) files (combine (seq k (length groups)) groups)
    files' evs ->
  exists gs, map gr_index gs = seq k (length groups)
             /\ map gr_inputs gs = groups
             /\ Forall (fun g => compute_indices (xci process) (gr_inputs g)
                                 = inr (gr_indices g)) gs
             /\ files' = files ++ map gr_file gs
             /\ evs = flat_map (group_events rcp n_groups) gs.
Proof.
  induction groups as [|inputs groups IH]; intros k files files' evs Hp;
    cbn [length seq combine] in Hp; inversion Hp; subst.
  - exists []. cbn. rewrite app_nil_r. auto.
  - match goal with
    | H1 : group_pass _ _ _ _ _ _ _, H2 : passes _ _ _ _ _ |- _ =>
        destruct H1 as (g & Hi & Hin & Hci & -> & ->);
        destruct (IH _ _ _ _ H2) as (gs & Hidx & Hins & Hall & -> & ->)
    end.
    cbn [fst snd] in *. exists (g :: gs). cbn [map length seq flat_map].
    rewrite Hi, Hin, Hidx, Hins, <- app_assoc.
    repeat split; try reflexivity.
    constructor; [now rewrite Hin | assumption].
Qed.

Lemma group_broken rcp n_groups (l : list (nat * RequestInputs)) :
  forall files e evs,
    broken (group_pass process rcp n_groups) (fun _ _ _ evs => no_subset_call evs)
      files l e evs ->
    no_subset_call evs.
Proof.
  induction l as [|x l IH]; intros files e evs Hb; inversion Hb; subst;
    [assumption|].
  match goal with
  | H1 : group_pass _ _ _ _ _ _ _ |- _ => destruct H1 as (g & _ & _ & _ & _ & ->)
  end.
  apply no_subset_call_app; [reflexivity | eauto].
Qed.

Lemma groups_loop_does rcp output_filename groups :
  does (foldM (compute_group bccaq_variables set_order process rcp output_filename
                 (length groups))
          (enumerate groups) [])
    (fun evs r =>
       match r with
       | inr files =>
           exists gs, map gr_index gs = seq 0 (length gs)
                      /\ map gr_inputs gs = groups
                      /\ Forall (fun g => compute_indices (xci process) (gr_inputs g)
                                          = inr (gr_indices g)) gs
                      /\ files = map gr_file gs
                      /\ evs = flat_map (group_events rcp (length gs)) gs
       | inl _ => no_subset_call evs
       end).
Proof.
  eapply does_weaken.
  - apply does_foldM with
      (pass := group_pass process rcp (length groups))
      (fails := fun (_ : list Path) (_ : nat * RequestInputs) (_ : exn) evs =>
                  no_subset_call evs).
    intros acc x. eapply does_weaken; [apply compute_group_does|].
    now intros evs [e|files'].
  - intros evs [e|files] Hp.
    + eapply group_broken; eassumption.
    + destruct (group_passes _ _ _ _ _ _ _ Hp) as (gs & Hidx & Hins & Hall & -> & ->).
      assert (Hlen : length gs = length groups)
        by (now rewrite <- Hins, length_map).
      exists gs. rewrite Hlen. auto.
Qed.

End GroupFacts.

(* ===================================================================== *)
(** ** The computed variables *)
(* ===================================================================== *)

(** The end of a run: the calls made are read off the trace. *)
Ltac run_end H :=
  injection H as <- <-; cbn [trace];
  first [ exists []; rewrite app_nil_r; split; [reflexivity|]
        | eexists; rewrite <- ?app_assoc; split; [reflexivity|] ].

Section IntermediateFacts.

Context `{Externals}.
Variable bccaq_variables : gset string.
Variable set_order : gset string -> list string.

Lemma count_app kind evs1 evs2 :
  count kind (evs1 ++ evs2) = (count kind evs1 + count kind evs2)%nat.
Proof. unfold count. now rewrite List.filter_app, length_app. Qed.

Lemma count_none kind evs :
  forallb (fun ev => negb (kind ev)) evs = true -> count kind evs = 0%nat.
Proof.
  unfold count. induction evs as [|ev evs IH]; [reflexivity|]. cbn.
  destruct (kind ev); [discriminate|]. exact IH.
Qed.

Lemma tas_does tasmin tasmax : does (_tas tasmin tasmax) makes_variable.
Proof.
  intros st r st' Hrun. unfold _tas in Hrun. run_unfold Hrun.
  repeat run_step; run_end Hrun; repeat split.
Qed.

Lemma percentile_doy_does source per target ds :
  does (_percentile_doy source per target ds) makes_variable.
Proof.
  intros st r st' Hrun. unfold _percentile_doy in Hrun. run_unfold Hrun.
  repeat run_step; run_end Hrun; repeat split.
  now destruct (to_dataset _ _).
Qed.

Lemma raise_makes {A} e : does (raise (A := A) e) makes_variable.
Proof. intros st r st' Hrun. run_unfold Hrun. run_end Hrun. repeat split. Qed.

(** Every function of [variable_computations] makes one dataset. *)
Lemma variable_function_does variable f inputs :
  dict_get variable variable_functions = Some f -> does (f inputs) makes_variable.
Proof.
  unfold variable_functions. cbn [dict_get].
  repeat match goal with
         | |- context [String.eqb variable ?k] => destruct (String.eqb variable k)
         end;
    intros Heq; try discriminate Heq; injection Heq as <-.
  - destruct inputs as [|a [|b [|c l]]]; cbn [binary];
      first [apply raise_makes | apply tas_does].
  - destruct inputs as [|a [|b l]]; cbn [unary];
      first [apply raise_makes | apply percentile_doy_does].
  - destruct inputs as [|a [|b l]]; cbn [unary];
      first [apply raise_makes | apply percentile_doy_does].
  - destruct inputs as [|a [|b l]]; cbn [unary];
      first [apply raise_makes | apply percentile_doy_does].
  - destruct inputs as [|a [|b l]]; cbn [unary];
      first [apply raise_makes | apply percentile_doy_does].
  - destruct inputs as [|a [|b l]]; cbn [unary];
      first [apply raise_makes | apply percentile_doy_does].
Qed.

(** The inputs are opened one after the other. *)
Lemma open_inputs_does group input_names : forall acc,
  does (foldM (fun acc input_name =>
                 match dict_get input_name group with
                 | Some path =>
                     let* ds := call (Call_open_dataset path) (open_dataset path) in
                     ret (acc ++ [ds])
                 | None => raise (KeyError input_name)
                 end)
          input_names acc)
    (fun evs _ => exists paths, evs = map Call_open_dataset paths).
Proof.
  induction input_names as [|i l IH]; intros acc st r st' Hrun; cbn [foldM] in Hrun.
  - run_unfold Hrun. run_end Hrun. now exists [].
  - unfold bind at 1 in Hrun.
    destruct (dict_get i group) as [path|]; run_unfold Hrun.
    2: { run_end Hrun. now exists []. }
    destruct (open_dataset path) as [e|ds].
    { run_end Hrun. now exists [path]. }
    destruct (IH _ _ _ _ Hrun) as (evs & Ht & paths & ->). cbn [trace] in Ht.
    eexists. rewrite Ht, <- app_assoc. split; [reflexivity|].
    now exists (path :: paths).
Qed.

Lemma opens_kinds paths :
  forallb is_intermediate_call (map Call_open_dataset paths) = true
  /\ count is_netcdf_write (map Call_open_dataset paths) = 0%nat
  /\ count is_variable_dataset (map Call_open_dataset paths) = 0%nat.
Proof.
  induction paths as [|p l (IH1 & IH2 & IH3)]; [now repeat split|].
  cbn [map forallb is_intermediate_call andb]. repeat split; assumption.
Qed.

(** The [while] loop writes one file for each dataset made. *)
Lemma compute_loop_does required workdir output_basename fuel :
  forall variables_to_compute group output_files_list,
    does (compute_loop set_order fuel required workdir output_basename
            variables_to_compute group output_files_list)
      computes_variables.
Proof.
  induction fuel as [|fuel IH]; intros vs group out st r st' Hrun;
    cbn [compute_loop] in Hrun.
  - destruct (bool_decide (vs = ∅)); run_unfold Hrun; run_end Hrun; now split.
  - destruct (bool_decide (vs = ∅)).
    { run_unfold Hrun; run_end Hrun; now split. }
    destruct (first_ready (set_order vs) group) as [e|[[variable input_names]|]].
    1, 3: run_unfold Hrun; run_end Hrun; now split.
    unfold bind at 1 in Hrun.
    destruct (open_inputs group input_names st) as [[e|inputs] st1] eqn:Hopen;
      destruct (open_inputs_does _ _ _ _ _ _ Hopen) as (evs1 & Ht1 & paths & ->);
      destruct (opens_kinds paths) as (Hk1 & Hn1 & Hd1).
    { injection Hrun as <- <-. eexists. split; [exact Ht1|]. now split. }
    unfold bind at 1 in Hrun.
    destruct (dict_get variable variable_functions) as [f|] eqn:Hf.
    2: { run_unfold Hrun. injection Hrun as <- <-. eexists. split; [exact Ht1|].
         now split. }
    unfold ret at 1 in Hrun. unfold bind at 1 in Hrun.
    destruct (f inputs st1) as [[e|output] st2] eqn:Hfun;
      destruct (variable_function_does _ _ _ Hf _ _ _ Hfun)
        as (evs2 & Ht2 & Hk2 & Hn2 & Hd2).
    { injection Hrun as <- <-. eexists. rewrite Ht2, Ht1, <- app_assoc.
      split; [reflexivity|]. split; [|exact I].
      now rewrite forallb_app, Hk1, Hk2. }
    unfold bind at 1 in Hrun. unfold call at 1 in Hrun. run_unfold Hrun.
    destruct (dataset_to_netcdf _ _) as [e|[]].
    { injection Hrun as <- <-. cbn [trace]. eexists.
      rewrite Ht2, Ht1, <- !app_assoc. split; [reflexivity|]. split; [|exact I].
      rewrite !forallb_app, Hk1, Hk2. reflexivity. }
    destruct (bool_decide (variable ∈ vs)).
    2: { injection Hrun as <- <-. cbn [trace]. eexists.
         rewrite Ht2, Ht1, <- !app_assoc. split; [reflexivity|]. split; [|exact I].
         rewrite !forallb_app, Hk1, Hk2. reflexivity. }
    destruct (IH _ _ _ _ _ _ Hrun) as (evs3 & Ht3 & Hk3 & Hb3). cbn [trace] in Ht3.
    eexists. rewrite Ht3, Ht2, Ht1, <- !app_assoc. split; [reflexivity|]. split.
    + rewrite !forallb_app, Hk1, Hk2, Hk3. reflexivity.
    + destruct r as [e|files]; [exact I|].
      rewrite !count_app, Hn1, Hd1, Hn2, Hd2, Hb3. reflexivity.
Qed.

Lemma intermediate_group_does required workdir output_files_list group :
  does (intermediate_group set_order required workdir output_files_list group)
    computes_variables.
Proof.
  intros st r st' Hrun. unfold intermediate_group in Hrun.
  destruct group as [|[first_variable first] group'].
  { run_unfold Hrun. run_end Hrun. now split. }
  destruct (after_underscore (name first)) as [output_basename|].
  2: { run_unfold Hrun. run_end Hrun. now split. }
  unfold bind at 1, lift at 1 in Hrun.
  destruct (add_inputs _ _) as [e|vs].
  { run_end Hrun. now split. }
  exact (compute_loop_does _ _ _ _ _ _ _ _ _ _ Hrun).
Qed.

Lemma intermediate_groups_does required workdir groups : forall output_files_list,
  does (foldM (intermediate_group set_order required workdir) groups
          output_files_list)
    computes_variables.
Proof.
  induction groups as [|group groups IH]; intros out st r st' Hrun;
    cbn [foldM] in Hrun.
  - run_unfold Hrun. run_end Hrun. now split.
  - unfold bind at 1 in Hrun.
    destruct (intermediate_group _ _ _ _ _ _) as [[e|out'] st1] eqn:Hgroup;
      destruct (intermediate_group_does _ _ _ _ _ _ _ Hgroup)
        as (evs1 & Ht1 & Hk1 & Hb1).
    { injection Hrun as <- <-. eexists. split; [exact Ht1|]. now split. }
    destruct (IH _ _ _ _ Hrun) as (evs2 & Ht2 & Hk2 & Hb2).
    eexists. rewrite Ht2, Ht1, <- app_assoc. split; [reflexivity|]. split.
    + now rewrite forallb_app, Hk1, Hk2.
    + destruct r as [e|files]; [exact I|]. now rewrite !count_app, Hb1, Hb2.
Qed.

(** [compute_intermediate_variables] opens files, makes percentiles and
    datasets and writes files, and calls nothing else; when it returns,
    it has written one file for each dataset it has made. *)
Lemma compute_intermediate_variables_does files_list required workdir :
  does (compute_intermediate_variables bccaq_variables set_order files_list
          required workdir)
    computes_variables.
Proof.
  intros st r st' Hrun. unfold compute_intermediate_variables in Hrun.
  unfold bind at 1, lift at 1 in Hrun.
  destruct (make_file_groups _ _ _) as [e|groups].
  { run_end Hrun. now split. }
  exact (intermediate_groups_does _ _ _ _ _ _ _ Hrun).
Qed.

(** A computation of variables calls neither the subsetting function nor
    anything of another kind [kind]. *)
Lemma computes_none {A} (kind : event -> bool) evs (r : result A) :
  (forall ev, is_intermediate_call ev = true -> kind ev = false) ->
  computes_variables evs r ->
  forallb (fun ev => negb (kind ev)) evs = true.
Proof.
  intros Hkind [Hall _]. rewrite forallb_forall in *.
  intros ev Hin. now rewrite (Hkind ev (Hall ev Hin)).
Qed.

End IntermediateFacts.

Section LoopFuel.

Context `{Externals}.
Variable set_order : gset string -> list string.

Lemma bind_ext {A B} (m : M A) (f g : A -> M B) st :
  (forall a st', f a st' = g a st') -> bind m f st = bind m g st.
Proof. intros Hfg. unfold bind. destruct (m st) as [[e|a] st']; auto. Qed.

(** The [while] loop never runs out of passes: with at least as many
    passes as there are variables to compute, it gives the same result
    whatever their number. *)
Lemma compute_loop_fuel required workdir output_basename fuel :
  forall fuel' variables_to_compute group output_files_list st,
    (size variables_to_compute <= fuel)%nat ->
    (size variables_to_compute <= fuel')%nat ->
    compute_loop set_order fuel required workdir output_basename
      variables_to_compute group output_files_list st
    = compute_loop set_order fuel' required workdir output_basename
        variables_to_compute group output_files_list st.
Proof.
  induction fuel as [|fuel IH]; intros fuel' vs group out st Hfuel Hfuel'.
  - assert (vs = ∅) as -> by (apply leibniz_equiv, size_empty_iff; lia).
    destruct fuel'; cbn [compute_loop]; now rewrite bool_decide_eq_true_2.
  - cbn [compute_loop]. destruct (bool_decide (vs = ∅)) eqn:Hempty.
    { destruct fuel'; cbn [compute_loop]; now rewrite Hempty. }
    apply bool_decide_eq_false in Hempty.
    assert (size vs <> 0%nat)
      by (intros Hsize%size_empty_iff; now apply Hempty, leibniz_equiv).
    destruct fuel' as [|fuel']; [lia|]. cbn [compute_loop].
    rewrite bool_decide_eq_false_2 by assumption.
    destruct (first_ready (set_order vs) group) as [e|[[variable input_names]|]];
      try reflexivity.
    apply bind_ext. intros inputs st1.
    apply bind_ext. intros function st2.
    apply bind_ext. intros output st3.
    apply bind_ext. intros _ st4.
    destruct (bool_decide (variable ∈ vs)) eqn:Hin; [|reflexivity].
    apply bool_decide_eq_true in Hin.
    assert (size (vs ∖ {[variable]}) = (size vs - 1)%nat).
    { rewrite size_difference by set_solver. now rewrite size_singleton. }
    apply IH; lia.
Qed.

End LoopFuel.

(* ===================================================================== *)
(** ** One scenario *)
(* ===================================================================== *)

Section ScenarioFacts.

Context `{Externals}.
Variable bccaq_variables : gset string.
Variable set_order : gset string -> list string.
Variable process : Process.
Variable plan : request_plan.

Lemma clean_cons ev evs : ~ empty_subset ev -> clean evs -> clean (ev :: evs).
Proof. intros. now constructor. Qed.

Lemma clean_nil : clean [].
Proof. constructor. Qed.

Ltac clean_events :=
  repeat first
    [ apply clean_nil
    | apply clean_cons;
      [ cbv [log_started log_fetching log_subset log_computing log_group
             log_finished empty_subset]; first [tauto | congruence]|]
    | apply clean_no_subset; first [assumption | reflexivity]
    | apply clean_no_subset, no_subset_call_groups
    | apply clean_app ].

Lemma scenario_does source_variable_names base_work_dir acc rcp :
  rp_variables plan = set_order source_variable_names ->
  does (scenario bccaq_variables set_order process (rp_inputs plan)
          (rp_not_datasets plan) (rp_input_names plan) source_variable_names
          (rp_percentiles plan) (rp_models plan) (rp_dataset_name plan)
          base_work_dir acc rcp)
    (fun evs r =>
       match r with
       | inr acc' =>
           scenario_pass bccaq_variables set_order process plan acc rcp acc' evs
       | inl e => scenario_fails plan rcp e evs
       end).
Proof.
  intros Hvars st r st' Hrun. unfold scenario in Hrun. rewrite <- Hvars in Hrun.
  run_unfold Hrun.
  set (dir := PyPath.str (PyPath.div base_work_dir rcp)) in *.
  destruct (mkdir dir) as [e|[]] eqn:Hmkdir.
  { injection Hrun as <- <-. cbn [trace]. eexists. split; [reflexivity|].
    right. clean_events. }
  destruct (make_output_filename process (rp_inputs plan) (Some rcp))
    as [e|output_filename] eqn:Hname.
  { injection Hrun as <- <-. cbn [trace]. eexists. rewrite <- !app_assoc.
    split; [reflexivity|]. right. cbn [app]. clean_events. }
  destruct (get_datasets _ _ _ _ _) as [e|netcdf_inputs] eqn:Hget.
  { injection Hrun as <- <-. cbn [trace]. eexists. rewrite <- !app_assoc.
    split; [reflexivity|]. right. cbn [app]. clean_events. }
  destruct (subset_function _ _ _) as [e|subsetted_files] eqn:Hsubset.
  { injection Hrun as <- <-. cbn [trace]. eexists. rewrite <- !app_assoc.
    split; [reflexivity|]. right. cbn [app]. clean_events. }
  destruct subsetted_files as [|file files].
  { injection Hrun as <- <-. cbn [trace]. eexists. rewrite <- !app_assoc.
    split; [reflexivity|]. left. split; [reflexivity|].
    exists dir, netcdf_inputs. split; [assumption | reflexivity]. }
  cbn [workdir status_percentage_steps trace] in Hrun.
  destruct (compute_intermediate_variables _ _ _ _ _ _) as [[e|intermediate] st0]
    eqn:Hinter;
    destruct (compute_intermediate_variables_does _ _ _ _ _ _ _ _ Hinter)
      as (evs0 & Ht0 & Hq0);
    pose proof (computes_none is_subset_call _ _
                  ltac:(now intros []) Hq0) as Hsub0;
    cbn [trace] in Ht0.
  { injection Hrun as <- <-. eexists. rewrite Ht0, <- !app_assoc.
    split; [reflexivity|]. right. cbn [app]. clean_events. }
  cbn [trace] in Hrun.
  destruct (make_indicator_inputs _ _ _ _ _) as [e|input_groups] eqn:Hgroups.
  { injection Hrun as <- <-. cbn [trace]. eexists. rewrite Ht0, <- !app_assoc.
    split; [reflexivity|]. right. cbn [app]. clean_events. }
  destruct (foldM _ _ _ _) as [[e|indices_files] st1] eqn:Hloop;
    destruct (groups_loop_does _ _ _ _ _ _ _ _ _ Hloop) as (evs1 & Ht1 & Hq1);
    cbn [trace] in Ht1.
  { injection Hrun as <- <-. eexists. rewrite Ht1, Ht0, <- !app_assoc.
    split; [reflexivity|]. right. cbn [app]. clean_events. }
  destruct Hq1 as (gs & Hidx & Hins & Hall & -> & ->).
  destruct (make_ensemble _ _ _) as [[e|ensemble] st2] eqn:Hens;
    destruct (make_ensemble_does _ _ _ _ _ Hens) as (evs2 & Ht2 & Hq2);
    injection Hrun as <- <-; eexists; rewrite Ht2, Ht1, Ht0, <- !app_assoc;
    (split; [reflexivity|]).
  { cbn [makes_ensemble] in Hq2. right. cbn [app]. clean_events. }
  destruct Hq2 as (er & Hfiles & <- & Hflows & ->).
  exists (mkScenarioRun rcp dir output_filename netcdf_inputs (file :: files)
            evs0 intermediate gs er), (workdir st1).
  unfold scenario_flows, scenario_events, scenario_ensemble.
  cbn [sr_rcp sr_workdir sr_output_filename sr_netcdf_inputs sr_subsetted_files
       sr_intermediate_events sr_intermediate_files sr_groups sr_ensemble fst].
  rewrite Hins. split; [reflexivity|]. split; [|split; reflexivity].
  split; [assumption|]. split; [assumption|]. split; [assumption|].
  split; [discriminate|]. split; [eexists _, _; split; [exact Hinter | exact Ht0]|].
  split; [assumption|]. split; [assumption|]. split; [assumption|].
  split; assumption.
Qed.

End ScenarioFacts.


(* ===================================================================== *)
(** ** The loop over the scenarios and the end of the handler *)
(* ===================================================================== *)

Section HandlerFacts.

Context `{Externals}.
Variable bccaq_variables : gset string.
Variable set_order : gset string -> list string.
Variable process : Process.

Lemma no_subset_call_ensemble percentiles e :
  no_subset_call (ensemble_events percentiles e).
Proof.
  unfold ensemble_events.
  repeat first [ apply no_subset_call_app
               | apply forallb_map_conversion; reflexivity
               | reflexivity ].
Qed.

(** The calls between the subsetting and the indices are those of a run
    of [compute_intermediate_variables] that returned. *)
Lemma flows_intermediate plan s :
  scenario_flows bccaq_variables set_order process plan s ->
  computes_variables (sr_intermediate_events s) (inr (sr_intermediate_files s)).
Proof.
  intros (_ & _ & _ & _ & (st & st' & Hrun & Ht) & _).
  destruct (compute_intermediate_variables_does _ _ _ _ _ _ _ _ Hrun)
    as (evs & Ht' & Hq).
  rewrite Ht in Ht'. apply app_inv_head in Ht'. now subst evs.
Qed.

(** A complete scenario has called the subsetting function once, and
    got files. *)
Lemma clean_scenario plan s :
  scenario_flows bccaq_variables set_order process plan s ->
  clean (scenario_events plan s).
Proof.
  intros Hflows. pose proof (flows_intermediate _ _ Hflows) as Hinter.
  destruct Hflows as (_ & _ & Hsub & Hne & _). unfold scenario_events.
  apply clean_app.
  { repeat (apply clean_cons;
            [cbv [log_fetching log_subset log_computing empty_subset]; try tauto|]).
    - rewrite Hsub. intros [= Hnil]. now apply Hne.
    - apply clean_nil. }
  apply clean_app.
  { apply clean_no_subset.
    exact (computes_none is_subset_call _ _ ltac:(now intros []) Hinter). }
  apply clean_app; [apply clean_no_subset; reflexivity|].
  apply clean_no_subset, no_subset_call_app;
    [apply no_subset_call_groups | apply no_subset_call_ensemble].
Qed.

Lemma clean_scenarios plan runs :
  Forall (scenario_flows bccaq_variables set_order process plan) runs ->
  clean (flat_map (scenario_events plan) runs).
Proof.
  induction 1 as [|s runs Hs _ IH]; [apply clean_nil|]. cbn [flat_map].
  apply clean_app; [now apply clean_scenario | assumption].
Qed.

(** The loop over the scenarios when it ends: one run for each scenario,
    in the order of the request. *)
Lemma scenario_passes plan rcps : forall acc acc' evs,
  passes (scenario_pass bccaq_variables set_order process plan) acc rcps acc' evs ->
  exists runs,
    map sr_rcp runs = rcps
    /\ Forall (scenario_flows bccaq_variables set_order process plan) runs
    /\ fst acc' = fst acc ++ map scenario_ensemble runs
    /\ (runs = [] -> acc' = acc)
    /\ (forall s, List.last (map Some runs) None = Some s ->
        exists dir,
          snd acc' = Some (sr_output_filename s,
                           PyPath.div dir (sr_output_filename s +:+ "_ensemble")))
    /\ evs = flat_map (scenario_events plan) runs.
Proof.
  induction rcps as [|rcp rcps IH]; intros acc acc' evs Hp; inversion Hp; subst.
  - exists []. cbn. rewrite app_nil_r. repeat split; auto. discriminate.
  - match goal with
    | H1 : scenario_pass _ _ _ _ _ _ _ _, H2 : passes _ _ _ _ _ |- _ =>
        destruct H1 as (s & dir & Hrcp & Hflows & -> & ->);
        destruct (IH _ _ _ H2) as (runs & Hrcps & Hall & Hens & Hnil & Hlast & ->)
    end.
    exists (s :: runs). cbn [map flat_map fst] in *.
    rewrite Hrcp, Hrcps, Hens, <- app_assoc.
    split; [reflexivity|]. split; [now constructor|]. split; [reflexivity|].
    split; [discriminate|]. split; [|reflexivity].
    intros s0 Hs0. destruct runs as [|s' runs].
    + cbn in Hs0. injection Hs0 as <-. rewrite (Hnil eq_refl). cbn. eauto.
    + apply Hlast. exact Hs0.
Qed.

(** The loop over the scenarios when it is left by an exception. *)
Lemma scenario_broken plan rcps : forall acc e evs,
  broken (scenario_pass bccaq_variables set_order process plan)
    (fun _ rcp e evs => scenario_fails plan rcp e evs) acc rcps e evs ->
  (e = ProcessError no_data_message
   /\ exists runs rcp dir netcdf_inputs,
        Forall (scenario_flows bccaq_variables set_order process plan) runs
        /\ subset_function dir netcdf_inputs (rp_inputs plan) = inr []
        /\ evs = flat_map (scenario_events plan) runs
                 ++ subset_reached plan rcp dir netcdf_inputs)
  \/ clean evs.
Proof.
  induction rcps as [|rcp rcps IH]; intros acc e evs Hb; inversion Hb; subst.
  - match goal with H : scenario_fails _ _ _ _ |- _ =>
      destruct H as [(-> & dir & ni & Hsub & ->)|Hclean] end; [left|now right].
    split; [reflexivity|]. exists [], rcp, dir, ni. auto.
  - match goal with
    | H1 : scenario_pass _ _ _ _ _ _ _ _, H2 : broken _ _ _ _ _ _ |- _ =>
        destruct H1 as (s & dir0 & Hrcp & Hflows & -> & ->);
        destruct (IH _ _ _ H2)
          as [(-> & runs & rcp' & dir & ni & Hall & Hsub & ->)|Hclean]
    end.
    + left. split; [reflexivity|]. exists (s :: runs), rcp', dir, ni.
      cbn [flat_map]. rewrite <- app_assoc. auto.
    + right. apply clean_app; [now apply (clean_scenario plan) | assumption].
Qed.

Lemma write_netcdf_does ensemble output_basename :
  does (write_netcdf ensemble output_basename)
    (fun evs r =>
       match r with
       | inr ensemble_output =>
           PyPath.with_suffix output_basename ".nc" = inr ensemble_output
           /\ evs = [Call_dataset_to_netcdf ensemble ensemble_output]
       | inl _ => no_subset_call evs
       end).
Proof.
  intros st r st' Hrun. unfold write_netcdf in Hrun. run_unfold Hrun.
  repeat run_step; injection Hrun as <- <-; cbn [trace];
    first [ exists []; rewrite app_nil_r; split; [reflexivity|]
          | eexists; split; [reflexivity|] ]; auto.
Qed.

Lemma write_csv_does ensemble output_filename output_basename :
  does (write_csv ensemble output_filename output_basename)
    (fun evs r =>
       match r with
       | inr ensemble_output =>
           exists df metadata ensemble_csv,
             PyPath.with_suffix output_basename ".csv" = inr ensemble_csv
             /\ name ensemble_output = output_filename +:+ ".zip"
             /\ evs = csv_events ensemble df metadata ensemble_csv
                        (PyPath.sibling output_basename
                           (PyPath.stem ensemble_csv +:+ "_metadata.txt"))
                        ensemble_output
       | inl _ => no_subset_call evs
       end).
Proof.
  intros st r st' Hrun. unfold write_csv in Hrun. run_unfold Hrun.
  repeat run_step; injection Hrun as <- <-; cbn [trace];
    first [ exists []; rewrite app_nil_r; split; [reflexivity|]
          | eexists; rewrite <- ?app_assoc; split; [reflexivity|] ];
    try reflexivity.
  all: do 3 eexists; split; [reflexivity|]; split; reflexivity.
Qed.

Lemma last_of_some {A} (l : list A) :
  l <> [] -> exists x, List.last (map Some l) None = Some x.
Proof.
  induction l as [|x l IH]; [congruence|]. intros _.
  destruct l as [|y l]; [now exists x|]. apply IH. discriminate.
Qed.

Ltac quiet_step H lemma :=
  let Hq := fresh "Hq" in
  destruct (lemma _ _ _ H) as [-> Hq].

Lemma handler_does inputs :
  does (ensemble_common_handler bccaq_variables set_order process inputs)
    (handles bccaq_variables set_order process inputs).
Proof.
  intros st r st' Hrun. unfold ensemble_common_handler in Hrun.
  run_unfold Hrun.
  set (names := accepted_variables bccaq_variables
                ∩ list_to_set (xci_inputs_identifiers process)) in *.
  destruct (get_sub_inputs (set_order names)) as [sub_inputs|] eqn:Hsub.
  2: { injection Hrun as <- <-. exists []. rewrite app_nil_r.
       split; [reflexivity|]. right. constructor. }
  destruct (first_data inputs "output_format" st) as [[e|output_format] st0] eqn:Hfmt;
    destruct (first_data_quiet _ _ _ _ _ Hfmt) as [-> Hformat].
  { injection Hrun as <- <-. exists []. rewrite app_nil_r.
    split; [reflexivity|]. right. constructor. }
  specialize (Hformat _ eq_refl).
  set (csv := String.eqb output_format "csv") in *.
  match type of Hrun with
  | context [?t st] =>
      match t with
      | (if csv then _ else _) => destruct (t st) as [[e|[]] st1] eqn:Hdel
      end
  end.
  all: assert (Ht1 : trace st1 = trace st)
    by (destruct csv;
        [ congruence
        | destruct (does_del_step _ _ _ _ Hdel) as (? & Ht & ->);
          rewrite Ht; apply app_nil_r ]).
  { injection Hrun as <- <-. exists []. rewrite app_nil_r.
    split; [assumption|]. right. constructor. }
  destruct (first_data inputs "ensemble_percentiles" st1)
    as [[e|percentiles_string] st2] eqn:Hps;
    destruct (first_data_quiet _ _ _ _ _ Hps) as [-> Hpstring].
  { injection Hrun as <- <-. exists []. rewrite app_nil_r.
    split; [assumption|]. right. constructor. }
  specialize (Hpstring _ eq_refl).
  destruct (parse_percentiles percentiles_string st1)
    as [[e|percentiles] st2] eqn:Hpp;
    destruct (parse_percentiles_quiet _ _ _ _ Hpp) as [-> Hpercentiles].
  { injection Hrun as <- <-. exists []. rewrite app_nil_r.
    split; [assumption|]. right. constructor. }
  specialize (Hpercentiles _ eq_refl).
  destruct (stripped_data inputs "rcp" st1) as [[e|rcps] st2] eqn:Hrcp;
    destruct (stripped_data_quiet _ _ _ _ _ Hrcp) as [-> Hrcps].
  { injection Hrun as <- <-. exists []. rewrite app_nil_r.
    split; [assumption|]. right. constructor. }
  specialize (Hrcps _ eq_refl).
  cbn [workdir status_percentage_steps trace] in Hrun.
  match type of Hrun with
  | context [stripped_data inputs "models" ?s] =>
      destruct (stripped_data inputs "models" s) as [[e|models] st2] eqn:Hmod;
      destruct (stripped_data_quiet _ _ _ _ _ Hmod) as [-> Hmodels]
  end.
  { injection Hrun as <- <-. cbn [trace]. exists [log_started (length rcps)].
    rewrite Ht1. split; [reflexivity|]. right.
    apply clean_no_subset. reflexivity. }
  specialize (Hmodels _ eq_refl).
  cbn [workdir status_percentage_steps trace] in Hrun.
  set (source := bccaq_variables ∩ list_to_set sub_inputs) in *.
  set (dataset_name := match single_input_or_none inputs "dataset" with
                       | Some (DStr d) => Some d
                       | _ => None
                       end) in *.
  set (not_datasets :=
         List.filter (fun kv => PyStr.in_list (fst kv)
                                  (xci_inputs_identifiers process)) inputs) in *.
  pose (plan := mkPlan inputs not_datasets names (set_order source) percentiles
                  rcps models dataset_name csv).
  assert (Hplan : plan_of bccaq_variables set_order process inputs plan).
  { unfold plan_of, plan. cbn. repeat split; eauto. }
  pose proof (does_foldM _ _ _
                (fun acc rcp => scenario_does bccaq_variables set_order process
                                  plan source (workdir st1) acc rcp eq_refl)
                rcps ([], None)) as Hloop.
  cbn [rp_inputs rp_not_datasets rp_input_names rp_percentiles rp_models
       rp_dataset_name plan] in Hloop.
  match type of Hrun with
  | context [foldM ?body rcps ?acc ?s] =>
      destruct (foldM body rcps acc s) as [[e|[ensembles last]] st2] eqn:Hscen;
      destruct (Hloop _ _ _ Hscen) as (evs1 & Ht2 & Hq2); cbn [trace] in Ht2
  end.
  { injection Hrun as <- <-. eexists. rewrite Ht2, Ht1, <- app_assoc.
    split; [reflexivity|].
    destruct (scenario_broken _ _ _ _ _ Hq2)
      as [(-> & runs & rcp & dir & ni & Hall & Hempty & ->)|Hclean].
    - left. split; [reflexivity|]. exists plan, runs, rcp, dir, ni. auto.
    - right. apply clean_app; [apply clean_no_subset; reflexivity | assumption]. }
  destruct (scenario_passes _ _ _ _ _ Hq2)
    as (runs & Hruns & Hall & Hens & Hnil & Hlast & ->).
  cbn [fst snd app] in Hens, Hlast. subst ensembles.
  assert (Hclean1 : clean ([log_started (length rcps)]
                           ++ flat_map (scenario_events plan) runs)).
  { apply clean_app; [apply clean_no_subset; reflexivity
                     | now apply clean_scenarios]. }
  cbn [workdir status_percentage_steps trace] in Hrun.
  assert (Hcsv : rp_csv plan = csv) by reflexivity.
  assert (Hplan_rcps : rp_rcps plan = rcps) by reflexivity.
  clearbody plan. clearbody csv. clear Hloop Hq2 Hscen.
  assert (Hjoin : exists r1 evc,
             (forall ensemble, r1 = inr ensemble ->
                joined (map sr_rcp runs) (map scenario_ensemble runs) ensemble
                /\ evc = concat_events (map sr_rcp runs) (map scenario_ensemble runs))
             /\ (forall e, r1 = inl e -> no_subset_call evc)
             /\ forall st3 : state,
                  (if (1 <? length rcps)%nat
                   then call (Call_concat (map scenario_ensemble runs) "rcp" rcps)
                          (concat (map scenario_ensemble runs) "rcp" rcps)
                   else match map scenario_ensemble runs with
                        | e :: _ => ret e
                        | [] => raise IndexError
                        end) st3
                  = (r1, mkState (workdir st3) (status_percentage_steps st3)
                           (trace st3 ++ evc))).
  { unfold joined, concat_events. rewrite Hruns.
    destruct (1 <? length rcps)%nat.
    - exists (concat (map scenario_ensemble runs) "rcp" rcps),
        [Call_concat (map scenario_ensemble runs) "rcp" rcps].
      split; [auto|]. split; [reflexivity|]. reflexivity.
    - destruct (map scenario_ensemble runs) as [|e l].
      + exists (inl IndexError), []. split; [discriminate|].
        split; [reflexivity|]. intros []. cbn. now rewrite app_nil_r.
      + exists (inr e), []. split; [intros ? [= <-]; auto|].
        split; [discriminate|]. intros []. cbn. now rewrite app_nil_r. }
  destruct Hjoin as (r1 & evc & Hjoined & Hjoin_fail & Hjoin_run).
  run_unfold Hjoin_run. rewrite Hjoin_run in Hrun.
  cbn [workdir status_percentage_steps trace] in Hrun.
  destruct r1 as [e|ensemble].
  { injection Hrun as <- <-. cbn [trace]. eexists.
    rewrite Ht2, Ht1, <- !app_assoc. split; [reflexivity|]. right.
    rewrite app_assoc. apply clean_app; [assumption|].
    apply clean_no_subset. eauto. }
  destruct (Hjoined _ eq_refl) as [Hjoin ->]. clear Hjoined Hjoin_fail Hjoin_run.
  destruct last as [[output_filename output_basename]|].
  2: { injection Hrun as <- <-. cbn [trace]. eexists.
       rewrite Ht2, Ht1, <- !app_assoc. split; [reflexivity|]. right.
       rewrite app_assoc. apply clean_app; [assumption|].
       apply clean_no_subset. unfold concat_events.
       now destruct (1 <? _)%nat. }
  assert (Hne : runs <> []) by (intros ->; specialize (Hnil eq_refl); discriminate).
  destruct (last_of_some _ Hne) as [final Hfinal].
  destruct (Hlast _ Hfinal) as [dir [= -> ->]].
  assert (Hnc : no_subset_call
                  (concat_events (map sr_rcp runs) (map scenario_ensemble runs)))
    by (unfold concat_events; now destruct (1 <? _)%nat).
  assert (Hwritten : exists r3 written,
             (forall ensemble_output, r3 = inr ensemble_output ->
                output_written csv (sr_output_filename final) ensemble
                  ensemble_output written)
             /\ no_subset_call written
             /\ exists st3,
                  (if csv
                   then write_csv ensemble (sr_output_filename final)
                          (PyPath.div dir (sr_output_filename final +:+ "_ensemble"))
                   else write_netcdf ensemble
                          (PyPath.div dir (sr_output_filename final +:+ "_ensemble")))
                    (mkState (workdir st1) (status_percentage_steps st2)
                       (trace st2 ++ concat_events (map sr_rcp runs)
                                       (map scenario_ensemble runs)))
                  = (r3, st3)
                  /\ trace st3 = (trace st2
                                  ++ concat_events (map sr_rcp runs)
                                       (map scenario_ensemble runs)) ++ written).
  { match goal with
    | |- exists r3 written, _ /\ _ /\ exists st3, ?m ?s = _ /\ _ =>
        destruct (m s) as [r3 st3] eqn:Hwrite
    end.
    destruct csv.
    - destruct (write_csv_does _ _ _ _ _ _ Hwrite) as (written & Ht3 & Hq3).
      exists r3, written. split; [|split; [|eauto]].
      + intros out ->. destruct Hq3 as (df & metadata & csv_path & Hq3).
        exists (PyPath.div dir (sr_output_filename final +:+ "_ensemble")).
        split; [reflexivity|]. eauto.
      + destruct r3 as [e|out]; [assumption|].
        now destruct Hq3 as (df & metadata & csv_path & _ & _ & ->).
    - destruct (write_netcdf_does _ _ _ _ _ Hwrite) as (written & Ht3 & Hq3).
      exists r3, written. split; [|split; [|eauto]].
      + intros out ->.
        exists (PyPath.div dir (sr_output_filename final +:+ "_ensemble")).
        split; [reflexivity|]. assumption.
      + destruct r3 as [e|out]; [assumption|]. now destruct Hq3 as [_ ->]. }
  destruct Hwritten as (r3 & written & Hout & Hnw & st3 & Hwrite & Ht3).
  rewrite Hwrite in Hrun.
  destruct r3 as [e|ensemble_output].
  { injection Hrun as <- <-. eexists.
    rewrite Ht3, Ht2, Ht1, <- !app_assoc. split; [reflexivity|]. right.
    rewrite app_assoc. apply clean_app; [assumption|].
    apply clean_no_subset, no_subset_call_app; assumption. }
  injection Hrun as <- <-. cbn [trace]. eexists.
  rewrite Ht3, Ht2, Ht1, <- !app_assoc. split; [reflexivity|].
  exists plan, runs, final, ensemble, written.
  rewrite Hplan_rcps, Hcsv. rewrite Hruns in *.
  split; [assumption|]. repeat split; auto.
Qed.


End HandlerFacts.


(* ===================================================================== *)
(** ** The handler: order of the steps, and the run without data *)
(* ===================================================================== *)

Section HandlerClaims.

Context `{Externals}.
Variable bccaq_variables : gset string.
Variable set_order : gset string -> list string.
Variable process : Process.

Lemma forallb_conversions (kind : event -> bool) (mk : string -> event) vs :
  (forall v, kind (mk v) = false) ->
  forallb (fun ev => negb (kind ev)) (map mk vs) = true.
Proof.
  intros Hmk. apply forallb_forall.
  intros ev (v & <- & _)%in_map_iff. now rewrite Hmk.
Qed.

Lemma forallb_flat_map {A} (p : event -> bool) (f : A -> list event) l :
  (forall x, forallb p (f x) = true) -> forallb p (flat_map f l) = true.
Proof.
  intros Hf. induction l as [|x l IH]; [reflexivity|]. cbn [flat_map].
  now rewrite forallb_app, Hf, IH.
Qed.

(** The calls of [make_ensemble] are of no other kind. *)
Lemma ensemble_events_kind (kind : event -> bool) percentiles e :
  kind (Call_create_ensemble (er_files e)) = false ->
  (forall v, kind (Call_doy_to_days_since v) = false) ->
  kind (Call_ensemble_percentiles (er_input e) percentiles) = false ->
  (forall v, kind (Call_days_since_to_doy v) = false) ->
  kind Call_load = false ->
  forallb (fun ev => negb (kind ev)) (ensemble_events percentiles e) = true.
Proof.
  intros H1 H2 H3 H4 H5. unfold ensemble_events.
  rewrite !forallb_app, !forallb_conversions by assumption. cbn.
  now rewrite H1, H3, H5.
Qed.

(** The calls of the groups: one file is written for each computation
    of indices, and no variable is made into a dataset. *)
Lemma groups_balance rcp n_groups gs :
  count is_netcdf_write (flat_map (group_events rcp n_groups) gs)
  = count is_index_computation (flat_map (group_events rcp n_groups) gs)
  /\ count is_variable_dataset (flat_map (group_events rcp n_groups) gs) = 0%nat.
Proof.
  induction gs as [|g gs [IH1 IH2]]; [now split|]. cbn [flat_map].
  rewrite !count_app, IH1, IH2. now split.
Qed.

(** In a complete scenario every NetCDF file written holds the indices
    of one group or a computed variable, and nothing of the output is
    written. *)
Lemma scenario_events_balance plan s :
  scenario_flows bccaq_variables set_order process plan s ->
  count is_netcdf_write (scenario_events plan s)
  = (count is_index_computation (scenario_events plan s)
     + count is_variable_dataset (scenario_events plan s))%nat
  /\ forallb (fun ev => negb (is_output_call ev)) (scenario_events plan s) = true.
Proof.
  intros Hflows. pose proof (flows_intermediate _ _ _ _ _ Hflows) as Hinter.
  pose proof (computes_none is_index_computation _ _ ltac:(now intros []) Hinter)
    as Hindex%count_none.
  pose proof (computes_none is_output_call _ _ ltac:(now intros []) Hinter)
    as Houtput.
  destruct Hinter as [_ Hwritten].
  destruct (groups_balance (sr_rcp s) (length (sr_groups s)) (sr_groups s))
    as [Hgroups Hnone].
  unfold scenario_events. split.
  - rewrite !count_app.
    rewrite (count_none is_netcdf_write (ensemble_events _ _))
      by (apply ensemble_events_kind; reflexivity).
    rewrite (count_none is_index_computation (ensemble_events _ _))
      by (apply ensemble_events_kind; reflexivity).
    rewrite (count_none is_variable_dataset (ensemble_events _ _))
      by (apply ensemble_events_kind; reflexivity).
    rewrite Hwritten, Hindex, Hgroups, Hnone. cbn. lia.
  - rewrite !forallb_app. rewrite Houtput. rewrite forallb_flat_map by reflexivity.
    rewrite ensemble_events_kind by reflexivity. reflexivity.
Qed.

Lemma scenarios_balance plan runs :
  Forall (scenario_flows bccaq_variables set_order process plan) runs ->
  count is_netcdf_write (flat_map (scenario_events plan) runs)
  = (count is_index_computation (flat_map (scenario_events plan) runs)
     + count is_variable_dataset (flat_map (scenario_events plan) runs))%nat
  /\ forallb (fun ev => negb (is_output_call ev))
       (flat_map (scenario_events plan) runs) = true.
Proof.
  induction 1 as [|s runs Hs _ [IH1 IH2]]; [now split|]. cbn [flat_map].
  destruct (scenario_events_balance _ _ Hs) as [Hs1 Hs2].
  rewrite !count_app, forallb_app, IH1, IH2, Hs1, Hs2. split; [lia | reflexivity].
Qed.

(** A run that returns has never got an empty list from the subsetting
    function. *)
Lemma completed_clean inputs evs response :
  completed bccaq_variables set_order process inputs evs response -> clean evs.
Proof.
  intros (plan & runs & last & ensemble & written & _ & _ & Hall & _ & _
          & (basename & _ & Hwritten) & ->).
  apply clean_app; [apply clean_no_subset; reflexivity|].
  apply clean_app; [now apply (clean_scenarios bccaq_variables set_order process)|].
  apply clean_no_subset. rewrite !forallb_app.
  assert (Hc : no_subset_call (concat_events (rp_rcps plan)
                                 (map scenario_ensemble runs)))
    by (unfold concat_events; now destruct (1 <? _)%nat).
  rewrite Hc. destruct (rp_csv plan).
  - destruct Hwritten as (df & metadata & csv & _ & _ & ->). reflexivity.
  - destruct Hwritten as [_ ->]. reflexivity.
Qed.

(** A run of the handler that returns a response is a completed run. *)
Lemma handler_completed inputs st response st' :
  ensemble_common_handler bccaq_variables set_order process inputs st
  = (inr response, st') ->
  exists evs,
    trace st' = trace st ++ evs
    /\ completed bccaq_variables set_order process inputs evs response.
Proof. intros Hrun. exact (handler_does _ _ _ _ _ _ _ Hrun). Qed.

(** C1.  In every run of the handler that returns a response, the
    scenarios are worked on one after the other in the order of the
    request, and within each scenario the calls come in one fixed order
    ([scenario_events]): the dataset files are fetched ([get_datasets]),
    then subsetted ([subset_function]), then the intermediate variables
    are computed (the calls of a run of [compute_intermediate_variables]
    on the subsetted files, which opens files, makes percentiles and
    datasets and writes one file for each computed variable, and calls
    nothing else), then the indices are computed once for each group of
    input files ([compute_indices], each followed by the writing of its
    file), then the ensemble and its percentiles are made
    ([make_ensemble]); the output is written only after the last
    scenario.  Each step takes what an earlier step returned
    ([scenario_flows]): no step uses what a later step produces. *)
Theorem pipeline_order inputs st response st' :
  ensemble_common_handler bccaq_variables set_order process inputs st
  = (inr response, st') ->
  exists plan runs last ensemble written,
    plan_of bccaq_variables set_order process inputs plan
    /\ map sr_rcp runs = rp_rcps plan
    /\ Forall (scenario_flows bccaq_variables set_order process plan) runs
    /\ Forall (fun s => computes_variables (sr_intermediate_events s)
                          (inr (sr_intermediate_files s))) runs
    /\ List.last (map Some runs) None = Some last
    /\ joined (rp_rcps plan) (map scenario_ensemble runs) ensemble
    /\ output_written (rp_csv plan) (sr_output_filename last) ensemble
         (output response) written
    /\ trace st' = trace st
                   ++ [log_started (length (rp_rcps plan))]
                   ++ flat_map (scenario_events plan) runs
                   ++ concat_events (rp_rcps plan) (map scenario_ensemble runs)
                   ++ written
                   ++ [log_finished].
Proof.
  intros Hrun.
  destruct (handler_completed _ _ _ _ Hrun)
    as (evs & Ht & plan & runs & last & ensemble & written & Hc).
  exists plan, runs, last, ensemble, written.
  destruct Hc as (? & ? & Hall & ? & ? & ? & ->).
  assert (Hinter : Forall (fun s => computes_variables (sr_intermediate_events s)
                                      (inr (sr_intermediate_files s))) runs).
  { eapply List.Forall_impl; [|exact Hall].
    intros s. apply (flows_intermediate bccaq_variables set_order process plan). }
  auto 10.
Qed.

(** C8.  If in a run of the handler the subsetting function returns no
    file for a scenario, the handler raises [ProcessError] with the
    message ["No data was produced when subsetting using the provided
    bounds."]; the call of the subsetting function is the last call of
    the run, so for that scenario no intermediate variable and no index
    is computed; and no output is written: the run consists of the
    scenarios completed before and of the calls of the last scenario up
    to its subsetting ([stopped_without_data]), it has made no call that
    joins the scenarios or writes the CSV output, and it has written as
    many NetCDF files as it has computed indices of a group of files and
    made computed variables into datasets, so each file holds one of
    these and none holds the ensemble. *)
Theorem no_data_raises inputs st r st' evs :
  ensemble_common_handler bccaq_variables set_order process inputs st = (r, st') ->
  trace st' = trace st ++ evs ->
  Exists empty_subset evs ->
  r = inl (ProcessError no_data_message)
  /\ (exists before dir netcdf_inputs,
        evs = before ++ [Call_subset_function dir netcdf_inputs inputs]
        /\ subset_function dir netcdf_inputs inputs = inr [])
  /\ forallb (fun ev => negb (is_output_call ev)) evs = true
  /\ count is_netcdf_write evs
     = (count is_index_computation evs + count is_variable_dataset evs)%nat
  /\ stopped_without_data bccaq_variables set_order process inputs evs.
Proof.
  intros Hrun Ht Hempty.
  destruct (handler_does _ _ _ _ _ _ _ Hrun) as (evs' & Ht' & Hq).
  assert (evs' = evs) as -> by (rewrite Ht in Ht'; now apply app_inv_head in Ht').
  assert (Hnot : ~ clean evs).
  { unfold clean. rewrite Exists_exists in Hempty. rewrite Forall_forall.
    destruct Hempty as (ev & Hin & Hev). intros Hall. exact (Hall ev Hin Hev). }
  destruct r as [e|response].
  2: { exfalso. apply Hnot. eapply completed_clean. exact Hq. }
  destruct Hq as [[-> Hstop]|Hclean]; [|contradiction].
  split; [reflexivity|].
  pose proof Hstop as (plan & runs & rcp & dir & ni & Hplan & Hall & Hsub & ->).
  pose proof Hplan as (Hinputs & _). rewrite Hinputs in Hsub.
  split; [|split; [|split; [|exact Hstop]]].
  - exists ([log_started (length (rp_rcps plan))]
            ++ flat_map (scenario_events plan) runs
            ++ [Call_mkdir dir; log_fetching rcp;
                Call_get_datasets (rp_dataset_name plan) dir (rp_variables plan)
                  rcp (rp_models plan);
                log_subset rcp]), dir, ni.
    split; [|assumption]. unfold subset_reached. rewrite Hinputs.
    rewrite <- !app_assoc. reflexivity.
  - rewrite !forallb_app. rewrite (proj2 (scenarios_balance plan runs Hall)).
    reflexivity.
  - rewrite !count_app. rewrite (proj1 (scenarios_balance plan runs Hall)).
    cbn. lia.
Qed.

End HandlerClaims.

(* ===================================================================== *)
(** ** The handler: percentiles and scenarios *)
(* ===================================================================== *)

Section PercentileClaims.

Context `{Externals}.
Variable bccaq_variables : gset string.
Variable set_order : gset string -> list string.
Variable process : Process.

Lemma count_flat_map_one {A} kind (f : A -> list event) l :
  (forall x, count kind (f x) = 1%nat) -> count kind (flat_map f l) = length l.
Proof.
  intros Hf. induction l as [|x l IH]; [reflexivity|]. cbn [flat_map length].
  now rewrite count_app, Hf, IH.
Qed.

(** A scenario computes the percentiles once, with the percentiles of
    the plan. *)
Lemma scenario_percentiles plan s :
  scenario_flows bccaq_variables set_order process plan s ->
  count is_percentiles_call (scenario_events plan s) = 1%nat
  /\ forallb (fun ev => negb (other_percentiles (rp_percentiles plan) ev))
       (scenario_events plan s) = true.
Proof.
  intros Hflows. pose proof (flows_intermediate _ _ _ _ _ Hflows) as Hinter.
  pose proof (computes_none is_percentiles_call _ _ ltac:(now intros []) Hinter)
    as Hnone%count_none.
  pose proof (computes_none (other_percentiles (rp_percentiles plan)) _ _
                ltac:(now intros []) Hinter) as Hother.
  unfold scenario_events. split.
  - rewrite !count_app, Hnone.
    rewrite (count_none is_percentiles_call (flat_map _ _))
      by (apply forallb_flat_map; reflexivity).
    unfold ensemble_events. rewrite !count_app.
    rewrite !(count_none is_percentiles_call (map _ _))
      by (apply forallb_conversions; reflexivity).
    reflexivity.
  - rewrite !forallb_app, Hother. rewrite forallb_flat_map by reflexivity.
    rewrite ensemble_events_kind; try reflexivity.
    cbn [other_percentiles]. now rewrite bool_decide_eq_true_2.
Qed.

Lemma scenarios_percentiles plan runs :
  Forall (scenario_flows bccaq_variables set_order process plan) runs ->
  count is_percentiles_call (flat_map (scenario_events plan) runs) = length runs
  /\ forallb (fun ev => negb (other_percentiles (rp_percentiles plan) ev))
       (flat_map (scenario_events plan) runs) = true.
Proof.
  induction 1 as [|s runs Hs _ [IH1 IH2]]; [now split|]. cbn [flat_map length].
  destruct (scenario_percentiles _ _ Hs) as [Hs1 Hs2].
  now rewrite count_app, forallb_app, IH1, IH2, Hs1, Hs2.
Qed.

Lemma strip_allowed raw :
  Forall (fun r => In r rcp_allowed_values) raw -> map PyStr.strip raw = raw.
Proof.
  induction 1 as [|r raw Hr _ IH]; [reflexivity|]. cbn [map]. rewrite IH.
  f_equal. destruct Hr as [<-|[<-|[<-|[]]]]; reflexivity.
Qed.

(** C4.  In every run of the handler that returns, the percentiles
    computed of each ensemble are exactly the integers read from the
    comma-separated [ensemble_percentiles] input, each item stripped and
    converted with [int], in the order of the input: every call of the
    percentiles has these values, and there is one call for each
    scenario.  When more than one scenario is requested, the ensembles of
    the scenarios, in the order of the request, are joined along the
    dimension ["rcp"], whose values are the requested rcp strings in the
    order of the request (stripped, which leaves the allowed values as
    they are). *)
Theorem percentiles_and_scenarios inputs st response st' :
  ensemble_common_handler bccaq_variables set_order process inputs st
  = (inr response, st') ->
  exists percentiles_string percentiles raw plan runs evs,
    literal_of inputs "ensemble_percentiles" = Some percentiles_string
    /\ Forall2 (fun item n => PyStr.int (PyStr.strip item) = Some n)
         (PyStr.split "," percentiles_string) percentiles
    /\ literals_of inputs "rcp" = Some raw
    /\ trace st' = trace st ++ evs
    /\ (forall ensemble values,
          In (Call_ensemble_percentiles ensemble values) evs -> values = percentiles)
    /\ count is_percentiles_call evs = length raw
    /\ map sr_rcp runs = map PyStr.strip raw
    /\ Forall (scenario_flows bccaq_variables set_order process plan) runs
    /\ ((1 < length raw)%nat ->
        In (Call_concat (map scenario_ensemble runs) "rcp" (map PyStr.strip raw)) evs)
    /\ (Forall (fun r => In r rcp_allowed_values) raw -> map PyStr.strip raw = raw).
Proof.
  intros Hrun.
  destruct (handler_completed _ _ _ _ _ _ _ Hrun)
    as (evs & Ht & plan & runs & last & ensemble & written & Hplan & Hrcps
        & Hall & _ & _ & (basename & _ & Hwritten) & ->).
  destruct Hplan as (_ & _ & _ & _ & _ & (ps & Hps & Hpercentiles)
                     & (raw & Hraw & Hrcps_raw) & _).
  exists ps, (rp_percentiles plan), raw, plan, runs. eexists.
  split; [exact Hps|]. split; [exact Hpercentiles|]. split; [exact Hraw|].
  split; [exact Ht|].
  assert (Hw : forallb (fun ev => negb (other_percentiles (rp_percentiles plan) ev))
                 written = true
               /\ count is_percentiles_call written = 0%nat).
  { destruct (rp_csv plan).
    - destruct Hwritten as (df & metadata & csv & _ & _ & ->). split; reflexivity.
    - destruct Hwritten as [_ ->]. split; reflexivity. }
  assert (Hc : forallb (fun ev => negb (other_percentiles (rp_percentiles plan) ev))
                 (concat_events (rp_rcps plan) (map scenario_ensemble runs)) = true
               /\ count is_percentiles_call
                    (concat_events (rp_rcps plan) (map scenario_ensemble runs))
                  = 0%nat).
  { unfold concat_events. destruct (1 <? _)%nat; split; reflexivity. }
  split; [|split; [|split; [|split; [|split]]]].
  - intros ens values Hin.
    assert (Hall' : forallb (fun ev => negb (other_percentiles (rp_percentiles plan) ev))
                      ([log_started (length (rp_rcps plan))]
                       ++ flat_map (scenario_events plan) runs
                       ++ concat_events (rp_rcps plan) (map scenario_ensemble runs)
                       ++ written ++ [log_finished]) = true).
    { rewrite !forallb_app, (proj1 Hw), (proj1 Hc).
      rewrite (proj2 (scenarios_percentiles plan runs Hall)).
      reflexivity. }
    rewrite forallb_forall in Hall'. specialize (Hall' _ Hin).
    cbn [other_percentiles] in Hall'. rewrite negb_involutive in Hall'.
    now apply bool_decide_eq_true_1 in Hall'.
  - rewrite !count_app, (proj2 Hw), (proj2 Hc).
    rewrite (proj1 (scenarios_percentiles plan runs Hall)).
    cbn. rewrite <- (length_map sr_rcp), Hrcps, Hrcps_raw, length_map. lia.
  - now rewrite Hrcps.
  - exact Hall.
  - intros Hmany. rewrite <- Hrcps_raw.
    rewrite !in_app_iff. right. right. left.
    unfold concat_events. rewrite Hrcps_raw, length_map.
    apply Nat.ltb_lt in Hmany. rewrite Hmany. now left.
  - apply strip_allowed.
Qed.

End PercentileClaims.

(* ===================================================================== *)
(** ** Paths and their suffixes *)
(* ===================================================================== *)

Module PyPathFacts.
Import PyPath.

Lemma length_app_str (a b : string) :
  String.length (a +:+ b) = (String.length a + String.length b)%nat.
Proof. induction a as [|c a IH]; simpl; [reflexivity | now rewrite IH]. Qed.

Lemma drop_app (a b : string) : PyStr.drop (String.length a) (a +:+ b) = b.
Proof. induction a as [|c a IH]; simpl; [now destruct b | assumption]. Qed.

Lemma length_drop (n : nat) : forall s,
  String.length (PyStr.drop n s) = (String.length s - n)%nat.
Proof.
  induction n as [|n IH]; intros s; simpl; [destruct s; simpl; lia|].
  destruct s as [|c s]; simpl; [reflexivity | apply IH].
Qed.

Lemma rfind_dot_lt s : forall i, rfind_dot s = Some i -> (i < String.length s)%nat.
Proof.
  induction s as [|c s IH]; intros i; simpl; [discriminate|].
  destruct (rfind_dot s) as [j|].
  - intros [= <-]. specialize (IH _ eq_refl). lia.
  - destruct (Ascii.eqb c "."); [intros [= <-]; lia | discriminate].
Qed.

Lemma rfind_dot_append (a ext : string) :
  rfind_dot ext = None ->
  rfind_dot (a +:+ String "." ext) = Some (String.length a).
Proof.
  intros Hext. induction a as [|c a IH]; simpl.
  - now rewrite Hext.
  - now rewrite IH.
Qed.

Lemma take_nonempty n s : (0 < n)%nat -> s <> "" -> take n s <> "".
Proof. destruct n, s; simpl; intros; try lia; congruence. Qed.

(** The stem of a name that is not empty is not empty. *)
Lemma stem_nonempty p : name p <> "" -> stem p <> "".
Proof.
  intros Hname. unfold stem, suffix.
  assert (Hlen : (0 < String.length (name p))%nat)
    by (destruct (name p); simpl; [congruence | lia]).
  destruct (rfind_dot (name p)) as [i|] eqn:Hdot.
  - pose proof (rfind_dot_lt _ _ Hdot).
    destruct (_ && _) eqn:Htest.
    + apply andb_true_iff in Htest as [Hpos _]. apply Nat.ltb_lt in Hpos.
      rewrite length_drop. apply take_nonempty; [lia | assumption].
    + simpl. apply take_nonempty; [lia | assumption].
  - simpl. apply take_nonempty; [lia | assumption].
Qed.

(** A path made by [with_suffix] has the suffix it was given, for a
    suffix that is a dot and then some characters other than dots. *)
Lemma suffix_with_suffix p ext q :
  ext <> "" -> rfind_dot ext = None ->
  with_suffix p (String "." ext) = inr q ->
  suffix q = String "." ext.
Proof.
  intros Hext Hnodot. unfold with_suffix.
  destruct (String.eqb (name p) "") eqn:Hempty; [discriminate|].
  intros [= <-]. apply String.eqb_neq in Hempty.
  pose proof (stem_nonempty p Hempty) as Hstem.
  unfold suffix. cbn [name].
  rewrite (rfind_dot_append _ _ Hnodot), length_app_str. cbn [String.length].
  assert (Hs : (0 < String.length (stem p))%nat)
    by (destruct (stem p); simpl; [congruence | lia]).
  assert (He : (0 < String.length ext)%nat)
    by (destruct ext; simpl; [congruence | lia]).
  replace (0 <? String.length (stem p))%nat with true
    by (symmetry; now apply Nat.ltb_lt).
  replace (String.length (stem p)
           <? String.length (stem p) + S (String.length ext) - 1)%nat with true
    by (symmetry; apply Nat.ltb_lt; lia).
  apply drop_app.
Qed.

End PyPathFacts.

(* ===================================================================== *)
(** ** The handler: the output, the scenarios and the progress *)
(* ===================================================================== *)

Section OutputFacts.

Context `{Externals}.
Variable bccaq_variables : gset string.
Variable set_order : gset string -> list string.
Variable process : Process.

(** C3.  In every run of the handler that returns, the output that is
    written is determined by the [output_format] input alone.  The run
    ends with the calls that write the output, and before them nothing
    of the output is written (the scenarios make no call that writes a
    table, a text or an archive, and the joining is calls of [concat]
    only).  When [output_format] is ["csv"], the last calls write the
    CSV file (suffix [.csv]), the metadata text file (next to the CSV
    file, named after it with [_metadata.txt]) and one zip archive of
    exactly these two files, and the archive is the output of the
    response.  For any other value, ["netcdf"] among them, the one call
    that writes the output writes a NetCDF file, which is the output of
    the response and whose path has the suffix [.nc]. *)
Theorem output_format_alone inputs st response st' :
  ensemble_common_handler bccaq_variables set_order process inputs st
  = (inr response, st') ->
  exists output_format scenarios joining ensemble written,
    literal_of inputs "output_format" = Some output_format
    /\ trace st' = trace st ++ scenarios ++ joining ++ written ++ [log_finished]
    /\ forallb (fun ev => negb (is_output_call ev)) scenarios = true
    /\ (forall ev, In ev joining ->
          exists ensembles rcps, ev = Call_concat ensembles "rcp" rcps)
    /\ if String.eqb output_format "csv" then
         exists df metadata ensemble_csv metadata_file,
           written = [ Call_dataset_to_dataframe ensemble;
                       Call_to_csv df ensemble_csv;
                       Call_format_metadata ensemble;
                       Call_write_text metadata_file metadata;
                       Call_zip_files (output response)
                         [metadata_file; ensemble_csv] ]
           /\ PyPath.suffix ensemble_csv = ".csv"
           /\ parent metadata_file = parent ensemble_csv
           /\ name metadata_file = PyPath.stem ensemble_csv +:+ "_metadata.txt"
       else
         written = [Call_dataset_to_netcdf ensemble (output response)]
         /\ PyPath.suffix (output response) = ".nc".
Proof.
  intros Hrun.
  destruct (handler_completed _ _ _ _ _ _ _ Hrun)
    as (evs & Ht & plan & runs & last & ensemble & written & Hplan & _
        & Hall & _ & _ & (basename & Hbase & Hwritten) & ->).
  destruct Hplan as (_ & _ & _ & _ & (output_format & Hformat & Hcsv) & _).
  exists output_format,
    ([log_started (length (rp_rcps plan))] ++ flat_map (scenario_events plan) runs),
    (concat_events (rp_rcps plan) (map scenario_ensemble runs)),
    ensemble, written.
  split; [exact Hformat|].
  split; [rewrite Ht, <- !app_assoc; reflexivity|].
  split; [rewrite forallb_app, (proj2 (scenarios_balance _ _ _ plan runs Hall));
          reflexivity|].
  split.
  { unfold concat_events. destruct (1 <? _)%nat; [|intros ev []].
    intros ev [<-|[]]. eauto. }
  rewrite <- Hcsv. destruct (rp_csv plan).
  - destruct Hwritten as (df & metadata & ensemble_csv & Hwith & Hzip & ->).
    exists df, metadata, ensemble_csv,
      (PyPath.sibling basename (PyPath.stem ensemble_csv +:+ "_metadata.txt")).
    split; [reflexivity|].
    split; [apply (PyPathFacts.suffix_with_suffix basename "csv");
            [discriminate | reflexivity | exact Hwith]|].
    split; [|reflexivity].
    unfold PyPath.with_suffix in Hwith.
    destruct (String.eqb (name basename) ""); [discriminate|].
    injection Hwith as <-. reflexivity.
  - destruct Hwritten as [Hwith ->]. split; [reflexivity|].
    apply (PyPathFacts.suffix_with_suffix basename "nc");
      [discriminate | reflexivity | exact Hwith].
Qed.

Lemma last_mapped {A B} (f : A -> B) (l : list A) x :
  List.last (map Some l) None = Some x ->
  In x l /\ List.last (map Some (map f l)) None = Some (f x).
Proof.
  induction l as [|a l IH]; [discriminate|]. destruct l as [|b l].
  - intros [= <-]. split; [now left | reflexivity].
  - intros Hlast. destruct (IH Hlast) as [Hin Hf]. split; [now right | exact Hf].
Qed.

(** In every run of the handler that returns, what is written as the
    output depends on the [output_format] input alone.  The run is the
    scenarios, then the joining of the scenarios, then the writing of the
    output; the scenarios write one NetCDF file for each computation of
    the indices of a group and for each computed variable made into a
    dataset, and nothing of the output.  The name of the output is made
    of [output_filename], which is what [make_output_filename] gives for
    the last of the requested scenarios.  When [output_format] is
    ["csv"], the output is written by the calls that make the CSV file
    (the path [<output_filename>_ensemble] with the suffix [.csv]), the
    metadata text file next to it (named after the CSV file, with
    [_metadata.txt]) and a zip archive of exactly these two files, named
    [<output_filename>.zip], and the archive is the output.  Otherwise
    the output is written by one call that writes a NetCDF file, which is
    the output; its path is [<output_filename>_ensemble] with the suffix
    [.nc]. *)
Theorem output_by_format inputs st response st' :
  ensemble_common_handler bccaq_variables set_order process inputs st
  = (inr response, st') ->
  exists output_format raw last_rcp output_filename output_basename
         scenarios joining ensemble written,
    literal_of inputs "output_format" = Some output_format
    /\ literals_of inputs "rcp" = Some raw
    /\ List.last (map Some (map PyStr.strip raw)) None = Some last_rcp
    /\ make_output_filename process inputs (Some last_rcp) = inr output_filename
    /\ name output_basename = output_filename +:+ "_ensemble"
    /\ trace st' = trace st ++ scenarios ++ joining ++ written ++ [log_finished]
    /\ forallb (fun ev => negb (is_output_call ev)) scenarios = true
    /\ count is_netcdf_write scenarios
       = (count is_index_computation scenarios
          + count is_variable_dataset scenarios)%nat
    /\ (forall ev, In ev joining ->
          exists ensembles rcps, ev = Call_concat ensembles "rcp" rcps)
    /\ if String.eqb output_format "csv" then
         exists df metadata ensemble_csv metadata_file,
           written = csv_events ensemble df metadata ensemble_csv metadata_file
                       (output response)
           /\ PyPath.with_suffix output_basename ".csv" = inr ensemble_csv
           /\ PyPath.suffix ensemble_csv = ".csv"
           /\ parent metadata_file = parent ensemble_csv
           /\ name metadata_file = PyPath.stem ensemble_csv +:+ "_metadata.txt"
           /\ name (output response) = output_filename +:+ ".zip"
       else
         written = [Call_dataset_to_netcdf ensemble (output response)]
         /\ PyPath.with_suffix output_basename ".nc" = inr (output response)
         /\ PyPath.suffix (output response) = ".nc".
Proof.
  intros Hrun.
  destruct (handler_completed _ _ _ _ _ _ _ Hrun)
    as (evs & Ht & plan & runs & last & ensemble & written & Hplan & Hrcps
        & Hall & Hlast & _ & (basename & Hbase & Hwritten) & ->).
  destruct Hplan as (Hinputs & _ & _ & _ & (output_format & Hformat & Hcsv) & _
                     & (raw & Hraw & Hrcps_raw) & _).
  destruct (last_mapped sr_rcp _ _ Hlast) as [Hin Hlast_rcp].
  rewrite Hrcps, Hrcps_raw in Hlast_rcp.
  pose proof (proj1 (List.Forall_forall _ _) Hall _ Hin) as (Hname & _).
  rewrite Hinputs in Hname.
  exists output_format, raw, (sr_rcp last), (sr_output_filename last), basename,
    ([log_started (length (rp_rcps plan))] ++ flat_map (scenario_events plan) runs),
    (concat_events (rp_rcps plan) (map scenario_ensemble runs)),
    ensemble, written.
  split; [exact Hformat|]. split; [exact Hraw|]. split; [exact Hlast_rcp|].
  split; [exact Hname|]. split; [exact Hbase|].
  split; [rewrite Ht, <- !app_assoc; reflexivity|].
  split; [rewrite forallb_app, (proj2 (scenarios_balance _ _ _ plan runs Hall));
          reflexivity|].
  split; [rewrite !count_app, (proj1 (scenarios_balance _ _ _ plan runs Hall));
          cbn; lia|].
  split.
  { unfold concat_events. destruct (1 <? _)%nat; [|intros ev []].
    intros ev [<-|[]]. eauto. }
  rewrite <- Hcsv. destruct (rp_csv plan).
  - destruct Hwritten as (df & metadata & ensemble_csv & Hwith & Hzip & ->).
    exists df, metadata, ensemble_csv,
      (PyPath.sibling basename (PyPath.stem ensemble_csv +:+ "_metadata.txt")).
    split; [reflexivity|]. split; [exact Hwith|].
    split; [apply (PyPathFacts.suffix_with_suffix basename "csv");
            [discriminate | reflexivity | exact Hwith]|].
    split; [|split; [reflexivity | exact Hzip]].
    unfold PyPath.with_suffix in Hwith.
    destruct (String.eqb (name basename) ""); [discriminate|].
    injection Hwith as <-. reflexivity.
  - destruct Hwritten as [Hwith ->]. split; [reflexivity|]. split; [exact Hwith|].
    apply (PyPathFacts.suffix_with_suffix basename "nc");
      [discriminate | reflexivity | exact Hwith].
Qed.

(** The handler returns only for a request with at least one scenario:
    with an empty list of [rcp] inputs there is no ensemble to write, and
    every run raises. *)
Theorem no_scenario_no_response inputs st r st' :
  ensemble_common_handler bccaq_variables set_order process inputs st = (r, st') ->
  literals_of inputs "rcp" = Some [] ->
  exists e, r = inl e.
Proof.
  intros Hrun Hraw. destruct r as [e|response]; [now exists e|]. exfalso.
  destruct (handler_completed _ _ _ _ _ _ _ Hrun)
    as (evs & _ & plan & runs & last & ensemble & written & Hplan & Hrcps
        & _ & Hlast & _).
  destruct Hplan as (_ & _ & _ & _ & _ & _ & (raw & Hraw' & Hrcps_raw) & _).
  rewrite Hraw in Hraw'. injection Hraw' as <-.
  rewrite Hrcps_raw in Hrcps. destruct runs; [discriminate Hlast | discriminate Hrcps].
Qed.

(** The percentage of the subtasks that the handler logs while it
    computes the indices ([n * 100 // n_groups]) is at least 0 and less
    than 100, in every run that returns. *)
Theorem subtask_percentage_bounds inputs st response st' :
  ensemble_common_handler bccaq_variables set_order process inputs st
  = (inr response, st') ->
  exists evs,
    trace st' = trace st ++ evs
    /\ forall message process_step p,
         In (Call_write_log message process_step (Some p)) evs ->
         (0 <= p < 100)%Z.
Proof.
  intros Hrun.
  destruct (handler_completed _ _ _ _ _ _ _ Hrun)
    as (evs & Ht & plan & runs & last & ensemble & written & _ & _
        & Hall & _ & _ & (basename & _ & Hwritten) & ->).
  eexists. split; [exact Ht|]. intros message step p.
  rewrite !in_app_iff. intros [Hin|[Hin|[Hin|[Hin|Hin]]]].
  - destruct Hin as [[=]|[]].
  - apply in_flat_map in Hin as (s & Hs & Hin).
    rewrite List.Forall_forall in Hall. specialize (Hall s Hs).
    pose proof (flows_intermediate _ _ _ _ _ Hall) as [Hinter _].
    destruct Hall as (_ & _ & _ & _ & _ & _ & Hindex & _).
    unfold scenario_events in Hin. rewrite !in_app_iff in Hin.
    destruct Hin as [Hin|[Hin|[Hin|[Hin|Hin]]]].
    + cbn in Hin. repeat destruct Hin as [[=]|Hin]. destruct Hin.
    + rewrite forallb_forall in Hinter. now apply Hinter in Hin.
    + destruct Hin as [[=]|[]].
    + apply in_flat_map in Hin as (g & Hg & Hin).
      assert (Hlt : (gr_index g < length (sr_groups s))%nat).
      { apply (in_map gr_index) in Hg. rewrite Hindex in Hg.
        apply in_seq in Hg. lia. }
      cbn in Hin. destruct Hin as [[= _ _ <-]|[[=]|[[=]|[]]]].
      split.
      * apply Z.div_pos; lia.
      * apply Z.div_lt_upper_bound; lia.
    + unfold ensemble_events in Hin. rewrite !in_app_iff in Hin.
      destruct Hin as [[[=]|[]]|[Hin|[[[=]|[]]|[Hin|[[=]|[]]]]]];
        apply in_map_iff in Hin as (v & [=] & _).
  - unfold concat_events in Hin. destruct (1 <? _)%nat; [|destruct Hin].
    destruct Hin as [[=]|[]].
  - destruct (rp_csv plan).
    + destruct Hwritten as (df & metadata & csv & _ & _ & ->).
      cbn in Hin. repeat destruct Hin as [[=]|Hin]. destruct Hin.
    + destruct Hwritten as [_ ->]. destruct Hin as [[=]|[]].
  - destruct Hin as [[=]|[]].
Qed.

End OutputFacts.

(* ===================================================================== *)
(** ** [get_sub_inputs] *)
(* ===================================================================== *)

Module SubInputsFacts.

Lemma any_computed_false l : any_computed l = false <-> Forall (fun x => dict_get x variable_computations = None) l.
Proof.
  unfold any_computed. induction l as [|v l IH]; cbn [existsb].
  - split; [constructor | reflexivity].
  - rewrite orb_false_iff, IH, bool_decide_eq_false. split.
    + intros [Hv Hl]. constructor; [|assumption].
      destruct (dict_get v variable_computations); [|reflexivity].
      exfalso. apply Hv. eauto.
    + intros Hall. inversion Hall as [|? ? Hv Hl]; subst. split; [|assumption].
      rewrite Hv. intros [? [=]].
Qed.

(** The inputs of a computed variable are [tasmin], [tasmax] and [tas]. *)
Lemma computed_inputs v inputs :
  dict_get v variable_computations = Some inputs ->
  Forall (fun x => x = "tasmin" \/ x = "tasmax" \/ x = "tas") inputs.
Proof.
  unfold variable_computations. cbn [dict_get].
  repeat match goal with
         | |- context [String.eqb v ?k] => destruct (String.eqb v k)
         end;
    intros Heq; try discriminate Heq; injection Heq as <-;
    repeat (apply List.Forall_cons || apply List.Forall_nil); auto.
Qed.

Lemma pass_cons v l :
  sub_inputs_pass (v :: l)
  = match dict_get v variable_computations with
    | Some inputs => inputs
    | None => [v]
    end ++ sub_inputs_pass l.
Proof. reflexivity. Qed.

(** One pass keeps the source variables and brings in inputs of computed
    variables. *)
Lemma pass_elements (P : string -> Prop) l :
  Forall (fun x => P x \/ x = "tasmin" \/ x = "tasmax" \/ x = "tas") l ->
  Forall (fun x => (P x /\ dict_get x variable_computations = None) \/ x = "tasmin" \/ x = "tasmax" \/ x = "tas")
    (sub_inputs_pass l).
Proof.
  induction 1 as [|v l Hv _ IH]; [constructor|].
  rewrite pass_cons. apply Forall_app. split; [|exact IH].
  destruct (dict_get v variable_computations) as [inputs|] eqn:Hget.
  - eapply List.Forall_impl; [|exact (computed_inputs _ _ Hget)]. tauto.
  - apply List.Forall_cons; [|apply List.Forall_nil].
    destruct Hv as [Hv|Hv]; [left; now split | now right].
Qed.

(** Past the first pass, a pass leaves [tasmin] and [tasmax] only. *)
Lemma pass_sources (P : string -> Prop) l :
  Forall (fun x => (P x /\ dict_get x variable_computations = None) \/ x = "tasmin" \/ x = "tasmax" \/ x = "tas") l ->
  Forall (fun x => (P x /\ dict_get x variable_computations = None) \/ x = "tasmin" \/ x = "tasmax")
    (sub_inputs_pass l).
Proof.
  induction 1 as [|v l Hv _ IH]; [constructor|].
  rewrite pass_cons. apply Forall_app. split; [|exact IH].
  destruct Hv as [[Hp Hs]|[ -> |[ -> | -> ]]].
  - rewrite Hs. apply List.Forall_cons; [now left | apply List.Forall_nil].
  - apply List.Forall_cons; [auto | apply List.Forall_nil].
  - apply List.Forall_cons; [auto | apply List.Forall_nil].
  - apply List.Forall_cons; [auto|]. apply List.Forall_cons; [auto | apply List.Forall_nil].
Qed.

Lemma sources_free (P : string -> Prop) l :
  Forall (fun x => (P x /\ dict_get x variable_computations = None) \/ x = "tasmin" \/ x = "tasmax") l ->
  Forall (fun x => dict_get x variable_computations = None) l.
Proof.
  apply List.Forall_impl. intros x [[_ Hs]|[ -> | -> ]]; [assumption | reflexivity..].
Qed.

Lemma pass_id l :
  Forall (fun x => dict_get x variable_computations = None) l ->
  sub_inputs_pass l = l.
Proof.
  induction 1 as [|v l Hv _ IH]; [reflexivity|].
  rewrite pass_cons, Hv, IH. reflexivity.
Qed.

(** The loop of [get_sub_inputs] ends, and two passes give its result. *)
Lemma two_passes variables :
  get_sub_inputs variables = Some (sub_inputs_pass (sub_inputs_pass variables))
  /\ Forall (fun x => (In x variables /\ dict_get x variable_computations = None)
                      \/ x = "tasmin" \/ x = "tasmax")
       (sub_inputs_pass (sub_inputs_pass variables)).
Proof.
  assert (H0 : Forall (fun x => In x variables \/ x = "tasmin" \/ x = "tasmax"
                                \/ x = "tas") variables)
    by (apply List.Forall_forall; auto).
  pose proof (pass_elements _ _ H0) as H1.
  pose proof (pass_sources _ _ H1) as H2.
  split; [|exact H2].
  unfold get_sub_inputs. cbn [length variable_computations get_sub_inputs_loop].
  destruct (any_computed variables) eqn:Hc0.
  2: { apply any_computed_false in Hc0. now rewrite !(pass_id _ Hc0). }
  destruct (any_computed (sub_inputs_pass variables)) eqn:Hc1.
  2: { apply any_computed_false in Hc1. now rewrite (pass_id _ Hc1). }
  assert (Hc2 : any_computed (sub_inputs_pass (sub_inputs_pass variables)) = false)
    by (apply any_computed_false; exact (sources_free _ _ H2)).
  now rewrite Hc2.
Qed.

(** [get_sub_inputs] returns for every list of variables.  The list it
    returns holds no computed variable, and each of its elements is a
    variable of the argument that is not computed, or [tasmin] or
    [tasmax], the sources of all computed variables. *)
Theorem get_sub_inputs_total variables :
  exists out,
    get_sub_inputs variables = Some out
    /\ any_computed out = false
    /\ Forall (fun v => (In v variables /\ dict_get v variable_computations = None)
                        \/ v = "tasmin" \/ v = "tasmax") out.
Proof.
  destruct (two_passes variables) as [Hout Hall].
  eexists. split; [exact Hout|]. split; [|exact Hall].
  apply any_computed_false. exact (sources_free _ _ Hall).
Qed.

End SubInputsFacts.

(* ===================================================================== *)
(** ** The handler: the steps of the progress *)
(* ===================================================================== *)

Section StepsFacts.

Context `{Externals}.

Lemma keeps_ret {A} (x : A) : keeps_steps (ret x).
Proof. intros st r st' [= <- <-]. reflexivity. Qed.

Lemma keeps_raise {A} e : keeps_steps (raise (A := A) e).
Proof. intros st r st' [= <- <-]. reflexivity. Qed.

Lemma keeps_lift {A} (x : result A) : keeps_steps (lift x).
Proof. intros st r st' [= <- <-]. reflexivity. Qed.

Lemma keeps_emit ev : keeps_steps (emit ev).
Proof. intros st r st' [= <- <-]. reflexivity. Qed.

Lemma keeps_get_workdir : keeps_steps get_workdir.
Proof. intros st r st' [= <- <-]. reflexivity. Qed.

Lemma keeps_set_workdir dir : keeps_steps (set_workdir dir).
Proof. intros st r st' [= <- <-]. reflexivity. Qed.

Lemma keeps_bind {A B} (m : M A) (f : A -> M B) :
  keeps_steps m -> (forall x, keeps_steps (f x)) -> keeps_steps (bind m f).
Proof.
  intros Hm Hf st r st' Hrun. unfold bind in Hrun.
  destruct (m st) as [[e|x] st1] eqn:Hm1; specialize (Hm _ _ _ Hm1).
  - injection Hrun as <- <-. exact Hm.
  - rewrite (Hf _ _ _ _ Hrun). exact Hm.
Qed.

Lemma keeps_call {A} ev (x : result A) : keeps_steps (call ev x).
Proof. apply keeps_bind; [apply keeps_emit | intros; apply keeps_lift]. Qed.

Lemma keeps_foldM {A B} (body : B -> A -> M B) l :
  (forall acc x, keeps_steps (body acc x)) -> forall acc, keeps_steps (foldM body l acc).
Proof.
  intros Hbody. induction l as [|x l IH]; intros acc; cbn [foldM].
  - apply keeps_ret.
  - apply keeps_bind; [apply Hbody | exact IH].
Qed.

End StepsFacts.

Ltac keeps_step :=
  first
    [ apply keeps_ret | apply keeps_raise | apply keeps_lift | apply keeps_emit
    | apply keeps_call | apply keeps_get_workdir | apply keeps_set_workdir
    | apply keeps_bind; [|intros ?]
    | apply keeps_foldM; intros ? ?
    | progress cbv beta
    | match goal with
      | |- keeps_steps (match ?x with _ => _ end) => destruct x
      end ].

Ltac keeps_tac := repeat keeps_step.

Section HandlerSteps.

Context `{Externals}.
Variable bccaq_variables : gset string.
Variable set_order : gset string -> list string.
Variable process : Process.

Lemma keeps_first_data inputs k : keeps_steps (first_data inputs k).
Proof. unfold first_data, inputs_of, data_str. keeps_tac. Qed.

Lemma keeps_make_ensemble files percentiles :
  keeps_steps (make_ensemble files percentiles).
Proof. unfold make_ensemble, to_days_since, to_doy. keeps_tac. Qed.

Lemma keeps_bind_ret {A B} (x : A) (k : A -> M B) :
  keeps_steps (k x) -> keeps_steps (bind (ret x) k).
Proof. intros Hk st r st' Hrun. exact (Hk st r st' Hrun). Qed.

Lemma keeps_bind_raise {A B} e (k : A -> M B) : keeps_steps (bind (raise e) k).
Proof. intros st r st' [= <- <-]. reflexivity. Qed.

Lemma keeps_variable_function variable f inputs :
  dict_get variable variable_functions = Some f -> keeps_steps (f inputs).
Proof.
  unfold variable_functions. cbn [dict_get].
  repeat match goal with
         | |- context [String.eqb variable ?k] => destruct (String.eqb variable k)
         end;
    intros Heq; try discriminate Heq; injection Heq as <-;
    unfold binary, unary, _tas, _percentile_doy_tn10, _percentile_doy_tn90,
      _percentile_doy_tx90, _percentile_doy_t10, _percentile_doy_t90,
      _percentile_doy;
    keeps_tac.
Qed.

Lemma keeps_compute_loop required workdir output_basename fuel :
  forall variables_to_compute group output_files_list,
    keeps_steps (compute_loop set_order fuel required workdir output_basename
                   variables_to_compute group output_files_list).
Proof.
  induction fuel as [|fuel IH]; intros vs group out; cbn [compute_loop].
  - keeps_tac.
  - destruct (bool_decide (vs = ∅)); [keeps_tac|].
    destruct (first_ready (set_order vs) group) as [e|[[variable input_names]|]];
      [keeps_tac| |keeps_tac].
    apply keeps_bind; [unfold open_inputs; keeps_tac|intros inputs].
    destruct (dict_get variable variable_functions) as [f|] eqn:Hf;
      [apply keeps_bind_ret | apply keeps_bind_raise].
    apply keeps_bind; [exact (keeps_variable_function _ _ _ Hf)|intros output].
    apply keeps_bind; [apply keeps_call|intros _].
    destruct (bool_decide (variable ∈ vs)); [apply IH | apply keeps_raise].
Qed.

Lemma keeps_compute_intermediate files_list required workdir :
  keeps_steps (compute_intermediate_variables bccaq_variables set_order files_list
                 required workdir).
Proof.
  unfold compute_intermediate_variables, intermediate_group.
  repeat first [apply keeps_compute_loop | keeps_step].
Qed.

Lemma keeps_scenario inputs not_datasets names source percentiles models
    dataset_name base acc rcp :
  keeps_steps (scenario bccaq_variables set_order process inputs not_datasets
                 names source percentiles models dataset_name base acc rcp).
Proof.
  unfold scenario, compute_group, indices_output_name.
  repeat first [ apply keeps_compute_intermediate | apply keeps_make_ensemble
               | keeps_step ].
Qed.

(** The handler past the deletion of the step. *)
Lemma keeps_rest inputs (csv : bool) names source not_datasets dataset_name :
  keeps_steps
    (let* percentiles_string := first_data inputs "ensemble_percentiles" in
     let* percentiles := parse_percentiles percentiles_string in
     let* rcps := stripped_data inputs "rcp" in
     let* _ := emit (log_started (length rcps)) in
     let* models := stripped_data inputs "models" in
     let* base_work_dir := get_workdir in
     let* '(ensembles, last) :=
       foldM (scenario bccaq_variables set_order process inputs not_datasets
                names source percentiles models dataset_name base_work_dir)
             rcps ([], None) in
     let* _ := set_workdir base_work_dir in
     let* ensemble :=
       if (1 <? length rcps)%nat
       then call (Call_concat ensembles "rcp" rcps) (concat ensembles "rcp" rcps)
       else match ensembles with
            | e :: _ => ret e
            | [] => raise IndexError
            end in
     let* '(output_filename, output_basename) :=
       match last with
       | Some names => ret names
       | None => raise (OtherError "NameError")
       end in
     let* ensemble_output :=
       if csv then write_csv ensemble output_filename output_basename
       else write_netcdf ensemble output_basename in
     let* dir := get_workdir in
     let* _ := emit log_finished in
     ret (mkResponse ensemble_output (log_file_path dir))).
Proof.
  apply keeps_bind; [apply keeps_first_data | intros ps].
  apply keeps_bind; [unfold parse_percentiles; keeps_tac | intros percentiles].
  apply keeps_bind;
    [unfold stripped_data, inputs_of, data_str; keeps_tac | intros rcps].
  apply keeps_bind; [apply keeps_emit | intros _].
  apply keeps_bind;
    [unfold stripped_data, inputs_of, data_str; keeps_tac | intros models].
  apply keeps_bind; [apply keeps_get_workdir | intros base].
  apply keeps_bind; [apply keeps_foldM; intros; apply keeps_scenario |].
  intros [ensembles last].
  unfold write_csv, write_netcdf. keeps_tac.
Qed.

Lemma without_step_get k steps : dict_get k (without_step k steps) = None.
Proof.
  unfold without_step. induction steps as [|[k' v] steps IH]; [reflexivity|].
  cbn [List.filter fst]. destruct (String.eqb k' k) eqn:Hk; cbn [negb].
  - exact IH.
  - cbn [dict_get]. rewrite String.eqb_sym, Hk. exact IH.
Qed.

(** What any run of the handler does to the steps of the progress. *)
Lemma run_steps inputs st r st' output_format :
  ensemble_common_handler bccaq_variables set_order process inputs st = (r, st') ->
  literal_of inputs "output_format" = Some output_format ->
  if String.eqb output_format "csv"
  then status_percentage_steps st' = status_percentage_steps st
  else match dict_get "convert_to_csv" (status_percentage_steps st) with
       | Some _ => status_percentage_steps st'
                   = without_step "convert_to_csv" (status_percentage_steps st)
       | None => r = inl (KeyError "convert_to_csv") /\ st' = st
       end.
Proof.
  intros Hrun Hformat. unfold ensemble_common_handler in Hrun.
  rewrite (proj1 (SubInputsFacts.two_passes _)) in Hrun.
  unfold bind at 1, ret at 1 in Hrun.
  unfold bind at 1 in Hrun.
  assert (Hfirst : first_data inputs "output_format" st = (inr output_format, st)).
  { unfold literal_of in Hformat. unfold first_data, inputs_of, bind.
    destruct (dict_get "output_format" inputs) as [[|[[s|x]|f u] l]|];
      try discriminate Hformat.
    injection Hformat as ->. reflexivity. }
  rewrite Hfirst in Hrun. unfold bind at 1 in Hrun.
  destruct (String.eqb output_format "csv").
  - unfold ret at 1 in Hrun. cbv zeta in Hrun.
    exact (keeps_rest inputs true _ _ _ _ _ _ _ Hrun).
  - unfold del_step in Hrun.
    destruct (dict_get "convert_to_csv" (status_percentage_steps st)) as [v|].
    + cbv zeta in Hrun. exact (keeps_rest inputs false _ _ _ _ _ _ _ Hrun).
    + injection Hrun as <- <-. split; reflexivity.
Qed.

Lemma returns_with_format inputs st response st' :
  ensemble_common_handler bccaq_variables set_order process inputs st
  = (inr response, st') ->
  exists output_format, literal_of inputs "output_format" = Some output_format.
Proof.
  intros Hrun.
  destruct (handler_completed _ _ _ _ _ _ _ Hrun)
    as (evs & _ & plan & runs & last & ensemble & written & Hplan & _).
  destruct Hplan as (_ & _ & _ & _ & (output_format & Hformat & _) & _).
  eauto.
Qed.

(** What a run of the handler does to the steps of the progress of the
    process: a run that returns has left them as they were when
    [output_format] is ["csv"], and has deleted the step
    ["convert_to_csv"], which was there, when it is not. *)
Theorem convert_step_deleted inputs st response st' :
  ensemble_common_handler bccaq_variables set_order process inputs st
  = (inr response, st') ->
  exists output_format,
    literal_of inputs "output_format" = Some output_format
    /\ if String.eqb output_format "csv"
       then status_percentage_steps st' = status_percentage_steps st
       else is_Some (dict_get "convert_to_csv" (status_percentage_steps st))
            /\ status_percentage_steps st'
               = without_step "convert_to_csv" (status_percentage_steps st).
Proof.
  intros Hrun.
  destruct (returns_with_format _ _ _ _ Hrun) as (output_format & Hformat).
  exists output_format. split; [exact Hformat|].
  pose proof (run_steps _ _ _ _ _ Hrun Hformat) as Hsteps.
  destruct (String.eqb output_format "csv"); [exact Hsteps|].
  destruct (dict_get "convert_to_csv" (status_percentage_steps st)).
  - split; [eauto | exact Hsteps].
  - destruct Hsteps as [[=] _].
Qed.

(** The handler run twice on one process: after a run that returned
    with an [output_format] other than ["csv"], every further run with
    such an [output_format] raises [KeyError] for the step
    ["convert_to_csv"], before it makes any call. *)
Theorem second_run_raises inputs st response st' output_format
    inputs2 output_format2 :
  ensemble_common_handler bccaq_variables set_order process inputs st
  = (inr response, st') ->
  literal_of inputs "output_format" = Some output_format ->
  output_format <> "csv" ->
  literal_of inputs2 "output_format" = Some output_format2 ->
  output_format2 <> "csv" ->
  ensemble_common_handler bccaq_variables set_order process inputs2 st'
  = (inl (KeyError "convert_to_csv"), st').
Proof.
  intros Hrun Hformat Hnot Hformat2 Hnot2.
  pose proof (run_steps _ _ _ _ _ Hrun Hformat) as Hsteps.
  apply String.eqb_neq in Hnot, Hnot2. rewrite Hnot in Hsteps.
  assert (Hgone : dict_get "convert_to_csv" (status_percentage_steps st') = None).
  { destruct (dict_get "convert_to_csv" (status_percentage_steps st)).
    - rewrite Hsteps. apply without_step_get.
    - destruct Hsteps as [[=] _]. }
  destruct (ensemble_common_handler bccaq_variables set_order process inputs2 st')
    as [r2 st2] eqn:Hrun2.
  pose proof (run_steps _ _ _ _ _ Hrun2 Hformat2) as Hsteps2.
  rewrite Hnot2, Hgone in Hsteps2. destruct Hsteps2 as [-> ->]. reflexivity.
Qed.

End HandlerSteps.

(* ===================================================================== *)
(** ** [make_file_groups] *)
(* ===================================================================== *)

Module DictFacts.

Lemma dict_set_in {V} k (v : V) d e :
  In e (dict_set k v d) -> e = (k, v) \/ In e d.
Proof.
  induction d as [|[k' v'] d IH]; cbn [dict_set].
  - intros [<-|[]]. now left.
  - destruct (String.eqb k k').
    + intros [<-|Hin]; [now left | right; now right].
    + intros [<-|Hin]; [right; now left|].
      destruct (IH Hin); [now left | right; now right].
Qed.

Lemma dict_set_here {V} k (v : V) d : In (k, v) (dict_set k v d).
Proof.
  induction d as [|[k' v'] d IH]; cbn [dict_set]; [now left|].
  destruct (String.eqb k k'); [now left | now right].
Qed.

Lemma dict_get_set {V} k (v : V) d : dict_get k (dict_set k v d) = Some v.
Proof.
  induction d as [|[k' v'] d IH]; cbn [dict_set dict_get].
  - now rewrite String.eqb_refl.
  - destruct (String.eqb k k') eqn:Hk; cbn [dict_get]; rewrite ?String.eqb_refl, ?Hk;
      [reflexivity | exact IH].
Qed.

Lemma dict_get_set_other {V} k k' (v : V) d :
  k' <> k -> dict_get k' (dict_set k v d) = dict_get k' d.
Proof.
  intros Hne. induction d as [|[k0 v0] d IH]; cbn [dict_set dict_get].
  - apply String.eqb_neq in Hne. now rewrite Hne.
  - destruct (String.eqb k k0) eqn:Hk; cbn [dict_get].
    + apply String.eqb_eq in Hk as <-. apply String.eqb_neq in Hne. now rewrite Hne.
    + destruct (String.eqb k' k0); [reflexivity | exact IH].
Qed.

End DictFacts.

Module StrFacts.

Lemma replace_first_eq old new s :
  PyStr.replace_first old new s
  = if String.prefix old s then new +:+ PyStr.drop (String.length old) s
    else match s with
         | EmptyString => EmptyString
         | String c s' => String c (PyStr.replace_first old new s')
         end.
Proof. destruct s; reflexivity. Qed.

(** In a string that starts with [old], the start is replaced. *)
Lemma replace_first_prefixed old new rest :
  PyStr.replace_first old new (old +:+ rest) = new +:+ rest.
Proof.
  rewrite replace_first_eq, prefix_append, PyPathFacts.drop_app. reflexivity.
Qed.

Lemma append_inv_tail (a b t : string) : a +:+ t = b +:+ t -> a = b.
Proof.
  revert b. induction a as [|c a IH]; intros b Heq.
  - destruct b as [|d b]; [reflexivity|]. exfalso.
    apply (f_equal String.length) in Heq.
    rewrite !PyPathFacts.length_app_str in Heq. cbn in Heq. lia.
  - destruct b as [|d b].
    + exfalso. apply (f_equal String.length) in Heq.
      rewrite !PyPathFacts.length_app_str in Heq. cbn in Heq. lia.
    + cbn [String.append] in Heq. injection Heq as -> Heq. f_equal. now apply IH.
Qed.

Lemma startswith_inv s var :
  PyStr.startswith s (var +:+ "_") = true -> exists tail, s = var +:+ "_" +:+ tail.
Proof.
  unfold PyStr.startswith. intros (tail & ->)%prefix_inv. exists tail.
  apply ParseFacts.append_assoc.
Qed.

Lemma startswith_append var tail :
  PyStr.startswith (var +:+ "_" +:+ tail) (var +:+ "_") = true.
Proof.
  unfold PyStr.startswith. rewrite <- ParseFacts.append_assoc. apply prefix_append.
Qed.

End StrFacts.

Section FileGroupsFacts.

Variable bccaq_variables : gset string.
Variable set_order : gset string -> list string.
Variable files : list Path.

(** Iterating over a set yields elements of the set. *)
Hypothesis set_order_sound :
  forall (s : gset string) x, In x (set_order s) -> x ∈ s.

Lemma group_names_set k v group n :
  In n (group_names (dict_set k v group)) -> n = name v \/ In n (group_names group).
Proof.
  unfold group_names. intros ([k' v'] & <- & Hin)%in_map_iff.
  destruct (DictFacts.dict_set_in _ _ _ _ Hin) as [[= -> ->]|Hold]; [now left|].
  right. apply in_map_iff. now exists (k', v').
Qed.

Lemma group_names_nodup k v group :
  List.NoDup (group_names group) ->
  ~ In (name v) (group_names group) ->
  List.NoDup (group_names (dict_set k v group)).
Proof.
  unfold group_names.
  induction group as [|[k' v'] group IH]; cbn [dict_set map snd]; intros Hnd Hnew.
  - constructor; [intros [] | constructor].
  - apply List.NoDup_cons_iff in Hnd as [Hv' Hnd].
    destruct (String.eqb k k'); cbn [map snd].
    + constructor; [|assumption]. intros Hin. apply Hnew. now right.
    + constructor.
      * intros Hin. destruct (group_names_set _ _ _ _ Hin) as [Heq|Hold].
        -- apply Hnew. left. now symmetry.
        -- now apply Hv'.
      * apply IH; [assumption|]. intros Hin. apply Hnew. now right.
Qed.

Lemma by_name_named (l : list Path) : forall d,
  named_files files d -> (forall f, In f l -> In f files) ->
  named_files files (fold_left (fun d f => <[name f := f]> d) l d).
Proof.
  induction l as [|f l IH]; intros d Hd Hl; cbn [fold_left]; [assumption|].
  apply IH; [|intros; apply Hl; now right].
  intros n g [[<- <-]|[_ Hold]]%lookup_insert_Some.
  - split; [reflexivity | apply Hl; now left].
  - now apply Hd.
Qed.

(** The loop over the other variables: it moves files from the dict to
    the group. *)
Lemma add_others_moves var tail others : forall group filenames group' filenames',
  let fname := var +:+ "_" +:+ tail in
  (forall o, In o others -> o ∈ accepted_variables bccaq_variables /\ o <> var) ->
  named_files files filenames ->
  grouped_around bccaq_variables files var fname group ->
  List.NoDup (group_names group) ->
  (forall n, In n (group_names group) -> filenames !! n = None /\ n <> fname) ->
  add_others fname var others group filenames = (group', filenames') ->
  named_files files filenames'
  /\ grouped_around bccaq_variables files var fname group'
  /\ List.NoDup (group_names group')
  /\ (forall n, In n (group_names group') -> filenames' !! n = None /\ n <> fname)
  /\ (forall n, filenames !! n = None -> filenames' !! n = None)
  /\ filenames' !! fname = filenames !! fname
  /\ (forall n, In n (group_names group') ->
        In n (group_names group) \/ is_Some (filenames !! n)).
Proof.
  intros group filenames group' filenames' fname. revert group filenames.
  induction others as [|o others IH]; intros group filenames Hothers Hnamed Haround
    Hnd Hout Hrun; cbn [add_others] in Hrun.
  - injection Hrun as <- <-.
    split; [assumption|]. split; [assumption|]. split; [assumption|].
    split; [assumption|]. split; [auto|]. split; [reflexivity|].
    intros n Hn. now left.
  - assert (Hrest : forall o', In o' others ->
                      o' ∈ accepted_variables bccaq_variables /\ o' <> var)
      by (intros; apply Hothers; now right).
    destruct (Hothers o (or_introl eq_refl)) as [Hacc Hne].
    fold fname in Hrun.
    assert (Hname : PyStr.replace_first var o fname = o +:+ "_" +:+ tail)
      by apply StrFacts.replace_first_prefixed.
    assert (Hdiff : PyStr.replace_first var o fname <> fname).
    { rewrite Hname. unfold fname. intros Heq.
      apply StrFacts.append_inv_tail in Heq. contradiction. }
    destruct (filenames !! PyStr.replace_first var o fname) as [other|] eqn:Hget.
    2: { exact (IH _ _ Hrest Hnamed Haround Hnd Hout Hrun). }
    destruct (Hnamed _ _ Hget) as [Hother Hin].
    assert (Hfresh : ~ In (name other) (group_names group)).
    { intros Hold. destruct (Hout _ Hold) as [Hnone _].
      rewrite Hother, Hget in Hnone. discriminate. }
    specialize (IH (dict_set o other group)
                  (delete (PyStr.replace_first var o fname) filenames) Hrest).
    destruct IH as (H1 & H2 & H3 & H4 & H5 & H6 & H7); [| | | |exact Hrun|].
    + intros n f [Hne' Hold]%lookup_delete_Some. now apply Hnamed.
    + intros v f Hentry.
      destruct (DictFacts.dict_set_in _ _ _ _ Hentry) as [[= -> ->]|Hold];
        [auto | now apply Haround].
    + now apply group_names_nodup.
    + intros n Hn. destruct (group_names_set _ _ _ _ Hn) as [->|Hold].
      * rewrite Hother. split; [apply lookup_delete_eq | exact Hdiff].
      * destruct (Hout _ Hold) as [Hnone Hnf]. split; [|exact Hnf].
        apply lookup_delete_None. now right.
    + split; [assumption|]. split; [assumption|]. split; [assumption|].
      split; [assumption|]. split; [|split].
      * intros n Hnone. apply H5. apply lookup_delete_None. now right.
      * rewrite H6. now apply lookup_delete_ne.
      * intros n Hn. destruct (H7 _ Hn) as [Hset|Hsome].
        -- destruct (group_names_set _ _ _ _ Hset) as [->|Hold]; [|now left].
           right. rewrite Hother, Hget. eauto.
        -- right. apply lookup_delete_is_Some in Hsome. tauto.
Qed.

(** The loop over the accepted variables, for a file whose name is
    still in the dict: when it finds a variable, it makes a group and
    never raises. *)
Lemma group_of_groups file vars : forall filenames r,
  (forall v, In v vars -> v ∈ accepted_variables bccaq_variables) ->
  In file files ->
  named_files files filenames ->
  is_Some (filenames !! name file) ->
  group_of bccaq_variables set_order file vars filenames = Some r ->
  exists group filenames',
    r = inr (group, filenames')
    /\ named_files files filenames'
    /\ well_grouped bccaq_variables files group
    /\ List.NoDup (group_names group)
    /\ (forall n, In n (group_names group) ->
          filenames' !! n = None /\ is_Some (filenames !! n))
    /\ (forall n, filenames !! n = None -> filenames' !! n = None).
Proof.
  induction vars as [|var vars IH]; intros filenames r Hvars Hfile Hnamed Hthere Hrun;
    cbn [group_of] in Hrun; [discriminate|].
  destruct (PyStr.startswith (name file) (var +:+ "_")) eqn:Hstart.
  2: { apply (IH _ _ (fun v Hv => Hvars v (or_intror Hv)) Hfile Hnamed Hthere Hrun). }
  destruct (StrFacts.startswith_inv _ _ Hstart) as (tail & Hname).
  destruct (add_others (name file) var
              (set_order (accepted_variables bccaq_variables ∖ {[var]}))
              [] filenames) as [group1 filenames1] eqn:Hadd.
  rewrite Hname in Hadd.
  destruct (add_others_moves var tail _ _ _ _ _
              (fun o Ho =>
                 let H := set_order_sound _ _ Ho in
                 conj (proj1 (proj1 (elem_of_difference _ _ _) H))
                      (fun Heq => proj2 (proj1 (elem_of_difference _ _ _) H)
                                    (proj2 (elem_of_singleton _ _) Heq)))
              Hnamed
              (fun v f (Hin : In (v, f) []) => match Hin with end)
              (List.NoDup_nil _)
              (fun n (Hin : In n (group_names [])) => match Hin with end)
              Hadd)
    as (H1 & H2 & H3 & H4 & H5 & H6 & H7).
  rewrite <- Hname in *.
  injection Hrun as <-. unfold dict_del. rewrite H6.
  destruct Hthere as [g Hg]. rewrite Hg.
  exists (dict_set var file group1), (delete (name file) filenames1).
  split; [reflexivity|].
  split.
  { intros n f [_ Hold]%lookup_delete_Some. now apply H1. }
  split.
  { exists var, file. split; [apply DictFacts.dict_set_here|].
    split; [exact Hstart|].
    intros v f Hentry.
    destruct (DictFacts.dict_set_in _ _ _ _ Hentry) as [[= -> ->]|Hold];
      [|now apply H2].
    split; [apply Hvars; now left|]. split; [assumption|].
    rewrite Hname at 2. now rewrite StrFacts.replace_first_prefixed. }
  split.
  { apply group_names_nodup; [assumption|]. intros Hin.
    destruct (H4 _ Hin) as [_ Hne]. now apply Hne. }
  split.
  - intros n Hn. destruct (group_names_set _ _ _ _ Hn) as [->|Hold].
    + split; [apply lookup_delete_eq | eauto].
    + destruct (H4 _ Hold) as [Hnone _]. split.
      * apply lookup_delete_None. now right.
      * destruct (H7 _ Hold) as [[]|Hsome]. exact Hsome.
  - intros n Hnone. apply lookup_delete_None. right. now apply H5.
Qed.

(** The loop over the files. *)
Lemma group_files_groups rest : forall filenames groups,
  (forall f, In f rest -> In f files) ->
  named_files files filenames ->
  Forall (well_grouped bccaq_variables files) groups ->
  List.NoDup (groups_names groups) ->
  (forall n, In n (groups_names groups) -> filenames !! n = None) ->
  exists out,
    group_files bccaq_variables set_order rest filenames groups = inr out
    /\ Forall (well_grouped bccaq_variables files) out
    /\ List.NoDup (groups_names out).
Proof.
  induction rest as [|file rest IH]; intros filenames groups Hrest Hnamed Hall Hnd Hout;
    cbn [group_files].
  - exists groups. auto.
  - assert (Hrest' : forall f, In f rest -> In f files)
      by (intros; apply Hrest; now right).
    destruct (filenames !! name file) as [g|] eqn:Hget; [|now apply IH].
    destruct (group_of bccaq_variables set_order file
                (set_order (accepted_variables bccaq_variables)) filenames)
      as [r|] eqn:Hgroup; [|now apply IH].
    destruct (group_of_groups _ _ _ _ (set_order_sound _) (Hrest _ (or_introl eq_refl))
                Hnamed (ex_intro _ g Hget) Hgroup)
      as (group & filenames' & -> & H1 & H2 & H3 & H4 & H5).
    apply IH; [assumption | assumption | | |].
    + apply Forall_app. split; [assumption|]. constructor; [assumption | constructor].
    + unfold groups_names. rewrite flat_map_app. cbn [flat_map]. rewrite app_nil_r.
      apply List.NoDup_app; [assumption | assumption |].
      intros n Hold Hnew. destruct (H4 _ Hnew) as [_ [x Hsome]].
      rewrite (Hout _ Hold) in Hsome. discriminate.
    + unfold groups_names. rewrite flat_map_app. cbn [flat_map]. rewrite app_nil_r.
      intros n [Hold|Hnew]%in_app_iff.
      * apply H5. now apply Hout.
      * now apply H4.
Qed.

(** [make_file_groups] returns for every list of files, without raising.
    Every group it returns is made around an anchor file, whose name
    starts with an accepted variable and an underscore: each entry of the
    group maps an accepted variable [v] to a file of the list whose name
    is the name of the anchor with its leading variable replaced by [v].
    No two entries, of one group or of two, hold files of the same name:
    a file is in at most one group.  A file whose name starts with no
    accepted variable and underscore is in no group. *)
Theorem make_file_groups_groups :
  exists groups,
    make_file_groups bccaq_variables set_order files = inr groups
    /\ Forall (well_grouped bccaq_variables files) groups
    /\ List.NoDup (groups_names groups)
    /\ forall f,
         (forall v, v ∈ accepted_variables bccaq_variables ->
                    PyStr.startswith (name f) (v +:+ "_") = false) ->
         forall group v, In group groups -> ~ In (v, f) group.
Proof.
  destruct (group_files_groups files (by_name files) [])
    as (groups & Hrun & Hall & Hnd); auto.
  - apply by_name_named; [|auto]. intros n f. now rewrite lookup_empty.
  - constructor.
  - intros n [].
  - exists groups. split; [exact Hrun|]. split; [exact Hall|]. split; [exact Hnd|].
    intros f Hnone group v Hgroup Hentry.
    rewrite List.Forall_forall in Hall.
    destruct (Hall _ Hgroup) as (var & file & _ & Hstart & Haround).
    destruct (Haround _ _ Hentry) as (Hacc & _ & Hname).
    destruct (StrFacts.startswith_inv _ _ Hstart) as (tail & Hfile).
    rewrite Hfile, StrFacts.replace_first_prefixed in Hname.
    specialize (Hnone v Hacc).
    rewrite Hname, StrFacts.startswith_append in Hnone. discriminate.
Qed.

End FileGroupsFacts.

(* ===================================================================== *)
(** ** [make_file_groups]: the files of one tail go together *)
(* ===================================================================== *)

Module UnderscoreFacts.

Lemma contains_cons sub c s :
  PyStr.contains sub (String c s) = String.prefix sub (String c s) || PyStr.contains sub s.
Proof. reflexivity. Qed.

(** A string without underscore that comes before an underscore is
    found again by cutting at the first underscore. *)
Lemma cut_unique (v1 v2 t1 t2 : string) :
  PyStr.contains "_" v1 = false ->
  PyStr.contains "_" v2 = false ->
  v1 +:+ "_" +:+ t1 = v2 +:+ "_" +:+ t2 ->
  v1 = v2 /\ t1 = t2.
Proof.
  revert v2. induction v1 as [|c v1 IH]; intros [|d v2] H1 H2 Heq.
  - cbn [String.append] in Heq. injection Heq as ->. split; reflexivity.
  - cbn [String.append] in Heq. injection Heq as <- _.
    rewrite contains_cons in H2. cbn in H2. destruct v2; discriminate H2.
  - cbn [String.append] in Heq. injection Heq as -> _.
    rewrite contains_cons in H1. cbn in H1. destruct v1; discriminate H1.
  - cbn [String.append] in Heq. injection Heq as -> Heq.
    rewrite contains_cons in H1, H2.
    apply orb_false_iff in H1 as [_ H1]. apply orb_false_iff in H2 as [_ H2].
    destruct (IH _ H1 H2 Heq) as [-> ->]. split; reflexivity.
Qed.

Lemma append_inv_head (a t1 t2 : string) : a +:+ t1 = a +:+ t2 -> t1 = t2.
Proof.
  induction a as [|c a IH]; cbn [String.append]; [auto|].
  intros [= Heq]. auto.
Qed.

Lemma cut_same (v t1 t2 : string) :
  v +:+ "_" +:+ t1 = v +:+ "_" +:+ t2 -> t1 = t2.
Proof. intros Heq%append_inv_head. now injection Heq. Qed.

End UnderscoreFacts.

Section FileGroupsTogether.

Variable bccaq_variables : gset string.
Variable set_order : gset string -> list string.
Variable files : list Path.

(** Iterating over a set yields the elements of the set, all of them. *)
Hypothesis set_order_sound :
  forall (s : gset string) x, In x (set_order s) -> x ∈ s.
Hypothesis set_order_complete :
  forall (s : gset string) x, x ∈ s -> In x (set_order s).

(** No two files have the same name. *)
Hypothesis names_distinct : List.NoDup (map name files).

(** The names of the variables of the dataset hold no underscore. *)
Hypothesis no_underscore :
  forall v, v ∈ bccaq_variables -> PyStr.contains "_" v = false.

Lemma accepted_no_underscore v :
  v ∈ accepted_variables bccaq_variables -> PyStr.contains "_" v = false.
Proof.
  unfold accepted_variables. intros [Hv|Hv]%elem_of_union; [now apply no_underscore|].
  apply elem_of_list_to_set, list_elem_of_In in Hv. cbn in Hv.
  repeat destruct Hv as [<-|Hv]; try reflexivity. destruct Hv.
Qed.

Lemma same_name f g : In f files -> In g files -> name f = name g -> f = g.
Proof.
  clear set_order_sound set_order_complete no_underscore.
  induction files as [|h l IH]; [intros []|].
  apply List.NoDup_cons_iff in names_distinct as [Hh Hl].
  intros [<-|Hf] [<-|Hg] Heq; [reflexivity | | |now apply IH].
  - exfalso. apply Hh. rewrite Heq. now apply in_map.
  - exfalso. apply Hh. rewrite <- Heq. now apply in_map.
Qed.

Lemma fold_insert_other (l : list Path) n : forall d : gmap string Path,
  ~ In n (map name l) ->
  fold_left (fun d f => <[name f := f]> d) l d !! n = d !! n.
Proof.
  induction l as [|f l IH]; intros d Hn; cbn [fold_left]; [reflexivity|].
  rewrite IH by (intros Hin; apply Hn; now right).
  apply lookup_insert_ne. intros Heq. apply Hn. now left.
Qed.

Lemma by_name_lookup f : In f files -> by_name files !! name f = Some f.
Proof.
  clear set_order_sound set_order_complete no_underscore.
  unfold by_name. generalize (∅ : gmap string Path).
  induction files as [|h l IH]; intros d; [intros []|].
  apply List.NoDup_cons_iff in names_distinct as [Hh Hl].
  cbn [fold_left]. intros [<-|Hf].
  - rewrite fold_insert_other by assumption. apply lookup_insert_eq.
  - now apply IH.
Qed.

Lemma dict_set_keeps {V} k (v : V) d k' v' :
  In (k', v') d -> k' <> k -> In (k', v') (dict_set k v d).
Proof.
  intros Hin Hne. induction d as [|[k0 v0] d IH]; [destruct Hin|].
  cbn [dict_set]. destruct (String.eqb k k0) eqn:Hk.
  - apply String.eqb_eq in Hk as <-.
    destruct Hin as [[= <- <-]|Hin]; [contradiction | now right].
  - destruct Hin as [Heq|Hin]; [now left | right; now apply IH].
Qed.

(** The loop over the other variables takes every file of the tail
    that is in the dict, and nothing else. *)
Lemma add_others_takes var tail others : forall group filenames group' filenames',
  let fname := var +:+ "_" +:+ tail in
  (forall o, In o others -> o <> var) ->
  (forall o f, In (o, f) group -> filenames !! (o +:+ "_" +:+ tail) = None) ->
  add_others fname var others group filenames = (group', filenames') ->
  (forall e, In e group -> In e group')
  /\ (forall o f, In o others -> filenames !! (o +:+ "_" +:+ tail) = Some f ->
        In (o, f) group')
  /\ (forall n f, filenames' !! n = Some f -> filenames !! n = Some f)
  /\ (forall o, In o others -> filenames' !! (o +:+ "_" +:+ tail) = None)
  /\ (forall n, (forall o, In o others -> n <> o +:+ "_" +:+ tail) ->
        filenames' !! n = filenames !! n).
Proof.
  intros group filenames group' filenames' fname. revert group filenames.
  induction others as [|o others IH]; intros group filenames Hothers Hpre Hrun;
    cbn [add_others] in Hrun.
  - injection Hrun as <- <-.
    split; [auto|]. split; [intros o f []|]. split; [auto|].
    split; [intros o []|]. reflexivity.
  - assert (Hrest : forall o', In o' others -> o' <> var)
      by (intros; apply Hothers; now right).
    unfold fname in Hrun. rewrite !StrFacts.replace_first_prefixed in Hrun.
    fold fname in Hrun.
    destruct (filenames !! (o +:+ "_" +:+ tail)) as [other|] eqn:Hget.
    + specialize (IH (dict_set o other group)
                    (delete (o +:+ "_" +:+ tail) filenames) Hrest).
      destruct IH as (A & B & C1 & C2 & C3); [|exact Hrun|].
      { intros o' f Hentry.
        destruct (DictFacts.dict_set_in _ _ _ _ Hentry) as [[= -> ->]|Hold].
        - apply lookup_delete_eq.
        - apply lookup_delete_None. right. now apply (Hpre o' f). }
      assert (Hnone : forall n f, filenames' !! n = Some f ->
                        n <> o +:+ "_" +:+ tail).
      { intros n f Hn ->. apply C1 in Hn. rewrite lookup_delete_eq in Hn.
        discriminate. }
      split; [|split; [|split; [|split]]].
      * intros [k v] Hin. apply A. apply dict_set_keeps; [assumption|].
        intros ->. rewrite (Hpre _ _ Hin) in Hget. discriminate.
      * intros o' f Ho' Hf. destruct (String.eqb_spec o' o) as [->|Hne].
        -- rewrite Hget in Hf. injection Hf as <-.
           apply A, DictFacts.dict_set_here.
        -- destruct Ho' as [->|Ho']; [contradiction|].
           apply B; [assumption|]. rewrite lookup_delete_ne; [assumption|].
           intros Heq. apply StrFacts.append_inv_tail in Heq. now apply Hne.
      * intros n f Hn. specialize (C1 _ _ Hn).
        apply lookup_delete_Some in C1. tauto.
      * intros o' [<-|Ho']; [|now apply C2].
        destruct (filenames' !! (o +:+ "_" +:+ tail)) as [f|] eqn:Hf; [|reflexivity].
        exfalso. now apply (Hnone _ _ Hf).
      * intros n Hn. rewrite C3 by (intros; apply Hn; now right).
        apply lookup_delete_ne. intros Heq. apply (Hn o); [now left | now symmetry].
    + destruct (IH _ _ Hrest Hpre Hrun) as (A & B & C1 & C2 & C3).
      split; [assumption|]. split; [|split; [assumption|split]].
      * intros o' f [<-|Ho'] Hf; [rewrite Hget in Hf; discriminate | now apply B].
      * intros o' [<-|Ho']; [|now apply C2].
        destruct (filenames' !! (o +:+ "_" +:+ tail)) as [f|] eqn:Hf; [|reflexivity].
        apply C1 in Hf. rewrite Hget in Hf. discriminate.
      * intros n Hn. apply C3. intros; apply Hn; now right.
Qed.

(** The loop over the accepted variables finds the variable of a
    prefixed file. *)
Lemma group_of_none file vars filenames :
  group_of bccaq_variables set_order file vars filenames = None ->
  forall v, In v vars -> PyStr.startswith (name file) (v +:+ "_") = false.
Proof.
  induction vars as [|var vars IH]; cbn [group_of]; [intros _ v []|].
  destruct (PyStr.startswith (name file) (var +:+ "_")) eqn:Hstart.
  - destruct (add_others _ _ _ _ _). discriminate.
  - intros Hnone v [<-|Hv]; [assumption | now apply IH].
Qed.

(** The group made for a file: it holds the file and every file of its
    tail that is in the dict, which lose their place in the dict; the
    other names stay. *)
Lemma group_of_takes file vars : forall filenames group filenames',
  (forall v, In v vars -> v ∈ accepted_variables bccaq_variables) ->
  group_of bccaq_variables set_order file vars filenames
  = Some (inr (group, filenames')) ->
  exists var tail,
    var ∈ accepted_variables bccaq_variables
    /\ name file = var +:+ "_" +:+ tail
    /\ In (var, file) group
    /\ (forall o f, o ∈ accepted_variables bccaq_variables -> o <> var ->
          filenames !! (o +:+ "_" +:+ tail) = Some f -> In (o, f) group)
    /\ (forall n f, filenames' !! n = Some f -> filenames !! n = Some f)
    /\ (forall o, o ∈ accepted_variables bccaq_variables ->
          filenames' !! (o +:+ "_" +:+ tail) = None)
    /\ (forall n, (forall o, o ∈ accepted_variables bccaq_variables ->
                             n <> o +:+ "_" +:+ tail) ->
          filenames' !! n = filenames !! n).
Proof.
  induction vars as [|var vars IH]; intros filenames group filenames' Hvars Hrun;
    cbn [group_of] in Hrun; [discriminate|].
  destruct (PyStr.startswith (name file) (var +:+ "_")) eqn:Hstart.
  2: { apply (IH _ _ _ (fun v Hv => Hvars v (or_intror Hv)) Hrun). }
  destruct (StrFacts.startswith_inv _ _ Hstart) as (tail & Hname).
  destruct (add_others (name file) var
              (set_order (accepted_variables bccaq_variables ∖ {[var]}))
              [] filenames) as [group1 filenames1] eqn:Hadd.
  rewrite Hname in Hadd.
  assert (Hothers : forall o,
            In o (set_order (accepted_variables bccaq_variables ∖ {[var]})) ->
            o <> var).
  { intros o Ho%set_order_sound. apply elem_of_difference in Ho as [_ Ho].
    intros ->. apply Ho. now apply elem_of_singleton. }
  destruct (add_others_takes var tail _ _ _ _ _ Hothers
              (fun o f (Hin : In (o, f) []) => match Hin with end) Hadd)
    as (A & B & C1 & C2 & C3).
  unfold dict_del in Hrun.
  destruct (filenames1 !! name file) as [g|] eqn:Hfile; [|discriminate Hrun].
  injection Hrun as <- <-.
  assert (Hin_others : forall o, o ∈ accepted_variables bccaq_variables -> o <> var ->
            In o (set_order (accepted_variables bccaq_variables ∖ {[var]}))).
  { intros o Ho Hne. apply set_order_complete. apply elem_of_difference.
    split; [assumption|]. intros Heq%elem_of_singleton. contradiction. }
  exists var, tail.
  split; [apply Hvars; now left|]. split; [exact Hname|].
  split; [apply DictFacts.dict_set_here|].
  split.
  { intros o f Ho Hne Hf. apply dict_set_keeps; [|assumption].
    apply B; [now apply Hin_others | assumption]. }
  split.
  { intros n f [_ Hn]%lookup_delete_Some. now apply C1. }
  split.
  { intros o Ho. destruct (String.eqb_spec o var) as [->|Hne].
    - rewrite <- Hname. apply lookup_delete_eq.
    - apply lookup_delete_None. right. apply C2. now apply Hin_others. }
  intros n Hn. rewrite lookup_delete_ne.
  - apply C3. intros o Ho%set_order_sound. apply Hn.
    now apply elem_of_difference in Ho as [Ho _].
  - rewrite Hname. intros <-. apply (Hn var); [apply Hvars; now left | reflexivity].
Qed.

Lemma prefixed_tail f v tail v' tail' :
  prefixed bccaq_variables files f v tail ->
  v' ∈ accepted_variables bccaq_variables ->
  name f = v' +:+ "_" +:+ tail' ->
  v = v' /\ tail = tail'.
Proof.
  intros (_ & Hv & Hname) Hv' Hname'. rewrite Hname in Hname'.
  apply UnderscoreFacts.cut_unique; auto using accepted_no_underscore.
Qed.

(** The loop over the files keeps the grouping. *)
Lemma group_files_grouping rest : forall filenames groups out,
  (forall f, In f rest -> In f files) ->
  named_files files filenames ->
  grouping bccaq_variables files rest filenames groups ->
  group_files bccaq_variables set_order rest filenames groups = inr out ->
  exists filenames', grouping bccaq_variables files [] filenames' out.
Proof.
  induction rest as [|file rest IH]; intros filenames groups out Hrest Hnamed Hinv Hrun;
    cbn [group_files] in Hrun.
  - injection Hrun as <-. now exists filenames.
  - assert (Hrest' : forall f, In f rest -> In f files)
      by (intros; apply Hrest; now right).
    assert (Hfile : In file files) by (apply Hrest; now left).
    destruct Hinv as (I1 & I2 & I3 & I4).
    destruct (filenames !! name file) as [g|] eqn:Hget.
    2: { refine (IH _ _ _ Hrest' Hnamed _ Hrun).
         split; [|split; [|split]]; auto.
         intros f v tail Hf Hin. destruct (I1 _ _ _ Hf Hin) as [<-|]; [|assumption].
         rewrite Hget in Hin. discriminate. }
    assert (g = file) as ->.
    { destruct (Hnamed _ _ Hget) as [Hname Hg]. now apply same_name. }
    destruct (group_of bccaq_variables set_order file
                (set_order (accepted_variables bccaq_variables)) filenames)
      as [[e|[group filenames']]|] eqn:Hgroup.
    + discriminate Hrun.
    + destruct (group_of_takes _ _ _ _ _ (set_order_sound _) Hgroup)
        as (var & tail & Hvar & Hname & Hanchor & Htaken & C1 & C2 & C3).
      assert (Hclass : forall f v, prefixed bccaq_variables files f v tail ->
                         In (v, f) group).
      { intros f v Hf.
        assert (Hf_there : filenames !! name f = Some f)
          by (apply (I3 file var f v tail); [split; [|split] | |]; auto).
        destruct Hf as (Hin & Hv & Hfname).
        destruct (String.eqb_spec v var) as [->|Hne].
        - assert (f = file) as -> by (apply same_name; congruence). assumption.
        - apply Htaken; [assumption | assumption |]. now rewrite <- Hfname. }
      assert (Hnamed' : named_files files filenames')
        by (intros n f Hn; apply Hnamed; now apply C1).
      refine (IH _ _ _ Hrest' Hnamed' _ Hrun).
      split; [|split; [|split]].
      * intros f v t Hf Hn. pose proof (C1 _ _ Hn) as Hold.
        destruct (I1 _ _ _ Hf Hold) as [<-|]; [|assumption].
        rewrite Hname, (C2 var Hvar) in Hn. discriminate.
      * intros f v t Hf.
        destruct (String.eqb_spec t tail) as [->|Hne].
        -- right. exists group. split; [apply in_or_app; right; now left|].
           now apply Hclass.
        -- destruct (I2 _ _ _ Hf) as [Hthere|(g & Hg & Hentry)].
           ++ left. rewrite C3; [assumption|].
              intros o Ho Heq. destruct (prefixed_tail _ _ _ _ _ Hf Ho Heq) as [_ ?].
              contradiction.
           ++ right. exists g. split; [apply in_or_app; now left | assumption].
      * intros f1 v1 f2 v2 t Hf1 Hf2 Hn.
        pose proof (C1 _ _ Hn) as Hold.
        assert (Hne : t <> tail).
        { intros ->. destruct Hf1 as (_ & Hv1 & Hname1).
          rewrite Hname1, (C2 v1 Hv1) in Hn. discriminate. }
        rewrite C3; [now apply (I3 f1 v1 f2 v2 t)|].
        intros o Ho Heq. destruct (prefixed_tail _ _ _ _ _ Hf2 Ho Heq) as [_ ?].
        contradiction.
      * intros f1 v1 f2 v2 t g Hf1 Hf2 [Hg|[<-|[]]]%in_app_iff Hentry.
        -- now apply (I4 f1 v1 f2 v2 t g).
        -- assert (t = tail) as ->; [|now apply Hclass].
           destruct (group_of_groups bccaq_variables set_order files set_order_sound
                       file _ _ _ (set_order_sound _) Hfile Hnamed
                       (ex_intro _ file Hget) Hgroup)
             as (group0 & filenames0 & [= <- <-] & _ & Hwell & _).
           destruct Hwell as (avar & afile & Ha & Hstart & Haround).
           destruct (StrFacts.startswith_inv _ _ Hstart) as (atail & Haname).
           destruct (Haround _ _ Hanchor) as (_ & _ & Hfile_name).
           destruct (Haround _ _ Hentry) as (_ & _ & Hf1_name).
           rewrite Haname, StrFacts.replace_first_prefixed in Hfile_name, Hf1_name.
           rewrite Hname in Hfile_name.
           apply UnderscoreFacts.cut_same in Hfile_name as <-.
           destruct Hf1 as (_ & _ & Hname1). rewrite Hname1 in Hf1_name.
           now apply UnderscoreFacts.cut_same in Hf1_name.
    + refine (IH _ _ _ Hrest' Hnamed _ Hrun).
      pose proof (group_of_none _ _ _ Hgroup) as Hnone.
      split; [|split; [|split]]; auto.
      intros f v t Hf Hin. destruct (I1 _ _ _ Hf Hin) as [<-|]; [|assumption].
      destruct Hf as (_ & Hv & Hfname).
      specialize (Hnone v (set_order_complete _ _ Hv)).
      rewrite Hfname, StrFacts.startswith_append in Hnone. discriminate.
Qed.

(** When no two files have the same name, [make_file_groups] puts the
    files whose names differ only in the accepted variable they start
    with into one group, each under its variable: every file whose name
    is an accepted variable, an underscore and a tail is in a group, and
    two such files with the same tail are in the same group. *)
Theorem make_file_groups_together :
  exists groups,
    make_file_groups bccaq_variables set_order files = inr groups
    /\ forall f1 v1 f2 v2 tail,
         In f1 files -> In f2 files ->
         v1 ∈ accepted_variables bccaq_variables ->
         v2 ∈ accepted_variables bccaq_variables ->
         name f1 = v1 +:+ "_" +:+ tail ->
         name f2 = v2 +:+ "_" +:+ tail ->
         exists group, In group groups /\ In (v1, f1) group /\ In (v2, f2) group.
Proof.
  assert (Hnamed : named_files files (by_name files)).
  { apply by_name_named; [|auto]. intros n f. now rewrite lookup_empty. }
  destruct (group_files_groups bccaq_variables set_order files set_order_sound
              files (by_name files) [])
    as (groups & Hrun & _); [auto | exact Hnamed | constructor | constructor
                             | intros n [] |].
  exists groups. split; [exact Hrun|].
  destruct (group_files_grouping files (by_name files) [] groups) as (d & Hinv);
    [auto | exact Hnamed | | exact Hrun |].
  - split; [|split; [|split]].
    + intros f v t (Hf & _) _. exact Hf.
    + intros f v t (Hf & _). left. now apply by_name_lookup.
    + intros f1 v1 f2 v2 t _ (Hf2 & _) _. now apply by_name_lookup.
    + intros f1 v1 f2 v2 t g _ _ [].
  - destruct Hinv as (I1 & I2 & _ & I4).
    intros f1 v1 f2 v2 tail Hf1 Hf2 Hv1 Hv2 Hn1 Hn2.
    assert (P1 : prefixed bccaq_variables files f1 v1 tail) by (split; [|split]; auto).
    assert (P2 : prefixed bccaq_variables files f2 v2 tail) by (split; [|split]; auto).
    destruct (I2 _ _ _ P1) as [Hthere|(g & Hg & Hentry)].
    + destruct (I1 _ _ _ P1 Hthere).
    + exists g. split; [assumption|]. split; [assumption|].
      now apply (I4 f1 v1 f2 v2 tail g).
Qed.



End FileGroupsTogether.

(* ===================================================================== *)
(** ** The dataset functions: the other parsing methods, and the case of
    the model names *)
(* ===================================================================== *)

Module LowerFacts.

Lemma lower_char_idem c : PyStr.lower_char (PyStr.lower_char c) = PyStr.lower_char c.
Proof. destruct c as [[] [] [] [] [] [] [] []]; reflexivity. Qed.

Lemma lower_idem s : PyStr.lower (PyStr.lower s) = PyStr.lower s.
Proof.
  induction s as [|c s IH]; [reflexivity|].
  cbn [PyStr.lower]. now rewrite lower_char_idem, IH.
Qed.

Lemma map_lower_idem l : map PyStr.lower (map PyStr.lower l) = map PyStr.lower l.
Proof.
  induction l as [|s l IH]; [reflexivity|].
  cbn [map]. now rewrite lower_idem, IH.
Qed.

End LowerFacts.

Section DatasetFacts.

Variable ALL_24_MODELS : string.
Variable BCCAQV2_MODELS : list string.
Variable PCIC_12 : string.
Variable PCIC_12_MODELS_REALIZATIONS : list (string * string).
Variable glob_nc : string -> list Path.
Variable TDSCatalog : string -> list (string * string).

(** With a parsing method other than [filename], the dataset functions
    raise [NotImplementedError] at the first entry of the catalog, or of
    the directory; only for an empty one do they return, the empty
    list. *)
Theorem other_methods_not_implemented method catalog_url variables rcp models :
  method <> filename ->
  get_bccaqv2_opendap_datasets ALL_24_MODELS BCCAQV2_MODELS PCIC_12
    PCIC_12_MODELS_REALIZATIONS TDSCatalog catalog_url variables rcp method models
  = match TDSCatalog catalog_url with
    | [] => inr []
    | _ :: _ => inl (NotImplementedError "todo: filter models and runs")
    end
  /\ get_bccaqv2_local_files_datasets ALL_24_MODELS BCCAQV2_MODELS PCIC_12
       PCIC_12_MODELS_REALIZATIONS glob_nc catalog_url variables rcp method models
     = match glob_nc catalog_url with
       | [] => inr []
       | _ :: _ => inl (NotImplementedError "todo: filter models and runs")
       end.
Proof.
  intros Hmethod.
  unfold get_bccaqv2_opendap_datasets, get_bccaqv2_local_files_datasets.
  split.
  - destruct (TDSCatalog catalog_url) as [|[fname url] entries]; [reflexivity|].
    destruct method; [contradiction | reflexivity..].
  - destruct (glob_nc catalog_url) as [|file entries]; [reflexivity|].
    destruct method; [contradiction | reflexivity..].
Qed.

Lemma selected_models_lower ms :
  selected_models ALL_24_MODELS BCCAQV2_MODELS (Some (map PyStr.lower ms))
  = selected_models ALL_24_MODELS BCCAQV2_MODELS (Some ms).
Proof.
  unfold selected_models. rewrite LowerFacts.map_lower_idem.
  destruct (list_str_eqb (map PyStr.lower ms) [PyStr.lower ALL_24_MODELS]);
    [reflexivity | apply LowerFacts.map_lower_idem].
Qed.

(** The filter takes the names of the models without regard to the case
    of their letters: the names in lower case select the same files. *)
Theorem models_case_insensitive method fname url variables rcp ms :
  _bccaqv2_filter ALL_24_MODELS BCCAQV2_MODELS PCIC_12 PCIC_12_MODELS_REALIZATIONS
    method fname url variables rcp (Some (map PyStr.lower ms))
  = _bccaqv2_filter ALL_24_MODELS BCCAQV2_MODELS PCIC_12 PCIC_12_MODELS_REALIZATIONS
      method fname url variables rcp (Some ms).
Proof. unfold _bccaqv2_filter. now rewrite selected_models_lower. Qed.

End DatasetFacts.

(* ===================================================================== *)
(** ** [make_output_filename] *)
(* ===================================================================== *)

Section OutputFilenameFacts.

Context `{Externals}.

Lemma join_snoc sep l x :
  l <> [] -> PyStr.join sep (l ++ [x]) = PyStr.join sep l +:+ sep +:+ x.
Proof.
  induction l as [|a l IH]; [congruence|]. intros _.
  destruct l as [|b l]; [reflexivity|].
  change (PyStr.join sep ((a :: b :: l) ++ [x]))
    with (a +:+ sep +:+ PyStr.join sep ((b :: l) ++ [x])).
  rewrite IH by discriminate.
  change (PyStr.join sep (a :: b :: l)) with (a +:+ sep +:+ PyStr.join sep (b :: l)).
  now rewrite !ParseFacts.append_assoc.
Qed.

(** With a scenario given, the output filename ends with an underscore
    and the scenario; what comes before does not depend on it. *)
Lemma output_filename_rcp process inputs rcp fname :
  rcp <> "" ->
  make_output_filename process inputs (Some rcp) = inr fname ->
  exists base,
    make_output_filename process inputs (Some "") = inr base
    /\ fname = base +:+ "_" +:+ rcp.
Proof.
  intros Hrcp. unfold make_output_filename.
  repeat match goal with
         | |- context [match ?x with inl _ => _ | inr _ => _ end] =>
             destruct x; try discriminate
         end.
  assert (Htrue : truthy_str (Some rcp) = true) by (destruct rcp; [congruence | reflexivity]).
  intros Heq.
  match type of Heq with inr ?x = _ => assert (Hf : fname = x) by congruence end.
  clear Heq. eexists. split; [reflexivity|]. rewrite Hf, Htrue.
  change (truthy_str (Some "")) with false. cbv iota.
  change (default "" (Some rcp)) with rcp.
  rewrite app_nil_r, !app_assoc. apply join_snoc.
  intros Hnil. apply (f_equal (@length string)) in Hnil.
  rewrite !length_app in Hnil. cbn [length] in Hnil. lia.
Qed.

(** The scenarios of one request get different output filenames, so
    their files do not collide. *)
Theorem output_filenames_differ process inputs rcp1 rcp2 fname1 fname2 :
  rcp1 <> "" -> rcp2 <> "" -> rcp1 <> rcp2 ->
  make_output_filename process inputs (Some rcp1) = inr fname1 ->
  make_output_filename process inputs (Some rcp2) = inr fname2 ->
  fname1 <> fname2.
Proof.
  intros H1 H2 Hne Hf1 Hf2.
  destruct (output_filename_rcp _ _ _ _ H1 Hf1) as (base1 & Hb1 & ->).
  destruct (output_filename_rcp _ _ _ _ H2 Hf2) as (base2 & Hb2 & ->).
  rewrite Hb1 in Hb2. injection Hb2 as <-.
  intros Heq. apply Hne. now apply UnderscoreFacts.cut_same in Heq.
Qed.

End OutputFilenameFacts.

(* ===================================================================== *)
(** ** [make_indicator_inputs] *)
(* ===================================================================== *)

Section IndicatorInputsFacts.

Context `{Externals}.
Variable bccaq_variables : gset string.
Variable set_order : gset string -> list string.

(** When the indicator takes one variable of the datasets, there is one
    set of inputs for each file, in the order of the files: the inputs of
    the request with the variable bound to the file.  The names of the
    files play no part. *)
Theorem indicator_inputs_one_variable indicator wps_inputs files variable_name :
  set_order (accepted_variables bccaq_variables
             ∩ list_to_set (indicator_parameters indicator)) = [variable_name] ->
  exists input_list,
    make_indicator_inputs bccaq_variables set_order indicator wps_inputs files
    = inr input_list
    /\ length input_list = length files
    /\ forall i path, nth_error files i = Some path ->
         exists inputs,
           nth_error input_list i = Some inputs
           /\ dict_get variable_name inputs = Some (nc_input path)
           /\ forall k, k <> variable_name -> dict_get k inputs = dict_get k wps_inputs.
Proof.
  intros Hone. unfold make_indicator_inputs. rewrite Hone.
  eexists. split; [reflexivity|]. split; [apply length_map|].
  intros i path Hi. eexists. split; [|split].
  - rewrite nth_error_map, Hi. reflexivity.
  - apply DictFacts.dict_get_set.
  - intros k Hk. now apply DictFacts.dict_get_set_other.
Qed.

(** The inputs made of one group: the variables the indicator takes are
    bound to the files of the group, the other inputs stay. *)
Lemma group_inputs (required : gset string) (group : group_dict) : forall inputs,
  List.NoDup (map fst group) ->
  let inputs' :=
    fold_left (fun inputs '(variable_name, path) =>
                 if bool_decide (variable_name ∈ required)
                 then dict_set variable_name (nc_input path) inputs
                 else inputs)
              group inputs in
  (forall v path, In (v, path) group -> v ∈ required ->
     dict_get v inputs' = Some (nc_input path))
  /\ (forall k, (k ∉ required \/ ~ In k (map fst group)) ->
        dict_get k inputs' = dict_get k inputs).
Proof.
  induction group as [|[v0 p0] group IH]; intros inputs Hnd; cbn [fold_left].
  - split; [intros v path [] | reflexivity].
  - apply List.NoDup_cons_iff in Hnd as [Hv0 Hnd]. cbn [map fst] in Hv0.
    specialize (IH (if bool_decide (v0 ∈ required)
                    then dict_set v0 (nc_input p0) inputs else inputs) Hnd).
    cbv zeta in IH. destruct IH as [IH1 IH2]. split.
    + intros v path [[= -> ->]|Hin] Hv; [|now apply IH1].
      rewrite IH2 by (right; exact Hv0).
      rewrite bool_decide_eq_true_2 by assumption. apply DictFacts.dict_get_set.
    + intros k Hk. rewrite IH2.
      * destruct (bool_decide (v0 ∈ required)) eqn:Hreq; [|reflexivity].
        apply DictFacts.dict_get_set_other. intros ->.
        apply bool_decide_eq_true_1 in Hreq.
        destruct Hk as [Hk|Hk]; [contradiction|]. apply Hk. now left.
      * destruct Hk as [Hk|Hk]; [now left|]. right. intros Hin. apply Hk. now right.
Qed.

Lemma nodup_flat_map {A B} (f : A -> list B) l x :
  List.NoDup (flat_map f l) -> In x l -> List.NoDup (f x).
Proof.
  induction l as [|a l IH]; [intros _ []|]. cbn [flat_map].
  intros Hnd [<-|Hin].
  - exact (List.NoDup_app_remove_r _ _ Hnd).
  - apply IH; [exact (List.NoDup_app_remove_l _ _ Hnd) | assumption].
Qed.

(** The variables of a group of [make_file_groups] are all different. *)
Lemma group_keys_nodup files (group : group_dict) :
  well_grouped bccaq_variables files group ->
  List.NoDup (group_names group) ->
  List.NoDup (map fst group).
Proof.
  intros (var & file & _ & Hstart & Haround) Hnd.
  destruct (StrFacts.startswith_inv _ _ Hstart) as (tail & Hname).
  assert (Hnames : forall e, In e group -> name (snd e) = fst e +:+ "_" +:+ tail).
  { intros [v f] Hin. destruct (Haround _ _ Hin) as (_ & _ & Hf).
    cbn [fst snd]. now rewrite Hf, Hname, StrFacts.replace_first_prefixed. }
  clear Haround. unfold group_names in Hnd.
  induction group as [|[v f] group IH]; [constructor|].
  cbn [map fst snd] in *. apply List.NoDup_cons_iff in Hnd as [Hf Hnd].
  constructor.
  - intros ([v' f'] & Hv & Hin)%in_map_iff. cbn [fst] in Hv. subst v'.
    apply Hf. apply in_map_iff. exists (v, f'). split; [|assumption].
    pose proof (Hnames (v, f') (or_intror Hin)) as E1.
    pose proof (Hnames (v, f) (or_introl eq_refl)) as E2.
    cbn [fst snd] in *. congruence.
  - apply IH; [assumption|]. intros e He. apply Hnames. now right.
Qed.

(** Iterating over a set yields elements of the set. *)
Hypothesis set_order_sound :
  forall (s : gset string) x, In x (set_order s) -> x ∈ s.

(** When the indicator takes several variables of the datasets (or
    none), there is one set of inputs for each group of files, in the
    order of the groups: each variable the indicator takes is bound to
    the file the group has for it, and the other inputs are those of the
    request. *)
Theorem indicator_inputs_groups indicator wps_inputs files :
  length (set_order (accepted_variables bccaq_variables
                     ∩ list_to_set (indicator_parameters indicator))) <> 1%nat ->
  exists groups input_list,
    make_file_groups bccaq_variables set_order files = inr groups
    /\ make_indicator_inputs bccaq_variables set_order indicator wps_inputs files
       = inr input_list
    /\ Forall2
         (fun (group : group_dict) inputs =>
            (forall v path,
               In (v, path) group ->
               v ∈ accepted_variables bccaq_variables
                   ∩ list_to_set (indicator_parameters indicator) ->
               dict_get v inputs = Some (nc_input path))
            /\ forall k,
                 k ∉ accepted_variables bccaq_variables
                     ∩ list_to_set (indicator_parameters indicator) ->
                 dict_get k inputs = dict_get k wps_inputs)
         groups input_list.
Proof.
  intros Hmany.
  assert (Hnamed : named_files files (by_name files)).
  { apply by_name_named; [|auto]. intros n f. now rewrite lookup_empty. }
  destruct (group_files_groups bccaq_variables set_order files set_order_sound
              files (by_name files) [])
    as (groups & Hrun & Hwell & Hnd); [auto | exact Hnamed | constructor | constructor
                                      | intros n [] |].
  exists groups. eexists. split; [exact Hrun|].
  unfold make_indicator_inputs.
  destruct (set_order _) as [|v [|v' l]] eqn:Horder;
    [| exfalso; apply Hmany; reflexivity |].
  all: unfold make_file_groups; rewrite Hrun; split; [reflexivity|].
  all: rewrite List.Forall_forall in Hwell.
  all: assert (Hkeys : forall group, In group groups -> List.NoDup (map fst group))
         by (intros group Hg; apply (group_keys_nodup files);
             [now apply Hwell | exact (nodup_flat_map _ _ _ Hnd Hg)]).
  all: clear Hrun Hnd Hwell; induction groups as [|group groups IH];
         [constructor|].
  all: cbn [map]; constructor;
         [|apply IH; intros g Hg; apply Hkeys; now right].
  all: destruct (group_inputs
                   (accepted_variables bccaq_variables
                    ∩ list_to_set (indicator_parameters indicator))
                   group wps_inputs (Hkeys _ (or_introl eq_refl))) as [G1 G2].
  all: split; [exact G1 | intros k Hk; apply G2; now left].
Qed.

End IndicatorInputsFacts.

(* ===================================================================== *)
(** ** [chunk_dataset] *)
(* ===================================================================== *)

Module ChunksFacts.
Import Chunks.

Local Open Scope Z_scope.

Lemma fold_left_mul values : forall a, fold_left Z.mul values a = a * product values.
Proof.
  induction values as [|v values IH]; intros a; cbn [fold_left product fold_right].
  - lia.
  - rewrite IH. unfold product. lia.
Qed.

Lemma chunk_size_product chunks :
  chunks <> [] -> chunk_size chunks = inr (product (map snd chunks)).
Proof.
  destruct chunks as [|[k v] chunks]; [congruence|]. intros _.
  unfold chunk_size. cbn [map snd]. now rewrite fold_left_mul.
Qed.

Lemma product_nonneg values : Forall (fun v => 0 <= v) values -> 0 <= product values.
Proof.
  induction 1 as [|v values Hv _ IH]; cbn [product fold_right]; [lia|].
  fold (product values). nia.
Qed.

(** A product of sizes that is positive has no factor 0. *)
Lemma product_positive values :
  Forall (fun v => 0 <= v) values -> 0 < product values ->
  Forall (fun v => 1 <= v) values.
Proof.
  induction 1 as [|v values Hv Hall IH]; [constructor|].
  cbn [product fold_right]. fold (product values). intros Hpos.
  pose proof (product_nonneg _ Hall).
  constructor; [nia | apply IH; nia].
Qed.

(** A product of sizes that is 2 or more has a factor that is. *)
Lemma product_factor values :
  Forall (fun v => 1 <= v) values -> 2 <= product values ->
  Exists (fun v => 2 <= v) values.
Proof.
  induction 1 as [|v values Hv Hall IH]; cbn [product fold_right]; [lia|].
  fold (product values). intros Hp.
  destruct (Z_lt_le_dec v 2) as [Hlt|Hge]; [|now left].
  right. apply IH. assert (v = 1) by lia. subst v. lia.
Qed.

Lemma keys_set k (v : Z) chunks :
  is_Some (dict_get k chunks) -> map fst (dict_set k v chunks) = map fst chunks.
Proof.
  induction chunks as [|[k' v'] chunks IH]; cbn [dict_get dict_set map fst].
  - intros [? [=]].
  - destruct (String.eqb k k') eqn:Hk; cbn [map fst].
    + apply String.eqb_eq in Hk as ->. reflexivity.
    + intros Hsome. now rewrite IH.
Qed.

Lemma get_in_keys k (chunks : dict Z) :
  In k (map fst chunks) -> is_Some (dict_get k chunks).
Proof.
  induction chunks as [|[k' v'] chunks IH]; cbn [dict_get map fst]; [intros []|].
  destruct (String.eqb k k') eqn:Hk; [eauto|].
  intros [->|Hin]; [rewrite String.eqb_refl in Hk; discriminate | auto].
Qed.

Lemma get_in_values k v (chunks : dict Z) :
  dict_get k chunks = Some v -> In v (map snd chunks).
Proof.
  induction chunks as [|[k' v'] chunks IH]; cbn [dict_get map snd]; [discriminate|].
  destruct (String.eqb k k'); [intros [= ->]; now left | right; auto].
Qed.

Lemma total_set k v v' chunks :
  dict_get k chunks = Some v -> total (dict_set k v' chunks) = total chunks - v + v'.
Proof.
  unfold total.
  induction chunks as [|[k0 v0] chunks IH]; cbn [dict_get dict_set]; [discriminate|].
  destruct (String.eqb k k0) eqn:Hk; cbn [map snd fold_right].
  - intros [= ->]. lia.
  - intros Hget. rewrite IH by assumption. lia.
Qed.

Lemma values_set k v v' (P : Z -> Prop) chunks :
  dict_get k chunks = Some v -> P v' ->
  Forall P (map snd chunks) -> Forall P (map snd (dict_set k v' chunks)).
Proof.
  intros Hget Hv'.
  induction chunks as [|[k0 v0] chunks IH] in Hget |- *;
    cbn [dict_get dict_set] in *; [discriminate|].
  destruct (String.eqb k k0); cbn [map snd]; intros Hall;
    apply List.Forall_cons_iff in Hall as [H0 Hall];
    apply List.Forall_cons; auto.
Qed.

Lemma shrunk_refl chunks : shrunk chunks chunks.
Proof.
  unfold shrunk. induction chunks as [|entry chunks IH]; [apply List.Forall2_nil|].
  apply List.Forall2_cons; [|exact IH]. split; [reflexivity|]. split; [lia | auto].
Qed.

Lemma shrunk_trans a b c : shrunk a b -> shrunk b c -> shrunk a c.
Proof.
  unfold shrunk. intros Hab. revert c.
  induction Hab as [|x y a b (K1 & L1 & P1) _ IH]; intros c Hbc;
    inversion Hbc as [|? z ? c' (K2 & L2 & P2) Hrest]; subst; constructor.
  - split; [congruence|]. split; [lia | auto].
  - now apply IH.
Qed.

Lemma shrunk_set k v chunks :
  dict_get k chunks = Some v -> 1 <= v ->
  shrunk chunks (dict_set k (Z.max (v / 2) 1) chunks).
Proof.
  intros Hget Hv. unfold shrunk.
  induction chunks as [|[k0 v0] chunks IH] in Hget |- *;
    cbn [dict_get dict_set] in *; [discriminate|].
  destruct (String.eqb k k0) eqn:Hk.
  - injection Hget as ->. apply String.eqb_eq in Hk as ->.
    apply List.Forall2_cons; [|apply shrunk_refl]. cbn [fst snd].
    split; [reflexivity|]. split; [|lia].
    assert (v / 2 <= v) by (apply Z.div_le_upper_bound; lia). lia.
  - apply List.Forall2_cons; [|now apply IH].
    split; [reflexivity|]. split; [lia | auto].
Qed.

Lemma shrunk_keys a b : shrunk a b -> map fst b = map fst a.
Proof.
  induction 1 as [|x y a b (K & _) _ IH]; [reflexivity|].
  cbn [map]. congruence.
Qed.

Lemma cycle_loop_S fuel max_size dims pending chunks :
  cycle_loop (S fuel) max_size dims pending chunks
  = match pending with
    | [] =>
        match dims with
        | [] => Some (inr chunks)
        | _ :: _ => cycle_loop fuel max_size dims dims chunks
        end
    | dim :: pending' =>
        match chunk_size chunks with
        | inl e => Some (inl e)
        | inr size =>
            if size <? max_size then Some (inr chunks)
            else
              match dict_get dim chunks with
              | Some v =>
                  cycle_loop fuel max_size dims pending'
                    (dict_set dim (Z.max (v / 2) 1) chunks)
              | None => Some (inl (KeyError dim))
              end
        end
    end.
Proof. reflexivity. Qed.

(** More fuel does not change a result. *)
Lemma cycle_loop_more fuel : forall max_size dims pending chunks r,
  cycle_loop fuel max_size dims pending chunks = Some r ->
  cycle_loop (S fuel) max_size dims pending chunks = Some r.
Proof.
  induction fuel as [|fuel IH]; intros max_size dims pending chunks r; [discriminate|].
  intros Hrun. rewrite cycle_loop_S in Hrun. rewrite cycle_loop_S.
  destruct pending as [|dim pending].
  - destruct dims; [assumption | now apply IH].
  - destruct (chunk_size chunks) as [e|size]; [assumption|].
    destruct (size <? max_size); [assumption|].
    destruct (dict_get dim chunks); [now apply IH | assumption].
Qed.

Lemma cycle_loop_fuel fuel fuel' max_size dims pending chunks r :
  (fuel <= fuel')%nat ->
  cycle_loop fuel max_size dims pending chunks = Some r ->
  cycle_loop fuel' max_size dims pending chunks = Some r.
Proof.
  induction 1 as [|fuel' _ IH]; [auto|]. intros Hrun. now apply cycle_loop_more, IH.
Qed.

Section Loop.

Variable max_size : Z.
Variable dims : list string.
Hypothesis max_size_large : 2 <= max_size.
Hypothesis dims_some : dims <> [].
Hypothesis dims_once : List.NoDup dims.

Lemma get_of_in k (v : Z) chunks :
  List.NoDup (map fst chunks) -> In (k, v) chunks -> dict_get k chunks = Some v.
Proof.
  induction chunks as [|[k0 v0] chunks IH]; [intros _ []|].
  cbn [map fst dict_get]. intros [Hk0 Hnd]%List.NoDup_cons_iff [[= -> ->]|Hin].
  - now rewrite String.eqb_refl.
  - destruct (String.eqb_spec k k0) as [->|Hne]; [|auto].
    exfalso. apply Hk0. apply in_map_iff. now exists (k0, v).
Qed.

Lemma ends_break pending chunks :
  fit dims chunks ->
  product (map snd chunks) < max_size -> pending <> [] ->
  ends max_size dims pending chunks.
Proof.
  intros [Hkeys _] Hsmall Hpending.
  destruct pending as [|dim pending]; [congruence|].
  exists 1%nat, chunks. split; [|split; [apply shrunk_refl | auto]].
  rewrite cycle_loop_S. rewrite chunk_size_product.
  - apply Z.ltb_lt in Hsmall. now rewrite Hsmall.
  - intros ->. apply dims_some. now rewrite <- Hkeys.
Qed.

Lemma sizes_positive chunks k v :
  fit dims chunks -> max_size <= product (map snd chunks) ->
  dict_get k chunks = Some v -> 1 <= v.
Proof.
  intros [_ Hvalues] Hlarge Hget.
  assert (Hpos : Forall (fun v => 1 <= v) (map snd chunks))
    by (apply product_positive; [assumption | lia]).
  rewrite List.Forall_forall in Hpos. apply Hpos. eapply get_in_values; eauto.
Qed.

(** One step of the loop that halves a size, or leaves a size of 1. *)
Lemma ends_step dim pending chunks v :
  fit dims chunks ->
  max_size <= product (map snd chunks) ->
  dict_get dim chunks = Some v ->
  ends max_size dims pending (dict_set dim (Z.max (v / 2) 1) chunks) ->
  ends max_size dims (dim :: pending) chunks.
Proof.
  intros Hfit Hlarge Hget (fuel & chunks' & Hrun & Hshrunk & Hsmall).
  exists (S fuel), chunks'. split; [|split; [|assumption]].
  - rewrite cycle_loop_S. rewrite chunk_size_product
      by (intros ->; apply dims_some; now rewrite <- (proj1 Hfit)).
    apply Z.ltb_ge in Hlarge. now rewrite Hlarge, Hget.
  - eapply shrunk_trans; [|exact Hshrunk]. apply shrunk_set; [assumption|].
    eapply sizes_positive; eauto.
Qed.

Lemma fit_set dim v chunks :
  fit dims chunks -> dict_get dim chunks = Some v ->
  fit dims (dict_set dim (Z.max (v / 2) 1) chunks).
Proof.
  intros [Hkeys Hvalues] Hget. split.
  - rewrite keys_set by eauto. assumption.
  - eapply values_set; eauto. lia.
Qed.

(** With a size of 2 or more among the pending keys, the loop gets to
    chunks of a smaller total. *)
Lemma ends_pending (m : Z) :
  (forall chunks pending,
     fit dims chunks -> total chunks < m ->
     (forall dim, In dim pending -> In dim dims) ->
     ends max_size dims pending chunks) ->
  forall pending chunks,
    fit dims chunks -> total chunks = m ->
    (forall dim, In dim pending -> In dim dims) ->
    (product (map snd chunks) < max_size
     \/ exists dim v, In dim pending /\ dict_get dim chunks = Some v /\ 2 <= v) ->
    pending <> [] ->
    ends max_size dims pending chunks.
Proof.
  intros Hless.
  induction pending as [|dim pending IH]; intros chunks Hfit Htotal Hsub Hsome Hne;
    [congruence|].
  destruct (Z_lt_le_dec (product (map snd chunks)) max_size) as [Hsmall|Hlarge];
    [now apply ends_break|].
  destruct Hsome as [Hsmall|(dim' & v' & Hin & Hget' & Hv')]; [lia|].
  destruct (get_in_keys dim chunks) as [v Hget].
  { rewrite (proj1 Hfit). apply Hsub. now left. }
  pose proof (fit_set _ _ _ Hfit Hget) as Hfit'.
  pose proof (sizes_positive _ _ _ Hfit Hlarge Hget) as Hpos.
  assert (Hsub' : forall d, In d pending -> In d dims)
    by (intros d Hd; apply Hsub; now right).
  apply (ends_step _ _ _ v); auto.
  destruct (Z_lt_le_dec v 2) as [Hone|Htwo].
  - assert (v = 1) by lia. subst v.
    assert (dim' <> dim)
      by (intros ->; rewrite Hget in Hget'; injection Hget' as <-; lia).
    destruct Hin as [->|Hin]; [congruence|].
    apply IH; auto.
    + rewrite (total_set _ _ _ _ Hget). change (Z.max (1 / 2) 1) with 1. lia.
    + right. exists dim', v'. split; [assumption|]. split; [|assumption].
      now rewrite DictFacts.dict_get_set_other.
    + intros ->. destruct Hin.
  - apply Hless; [assumption | | assumption].
    rewrite (total_set _ _ _ _ Hget).
    assert (v / 2 < v) by (apply Z.div_lt; lia).
    assert (1 <= v / 2) by (apply Z.div_le_lower_bound; lia). lia.
Qed.

(** Chunks too large hold a size of 2 or more. *)
Lemma large_size chunks :
  fit dims chunks -> max_size <= product (map snd chunks) ->
  exists dim v, In dim dims /\ dict_get dim chunks = Some v /\ 2 <= v.
Proof.
  intros Hfit Hlarge.
  assert (Hpos : Forall (fun v => 1 <= v) (map snd chunks))
    by (apply product_positive; [apply Hfit | lia]).
  assert (Htwo : Exists (fun v => 2 <= v) (map snd chunks))
    by (apply product_factor; [assumption | lia]).
  apply List.Exists_exists in Htwo as (v & Hin & Hv).
  apply in_map_iff in Hin as ([k v0] & Heq & Hin). cbn [snd] in Heq. subst v0.
  exists k, v. destruct Hfit as [Hkeys _]. split; [|split; [|assumption]].
  - rewrite <- Hkeys. apply in_map_iff. now exists (k, v).
  - apply get_of_in; [now rewrite Hkeys | assumption].
Qed.

(** The loop ends, whatever keys are pending. *)
Lemma ends_any (m : Z) :
  (forall chunks pending,
     fit dims chunks -> total chunks < m ->
     (forall dim, In dim pending -> In dim dims) ->
     ends max_size dims pending chunks) ->
  forall pending chunks,
    fit dims chunks -> total chunks = m ->
    (forall dim, In dim pending -> In dim dims) ->
    ends max_size dims pending chunks.
Proof.
  intros Hless.
  assert (Hround : forall chunks,
            fit dims chunks -> total chunks = m -> ends max_size dims dims chunks).
  { intros chunks Hfit Htotal. apply (ends_pending m); auto.
    destruct (Z_lt_le_dec (product (map snd chunks)) max_size) as [Hsmall|Hlarge];
      [now left | right]. now apply large_size. }
  induction pending as [|dim pending IH]; intros chunks Hfit Htotal Hsub.
  - destruct (Hround chunks Hfit Htotal) as (fuel & chunks' & Hrun & Hrest).
    exists (S fuel), chunks'. split; [|exact Hrest].
    rewrite cycle_loop_S. destruct dims; [congruence | exact Hrun].
  - destruct (Z_lt_le_dec (product (map snd chunks)) max_size) as [Hsmall|Hlarge];
      [apply ends_break; [assumption | assumption | discriminate]|].
    destruct (get_in_keys dim chunks) as [v Hget].
    { rewrite (proj1 Hfit). apply Hsub. now left. }
    pose proof (fit_set _ _ _ Hfit Hget) as Hfit'.
    pose proof (sizes_positive _ _ _ Hfit Hlarge Hget) as Hpos.
    assert (Hsub' : forall d, In d pending -> In d dims)
      by (intros d Hd; apply Hsub; now right).
    apply (ends_step _ _ _ v); auto.
    destruct (Z_lt_le_dec v 2) as [Hone|Htwo].
    + assert (v = 1) by lia. subst v.
      apply IH; auto.
      rewrite (total_set _ _ _ _ Hget). change (Z.max (1 / 2) 1) with 1. lia.
    + apply Hless; [assumption | | assumption].
      rewrite (total_set _ _ _ _ Hget).
      assert (v / 2 < v) by (apply Z.div_lt; lia).
      assert (1 <= v / 2) by (apply Z.div_le_lower_bound; lia). lia.
Qed.

Lemma total_nonneg chunks : fit dims chunks -> 0 <= total chunks.
Proof.
  intros [_ Hvalues]. unfold total.
  induction Hvalues as [|v values Hv _ IH]; cbn [fold_right]; lia.
Qed.

(** The loop ends from all chunks. *)
Lemma ends_all (n : nat) : forall chunks pending,
  fit dims chunks -> total chunks < Z.of_nat n ->
  (forall dim, In dim pending -> In dim dims) ->
  ends max_size dims pending chunks.
Proof.
  induction n as [|n IH]; intros chunks pending Hfit Htotal Hsub.
  - pose proof (total_nonneg _ Hfit). lia.
  - destruct (Z_lt_le_dec (total chunks) (Z.of_nat n)) as [Hlt|Hge]; [now apply IH|].
    apply (ends_any (Z.of_nat n)); [exact IH | assumption | lia | assumption].
Qed.

End Loop.

(** [chunk_dataset] returns whenever [max_size] is 2 or more: for sizes
    that are not negative, the loop over the dimensions ends, in chunks
    of the same dimensions whose product is below [max_size]; no chunk is
    larger than the size of its dimension, and none is below 1 unless the
    size was. *)
Theorem chunk_dataset_ends sizes max_size :
  2 <= max_size ->
  List.NoDup (map fst sizes) ->
  Forall (fun v => 0 <= v) (map snd sizes) ->
  exists fuel chunks,
    (forall fuel', (fuel <= fuel')%nat ->
       chunk_dataset fuel' sizes max_size = Some (inr chunks))
    /\ shrunk sizes chunks
    /\ (sizes <> [] -> product (map snd chunks) < max_size).
Proof.
  intros Hmax Hnd Hvalues. unfold chunk_dataset.
  destruct sizes as [|entry sizes].
  { exists 1%nat, []. split; [|split; [constructor | congruence]].
    intros [|fuel'] Hle; [lia | reflexivity]. }
  set (chunks := entry :: sizes) in *.
  assert (Hdims : map fst chunks <> []) by discriminate.
  destruct (ends_all max_size (map fst chunks) Hmax Hdims Hnd
              (S (Z.to_nat (total chunks))) chunks (map fst chunks))
    as (fuel & chunks' & Hrun & Hshrunk & Hsmall).
  - split; [reflexivity | assumption].
  - pose proof (total_nonneg (map fst chunks) chunks (conj eq_refl Hvalues)). lia.
  - auto.
  - exists fuel, chunks'. split; [|split; [assumption | auto]].
    intros fuel' Hle. eapply cycle_loop_fuel; eauto.
Qed.

Lemma product_one values : Forall (fun v => 1 <= v) values -> 1 <= product values.
Proof.
  induction 1 as [|v values Hv _ IH]; cbn [product fold_right]; [lia|].
  fold (product values). nia.
Qed.

(** The loop does not end when [max_size] is 1 or less and no size is
    0: the product of the chunks never gets below 1. *)
Lemma cycle_loop_hangs max_size dims fuel : forall pending chunks,
  max_size <= 1 -> dims <> [] ->
  map fst chunks = dims ->
  Forall (fun v => 1 <= v) (map snd chunks) ->
  (forall dim, In dim pending -> In dim dims) ->
  cycle_loop fuel max_size dims pending chunks = None.
Proof.
  induction fuel as [|fuel IH]; intros pending chunks Hmax Hdims Hkeys Hvalues Hsub;
    [reflexivity|].
  rewrite cycle_loop_S. destruct pending as [|dim pending].
  - destruct dims as [|d dims'] eqn:Hd; [congruence|]. rewrite <- Hd in *.
    apply IH; auto.
  - rewrite chunk_size_product by (intros ->; apply Hdims; now rewrite <- Hkeys).
    pose proof (product_one _ Hvalues) as Hone.
    assert (Hge : (product (map snd chunks) <? max_size) = false)
      by (apply Z.ltb_ge; lia).
    rewrite Hge.
    destruct (get_in_keys dim chunks) as [v Hget].
    { rewrite Hkeys. apply Hsub. now left. }
    rewrite Hget. apply IH; auto.
    + rewrite keys_set by eauto. assumption.
    + eapply values_set; eauto. lia.
    + intros d Hd. apply Hsub. now right.
Qed.

(** [chunk_dataset] does not return when [max_size] is 1 or less, for a
    dataset with a dimension and no size 0: whatever the number of steps,
    the loop has not ended. *)
Theorem chunk_dataset_hangs sizes max_size fuel :
  max_size <= 1 ->
  sizes <> [] ->
  Forall (fun v => 1 <= v) (map snd sizes) ->
  chunk_dataset fuel sizes max_size = None.
Proof.
  intros Hmax Hsome Hvalues. unfold chunk_dataset.
  apply cycle_loop_hangs; auto.
  destruct sizes; [congruence | discriminate].
Qed.

End ChunksFacts.

(* ===================================================================== *)
(** ** Progress percentages: the ends of the bar, and the archive *)
(* ===================================================================== *)

Module ProgressFacts.
Import Progress ProgressWords.

Local Open Scope Z_scope.

(** A range of integers, checked one by one. *)
Lemma range_checked (check : Z -> bool) (bound : nat) :
  forallb check (map Z.of_nat (seq 0 bound)) = true ->
  forall z, 0 <= z < Z.of_nat bound -> check z = true.
Proof.
  intros Hall z Hz. rewrite forallb_forall in Hall. apply Hall.
  apply in_map_iff. exists (Z.to_nat z). split; [lia|]. apply in_seq. lia.
Qed.

(** For every start percentage from 0 to 100, the bar shows 100 when the
    work is done ([frac = 1.0]); when no work is done ([frac = 0.0]) it
    shows the start percentage, but for 29, 57 and 58, where it shows one
    less. *)
Theorem draw_bar_ends start_percentage :
  0 <= start_percentage <= 100 ->
  _draw_bar start_percentage 1%float = inr 100
  /\ _draw_bar start_percentage 0%float
     = inr (if (start_percentage =? 29) || (start_percentage =? 57)
               || (start_percentage =? 58)
            then start_percentage - 1 else start_percentage).
Proof.
  intros Hrange.
  pose (check := fun s =>
          match _draw_bar s 1%float, _draw_bar s 0%float with
          | inr done, inr none =>
              (done =? 100)
              && (none =? (if (s =? 29) || (s =? 57) || (s =? 58) then s - 1 else s))
          | _, _ => false
          end).
  assert (Hcheck : check start_percentage = true).
  { apply (range_checked check 101); [vm_compute; reflexivity | lia]. }
  unfold check in Hcheck.
  destruct (_draw_bar start_percentage 1%float) as [|done]; [discriminate|].
  destruct (_draw_bar start_percentage 0%float) as [|none]; [discriminate|].
  apply andb_true_iff in Hcheck as [H1 H2].
  apply Z.eqb_eq in H1, H2. now subst.
Qed.

(** Up to 100 the two conversions of an integer give the same number. *)
Lemma float_of_int_small z : 0 <= z <= 100 -> float_of_int z = small_float z.
Proof.
  intros Hz.
  assert (Hin : In z (map Z.of_nat (seq 0 101))).
  { apply in_map_iff. exists (Z.to_nat z). split; [lia|]. apply in_seq. lia. }
  cbv [seq map Z.of_nat Pos.of_succ_nat Pos.succ] in Hin.
  repeat (destruct Hin as [<-|Hin]; [reflexivity|]). destruct Hin.
Qed.

Lemma small_percentage_eq start_percentage n n_files :
  0 <= start_percentage <= 100 -> 0 <= n <= 100 -> 0 <= n_files <= 100 ->
  zip_metalink_percentage start_percentage n n_files
  = small_percentage start_percentage n n_files.
Proof.
  intros Hs Hn Hf. unfold zip_metalink_percentage, small_percentage.
  now rewrite !float_of_int_small by lia.
Qed.

Lemma climbs_spec (percentage : Z -> result Z) files : forall first low,
  climbs percentage files first low = true ->
  forall n, first <= n < first + Z.of_nat files ->
    exists p,
      percentage n = inr p
      /\ low <= p < 100
      /\ (n + 1 < first + Z.of_nat files ->
          exists next, percentage (n + 1) = inr next /\ p <= next).
Proof.
  induction files as [|files IH]; intros first low Hclimbs n Hn; [lia|].
  cbn [climbs] in Hclimbs.
  destruct (percentage first) as [e|p0] eqn:Hfirst; [discriminate|].
  apply andb_true_iff in Hclimbs as [Hrange Hrest].
  apply andb_true_iff in Hrange as [Hlow Hhigh].
  apply Z.leb_le in Hlow. apply Z.ltb_lt in Hhigh.
  destruct (Z.eq_dec n first) as [->|Hne].
  - exists p0. split; [assumption|]. split; [lia|]. intros Hmore.
    destruct (IH _ _ Hrest (first + 1) ltac:(lia)) as (next & Hnext & Hle & _).
    exists next. split; [assumption | lia].
  - destruct (IH _ _ Hrest n ltac:(lia)) as (p & Hp & Hle & Hmore).
    exists p. split; [assumption|]. split; [lia|]. intros Hlt. apply Hmore. lia.
Qed.

(** The percentages that [zip_metalink] logs, for an archive of up to
    64 files and a start percentage from 0 to 99: each lies between the
    start percentage and 99, and they do not go down from one file to the
    next. *)
Theorem zip_metalink_in_range start_percentage n n_files :
  0 <= start_percentage < 100 ->
  0 <= n < n_files ->
  n_files <= 64 ->
  exists p,
    zip_metalink_percentage start_percentage n n_files = inr p
    /\ start_percentage <= p < 100
    /\ (n + 1 < n_files ->
        exists next,
          zip_metalink_percentage start_percentage (n + 1) n_files = inr next
          /\ p <= next).
Proof.
  intros Hstart Hn Hfiles.
  pose (check := fun s =>
          forallb
            (fun n_files =>
               climbs (fun n => small_percentage s n n_files) (Z.to_nat n_files) 0 s)
            (map Z.of_nat (seq 0 65))).
  assert (Hcheck : check start_percentage = true).
  { apply (range_checked check 100); [vm_compute; reflexivity | lia]. }
  unfold check in Hcheck.
  pose proof (range_checked _ 65 Hcheck n_files ltac:(lia)) as Hclimbs.
  cbv beta in Hclimbs.
  destruct (climbs_spec _ _ _ _ Hclimbs n ltac:(lia)) as (p & Hp & Hrange & Hmore).
  exists p. rewrite small_percentage_eq by lia. split; [exact Hp|].
  split; [exact Hrange|]. intros Hnext.
  destruct (Hmore ltac:(lia)) as (next & Hnext_p & Hle).
  exists next. rewrite small_percentage_eq by lia. split; assumption.
Qed.

End ProgressFacts.

#[local] Existing Instance Demo.opaque.
#[local] Existing Instance Demo.externals.

(** The small world, two scenarios and the NetCDF format, for a process
    that takes the computed variable [tn10]: the handler returns, and its
    run is two complete scenarios in the order of the request, each with
    the calls that compute [tn10]. *)
Lemma pipeline_order_witness :
  exists response st' plan runs,
    Demo.run_tn10p "netcdf" "10, 50,90" ["rcp45"; "rcp85"] = (inr response, st')
    /\ plan_of Demo.bccaq_variables Demo.set_order Demo.process_tn10p
         (Demo.request "netcdf" "10, 50,90" ["rcp45"; "rcp85"]) plan
    /\ map sr_rcp runs = rp_rcps plan
    /\ Forall (scenario_flows Demo.bccaq_variables Demo.set_order
                 Demo.process_tn10p plan)
         runs
    /\ Forall (fun s => computes_variables (sr_intermediate_events s)
                          (inr (sr_intermediate_files s))) runs
    /\ count is_variable_dataset
         (trace (snd (Demo.run_tn10p "netcdf" "10, 50,90" ["rcp45"; "rcp85"])))
       = 2%nat.
Proof.
  destruct (Demo.run_tn10p "netcdf" "10, 50,90" ["rcp45"; "rcp85"])
    as [[e|response] st'] eqn:Hrun; [vm_compute in Hrun; discriminate|].
  exists response, st'.
  destruct (pipeline_order Demo.bccaq_variables Demo.set_order Demo.process_tn10p
              (Demo.request "netcdf" "10, 50,90" ["rcp45"; "rcp85"])
              Demo.start response st' Hrun)
    as (plan & runs & last & ensemble & written & Hplan & Hrcps & Hall & Hinter
        & _).
  exists plan, runs.
  split; [reflexivity|]. split; [exact Hplan|]. split; [exact Hrcps|].
  split; [exact Hall|]. split; [exact Hinter|].
  replace st' with (snd (Demo.run_tn10p "netcdf" "10, 50,90" ["rcp45"; "rcp85"]))
    by (now rewrite Hrun).
  vm_compute. reflexivity.
Defined.

(** The small world has no file for [rcp26]: the second scenario stops
    the run, after the first has written the file of [tn10] and the file
    of the indices. *)
Lemma no_data_raises_witness :
  fst (Demo.run_tn10p "csv" "10" ["rcp45"; "rcp26"])
  = inl (ProcessError no_data_message)
  /\ count is_netcdf_write
       (trace (snd (Demo.run_tn10p "csv" "10" ["rcp45"; "rcp26"])))
     = (count is_index_computation
          (trace (snd (Demo.run_tn10p "csv" "10" ["rcp45"; "rcp26"])))
        + count is_variable_dataset
            (trace (snd (Demo.run_tn10p "csv" "10" ["rcp45"; "rcp26"]))))%nat
  /\ count is_variable_dataset
       (trace (snd (Demo.run_tn10p "csv" "10" ["rcp45"; "rcp26"]))) = 1%nat.
Proof.
  destruct (Demo.run_tn10p "csv" "10" ["rcp45"; "rcp26"]) as [r st'] eqn:Hrun.
  assert (Hempty : Exists empty_subset (trace st')).
  { apply Exists_exists.
    exists (Call_subset_function "/w/rcp26" []
              (Demo.request "csv" "10" ["rcp45"; "rcp26"])).
    split; [|reflexivity].
    replace st' with (snd (Demo.run_tn10p "csv" "10" ["rcp45"; "rcp26"]))
      by (now rewrite Hrun).
    vm_compute. repeat (first [left; reflexivity | right]). }
  destruct (no_data_raises Demo.bccaq_variables Demo.set_order Demo.process_tn10p
              (Demo.request "csv" "10" ["rcp45"; "rcp26"])
              Demo.start r st' (trace st') Hrun eq_refl Hempty)
    as (Hr & _ & _ & Hcount & _).
  split; [exact Hr|]. split; [exact Hcount|].
  replace st' with (snd (Demo.run_tn10p "csv" "10" ["rcp45"; "rcp26"]))
    by (now rewrite Hrun).
  vm_compute. reflexivity.
Defined.

(** The small world again: both scenarios compute the percentiles 10,
    50 and 90, read from ["10, 50,90"]. *)
Lemma percentiles_and_scenarios_witness :
  exists response st',
    Demo.run "netcdf" "10, 50,90" ["rcp45"; "rcp85"] = (inr response, st')
    /\ forall ensemble values,
         In (Call_ensemble_percentiles ensemble values) (trace st') ->
         values = [10; 50; 90]%Z.
Proof.
  destruct (Demo.run "netcdf" "10, 50,90" ["rcp45"; "rcp85"])
    as [[e|response] st'] eqn:Hrun; [vm_compute in Hrun; discriminate|].
  exists response, st'. split; [reflexivity|].
  destruct (percentiles_and_scenarios Demo.bccaq_variables Demo.set_order
              Demo.process (Demo.request "netcdf" "10, 50,90" ["rcp45"; "rcp85"])
              Demo.start response st' Hrun)
    as (ps & percentiles & raw & plan & runs & evs & Hps & Hparsed & _ & Ht
        & Hvalues & _).
  vm_compute in Hps. injection Hps as <-.
  change (PyStr.split "," "10, 50,90") with ["10"; " 50"; "90"] in Hparsed.
  repeat match goal with
         | H : Forall2 _ (_ :: _) _ |- _ => inversion H; clear H; subst
         | H : Forall2 _ [] _ |- _ => inversion H; clear H; subst
         | H : PyStr.int _ = Some _ |- _ => vm_compute in H; injection H as <-
         end.
  cbn [trace Demo.start app] in Ht. rewrite Ht. exact Hvalues.
Defined.

(** The small world, one scenario and the CSV format: the handler
    returns, and its output is an archive named after the scenario. *)
Lemma output_by_format_witness :
  exists response st' output_filename,
    Demo.run "csv" "10" ["rcp45"] = (inr response, st')
    /\ make_output_filename Demo.process (Demo.request "csv" "10" ["rcp45"])
         (Some "rcp45") = inr output_filename
    /\ name (output response) = output_filename +:+ ".zip".
Proof.
  destruct (Demo.run "csv" "10" ["rcp45"])
    as [[e|response] st'] eqn:Hrun; [vm_compute in Hrun; discriminate|].
  exists response, st'.
  destruct (output_by_format Demo.bccaq_variables Demo.set_order Demo.process
              (Demo.request "csv" "10" ["rcp45"]) Demo.start response st' Hrun)
    as (output_format & raw & last_rcp & output_filename & output_basename
        & scenarios & joining & ensemble & written & Hformat & Hraw & Hlast
        & Hname & _ & _ & _ & _ & _ & Hout).
  vm_compute in Hformat. injection Hformat as <-.
  vm_compute in Hraw. injection Hraw as <-.
  vm_compute in Hlast. injection Hlast as <-.
  cbn [String.eqb Ascii.eqb Bool.eqb] in Hout.
  destruct Hout as (df & metadata & ensemble_csv & metadata_file & _ & _ & _ & _
                    & _ & Hzip).
  exists output_filename. split; [reflexivity|]. split; [exact Hname | exact Hzip].
Defined.

(** The small world with no scenario: the handler raises. *)
Lemma no_scenario_no_response_witness :
  exists e, fst (Demo.run "netcdf" "10" []) = inl e.
Proof.
  destruct (Demo.run "netcdf" "10" []) as [r st'] eqn:Hrun.
  exact (no_scenario_no_response Demo.bccaq_variables Demo.set_order Demo.process
           (Demo.request "netcdf" "10" []) Demo.start r st' Hrun eq_refl).
Defined.

(** The small world, two scenarios: every subtask percentage logged is
    below 100. *)
Lemma subtask_percentage_bounds_witness :
  exists response st',
    Demo.run "netcdf" "10" ["rcp45"; "rcp85"] = (inr response, st')
    /\ forall message process_step p,
         In (Call_write_log message process_step (Some p)) (trace st') ->
         (0 <= p < 100)%Z.
Proof.
  destruct (Demo.run "netcdf" "10" ["rcp45"; "rcp85"])
    as [[e|response] st'] eqn:Hrun; [vm_compute in Hrun; discriminate|].
  exists response, st'. split; [reflexivity|].
  destruct (subtask_percentage_bounds Demo.bccaq_variables Demo.set_order
              Demo.process (Demo.request "netcdf" "10" ["rcp45"; "rcp85"])
              Demo.start response st' Hrun) as (evs & Ht & Hp).
  cbn [trace Demo.start app] in Ht. rewrite Ht. exact Hp.
Defined.

(** The small world, NetCDF format: the run deletes the step. *)
Lemma convert_step_deleted_witness :
  exists response st',
    Demo.run "netcdf" "10" ["rcp45"] = (inr response, st')
    /\ status_percentage_steps st'
       = without_step "convert_to_csv" (status_percentage_steps Demo.start).
Proof.
  destruct (Demo.run "netcdf" "10" ["rcp45"])
    as [[e|response] st'] eqn:Hrun; [vm_compute in Hrun; discriminate|].
  exists response, st'. split; [reflexivity|].
  destruct (convert_step_deleted Demo.bccaq_variables Demo.set_order Demo.process
              (Demo.request "netcdf" "10" ["rcp45"]) Demo.start response st' Hrun)
    as (output_format & Hformat & Hsteps).
  vm_compute in Hformat. injection Hformat as <-.
  cbn [String.eqb Ascii.eqb Bool.eqb] in Hsteps. exact (proj2 Hsteps).
Defined.

(** The small world: a second NetCDF run on the state the first one
    left raises [KeyError]. *)
Lemma second_run_raises_witness :
  exists response st',
    Demo.run "netcdf" "10" ["rcp45"] = (inr response, st')
    /\ ensemble_common_handler Demo.bccaq_variables Demo.set_order Demo.process
         (Demo.request "netcdf" "50" ["rcp85"]) st'
       = (inl (KeyError "convert_to_csv"), st').
Proof.
  destruct (Demo.run "netcdf" "10" ["rcp45"])
    as [[e|response] st'] eqn:Hrun; [vm_compute in Hrun; discriminate|].
  exists response, st'. split; [reflexivity|].
  apply (second_run_raises Demo.bccaq_variables Demo.set_order Demo.process
           (Demo.request "netcdf" "10" ["rcp45"]) Demo.start response st'
           "netcdf" (Demo.request "netcdf" "50" ["rcp85"]) "netcdf" Hrun);
    first [reflexivity | discriminate].
Defined.

(** Iterating over the elements of a set, as the small world does,
    yields elements of the set. *)
Lemma elements_sound (s : gset string) x : In x (Demo.set_order s) -> x ∈ s.
Proof.
  unfold Demo.set_order. intros Hin.
  apply elem_of_elements, list_elem_of_In. exact Hin.
Defined.

(** Five files, two of them of the same name in two directories. *)
Lemma make_file_groups_groups_witness :
  exists groups,
    make_file_groups Demo.bccaq_variables Demo.set_order
      [mkPath "a" "tasmin_x.nc"; mkPath "b" "tasmin_x.nc"; mkPath "a" "tasmax_x.nc";
       mkPath "a" "pr_y.nc"; mkPath "a" "foo.nc"]
    = inr groups
    /\ List.NoDup (groups_names groups).
Proof.
  destruct (make_file_groups_groups Demo.bccaq_variables Demo.set_order
              [mkPath "a" "tasmin_x.nc"; mkPath "b" "tasmin_x.nc";
               mkPath "a" "tasmax_x.nc"; mkPath "a" "pr_y.nc"; mkPath "a" "foo.nc"]
              elements_sound)
    as (groups & Hrun & _ & Hnd & _).
  exists groups. split; assumption.
Defined.

Lemma elements_complete (s : gset string) x : x ∈ s -> In x (Demo.set_order s).
Proof.
  unfold Demo.set_order. intros Hin.
  apply list_elem_of_In, elem_of_elements. exact Hin.
Defined.

(** Four files of different names: the two of the tail [x.nc] are in
    one group. *)
Lemma make_file_groups_together_witness :
  exists groups group,
    make_file_groups Demo.bccaq_variables Demo.set_order
      [mkPath "a" "tasmin_x.nc"; mkPath "a" "tasmax_x.nc"; mkPath "a" "pr_y.nc";
       mkPath "a" "foo.nc"]
    = inr groups
    /\ In group groups
    /\ In ("tasmin", mkPath "a" "tasmin_x.nc") group
    /\ In ("tasmax", mkPath "a" "tasmax_x.nc") group.
Proof.
  destruct (make_file_groups_together Demo.bccaq_variables Demo.set_order
              [mkPath "a" "tasmin_x.nc"; mkPath "a" "tasmax_x.nc";
               mkPath "a" "pr_y.nc"; mkPath "a" "foo.nc"]
              elements_sound elements_complete)
    as (groups & Hrun & Htogether).
  - repeat (constructor;
            [cbn; intros Hin; repeat destruct Hin as [Hin|Hin]; discriminate || exact Hin|]).
    constructor.
  - unfold Demo.bccaq_variables. intros v Hv. set_unfold in Hv.
    repeat destruct Hv as [Hv|Hv]; subst v; reflexivity.
  - assert (Hmin : "tasmin" ∈ accepted_variables Demo.bccaq_variables)
      by (unfold accepted_variables, Demo.bccaq_variables; set_solver).
    assert (Hmax : "tasmax" ∈ accepted_variables Demo.bccaq_variables)
      by (unfold accepted_variables, Demo.bccaq_variables; set_solver).
    destruct (Htogether (mkPath "a" "tasmin_x.nc") "tasmin"
                (mkPath "a" "tasmax_x.nc") "tasmax" "x.nc"
                (or_introl eq_refl) (or_intror (or_introl eq_refl))
                Hmin Hmax eq_refl eq_refl)
      as (group & Hg & H1 & H2).
    exists groups, group. auto.
Defined.

(** Two files of the same name in two directories: the second one is in
    no group, though its name differs from the name of [tasmax_x.nc] in
    the variable only. *)
Example make_file_groups_same_name :
  make_file_groups Demo.bccaq_variables Demo.set_order
    [mkPath "a" "tasmin_x.nc"; mkPath "b" "tasmin_x.nc"; mkPath "a" "tasmax_x.nc"]
  = inr [[("tasmax", mkPath "a" "tasmax_x.nc"); ("tasmin", mkPath "a" "tasmin_x.nc")]].
Proof. vm_compute. reflexivity. Qed.



(** The small world, one scenario and the NetCDF format: the handler
    returns, and its output is a file with the suffix [.nc]. *)
Lemma output_format_alone_witness :
  exists response st',
    Demo.run "netcdf" "10" ["rcp45"] = (inr response, st')
    /\ PyPath.suffix (output response) = ".nc".
Proof.
  destruct (Demo.run "netcdf" "10" ["rcp45"])
    as [[e|response] st'] eqn:Hrun; [vm_compute in Hrun; discriminate|].
  exists response, st'.
  destruct (output_format_alone Demo.bccaq_variables Demo.set_order Demo.process
              (Demo.request "netcdf" "10" ["rcp45"]) Demo.start response st' Hrun)
    as (output_format & scenarios & joining & ensemble & written & Hformat & _
        & _ & _ & Hout).
  vm_compute in Hformat. injection Hformat as <-.
  cbn [String.eqb Ascii.eqb Bool.eqb] in Hout.
  destruct Hout as [_ Hsuffix]. split; [reflexivity | exact Hsuffix].
Defined.

(** The catalog of the tests, read with the method [xarray]. *)
Lemma other_methods_not_implemented_witness :
  get_bccaqv2_opendap_datasets Demo.ALL_24_MODELS Demo.BCCAQV2_MODELS Demo.PCIC_12
    Demo.PCIC_12_MODELS_REALIZATIONS Demo.test_catalog "catalog"
    (Some ["tasmin"]) (Some "rcp45") xarray None
  = inl (NotImplementedError "todo: filter models and runs").
Proof.
  exact (proj1 (other_methods_not_implemented Demo.ALL_24_MODELS Demo.BCCAQV2_MODELS
                  Demo.PCIC_12 Demo.PCIC_12_MODELS_REALIZATIONS Demo.test_glob
                  Demo.test_catalog xarray "catalog" (Some ["tasmin"]) (Some "rcp45")
                  None ltac:(discriminate))).
Defined.

(** The small world: the names for [rcp45] and [rcp85]. *)
Lemma output_filenames_differ_witness :
  make_output_filename Demo.process (Demo.request "netcdf" "10" ["rcp45"; "rcp85"])
    (Some "rcp45")
  <> make_output_filename Demo.process (Demo.request "netcdf" "10" ["rcp45"; "rcp85"])
       (Some "rcp85").
Proof.
  destruct (make_output_filename Demo.process
              (Demo.request "netcdf" "10" ["rcp45"; "rcp85"]) (Some "rcp45"))
    as [e1|fname1] eqn:H1; [vm_compute in H1; discriminate|].
  destruct (make_output_filename Demo.process
              (Demo.request "netcdf" "10" ["rcp45"; "rcp85"]) (Some "rcp85"))
    as [e2|fname2] eqn:H2; [vm_compute in H2; discriminate|].
  intros [= Heq]. revert Heq.
  apply (output_filenames_differ Demo.process
           (Demo.request "netcdf" "10" ["rcp45"; "rcp85"]) "rcp45" "rcp85");
    first [discriminate | assumption].
Defined.

(** The indicator of the small world takes [tasmin] only. *)
Lemma indicator_inputs_one_variable_witness :
  exists input_list,
    make_indicator_inputs Demo.bccaq_variables Demo.set_order (xci Demo.process) []
      [mkPath "a" "tasmin_x.nc"; mkPath "a" "tasmin_y.nc"]
    = inr input_list
    /\ length input_list = 2%nat.
Proof.
  destruct (indicator_inputs_one_variable Demo.bccaq_variables Demo.set_order
              (xci Demo.process) []
              [mkPath "a" "tasmin_x.nc"; mkPath "a" "tasmin_y.nc"] "tasmin")
    as (input_list & Hrun & Hlen & _); [vm_compute; reflexivity|].
  exists input_list. split; assumption.
Defined.

(** An indicator that takes [tasmin] and [tasmax]. *)
Lemma indicator_inputs_groups_witness :
  exists groups input_list,
    make_file_groups Demo.bccaq_variables Demo.set_order
      [mkPath "a" "tasmin_x.nc"; mkPath "a" "tasmax_x.nc"] = inr groups
    /\ make_indicator_inputs Demo.bccaq_variables Demo.set_order
         (["tasmin"; "tasmax"; "freq"] : @Indicator Demo.opaque) []
         [mkPath "a" "tasmin_x.nc"; mkPath "a" "tasmax_x.nc"]
       = inr input_list
    /\ length groups = length input_list.
Proof.
  destruct (indicator_inputs_groups Demo.bccaq_variables Demo.set_order
              elements_sound (["tasmin"; "tasmax"; "freq"] : @Indicator Demo.opaque) []
              [mkPath "a" "tasmin_x.nc"; mkPath "a" "tasmax_x.nc"])
    as (groups & input_list & Hgroups & Hrun & Hall); [vm_compute; lia|].
  exists groups, input_list. split; [assumption|]. split; [assumption|].
  exact (Forall2_length _ _ _ Hall).
Defined.

(** A dataset of 55000 days on a grid of 300 by 500, as
    [chunk_dataset] is called by [try_opendap]. *)
Lemma chunk_dataset_ends_witness :
  exists fuel chunks,
    Chunks.chunk_dataset fuel [("time", 55000); ("lat", 300); ("lon", 500)]%Z 1000000
    = Some (inr chunks)
    /\ (Chunks.product (map snd chunks) < 1000000)%Z.
Proof.
  destruct (ChunksFacts.chunk_dataset_ends
              [("time", 55000); ("lat", 300); ("lon", 500)]%Z 1000000)
    as (fuel & chunks & Hrun & _ & Hsmall).
  - lia.
  - repeat (constructor;
            [cbn; intros Hin; repeat destruct Hin as [Hin|Hin]; discriminate || exact Hin|]).
    constructor.
  - cbn [map snd]. repeat (apply List.Forall_cons; [lia|]). apply List.Forall_nil.
  - exists fuel, chunks. split; [apply Hrun; lia | apply Hsmall; discriminate].
Defined.

Example chunk_dataset_example :
  Chunks.chunk_dataset 100 [("time", 55000); ("lat", 300); ("lon", 500)]%Z 1000000
  = Some (inr [("time", 1718); ("lat", 18); ("lon", 31)]%Z).
Proof. vm_compute. reflexivity. Qed.

(** The same dataset with [max_size=1]. *)
Lemma chunk_dataset_hangs_witness :
  Chunks.chunk_dataset 1000 [("time", 55000); ("lat", 300); ("lon", 500)]%Z 1 = None.
Proof.
  apply ChunksFacts.chunk_dataset_hangs.
  - lia.
  - discriminate.
  - cbn [map snd]. repeat (apply List.Forall_cons; [lia|]). apply List.Forall_nil.
Defined.

(** A progress bar that starts at 50. *)
Lemma draw_bar_ends_witness :
  Progress._draw_bar 50 1%float = inr 100%Z
  /\ Progress._draw_bar 50 0%float = inr 50%Z.
Proof. apply (ProgressFacts.draw_bar_ends 50). lia. Defined.

(** The third of seven files, with the default start percentage. *)
Lemma zip_metalink_in_range_witness :
  exists p, Progress.zip_metalink_percentage 90 2 7 = inr p /\ (90 <= p < 100)%Z.
Proof.
  destruct (ProgressFacts.zip_metalink_in_range 90 2 7) as (p & Hp & Hrange & _);
    [lia | lia | lia |].
  exists p. split; assumption.
Defined.
